(** * Snapshot synchronisation engine of the montage calendar server

    A shallow embedding of the calendar server (the variant with the
    in-memory events snapshot): the event deriver [mapItemsToEvents], the
    snapshot digest, the refresh coordinator ([scheduleRefresh],
    [refreshSnapshot]), the patch applier ([patchSnapshotAssignedDate]) and
    the reconciliation poller ([pollBitrixTopUpdate]).

    JavaScript strings are kept as byte strings holding their UTF-8
    encoding: concatenation, equality and substring search agree with the
    UTF-16 originals on well-formed text. *)

From Stdlib Require Import ZArith String Ascii List Bool Lia DecimalString.
From stdpp Require Import gmap strings list fin_maps.
Import ListNotations.

Local Open Scope string_scope.
Local Open Scope Z_scope.
Local Set Warnings "-register-all".

(** ** JavaScript values as they arrive from JSON *)

Module JS.

(** A JSON-born value.  Numbers are the integers the CRM sends for ids and
    codes; a missing property reads as [JUndef]. *)
Inductive JVal : Type :=
| JUndef
| JNull
| JBool (b : bool)
| JNum (z : Z)
| JStr (s : string)
| JArr (l : list JVal)
| JObj (fields : list (string * JVal)).

(** [Boolean(v)], the truthiness test behind [!v], [v || d] and [filter(Boolean)]. *)
Definition truthy (v : JVal) : bool :=
  match v with
  | JUndef | JNull => false
  | JBool b => b
  | JNum z => negb (z =? 0)
  | JStr s => negb (String.eqb s EmptyString)
  | JArr _ | JObj _ => true
  end.

(** [a || b] *)
Definition jsOr (a b : JVal) : JVal := if truthy a then a else b.

(** [a ?? b] *)
Definition jsNullish (a b : JVal) : JVal :=
  match a with JUndef | JNull => b | _ => a end.

Fixpoint join (sep : string) (l : list string) : string :=
  match l with
  | [] => EmptyString
  | [x] => x
  | x :: rest => x ++ sep ++ join sep rest
  end.

Definition stringOfZ (z : Z) : string := NilZero.string_of_int (Z.to_int z).

(** [String(v)] *)
Fixpoint toStr (v : JVal) : string :=
  match v with
  | JUndef => "undefined"
  | JNull => "null"
  | JBool true => "true"
  | JBool false => "false"
  | JNum z => stringOfZ z
  | JStr s => s
  | JArr l =>
      join ","
        (List.map (fun x => match x with
                            | JUndef | JNull => EmptyString
                            | _ => toStr x
                            end) l)
  | JObj _ => "[object Object]"
  end.

(** *** White space and [String.prototype.trim] on UTF-8 text *)

Definition code (a : ascii) : N := N_of_ascii a.

(** TAB, LF, VT, FF, CR, SP *)
Definition ws1 (a : ascii) : bool :=
  let c := code a in
  ((9 <=? c) && (c <=? 13) || (c =? 32))%N.

(** U+00A0 *)
Definition ws2 (a b : ascii) : bool :=
  ((code a =? 194) && (code b =? 160))%N.

(** U+1680, U+2000..U+200A, U+2028, U+2029, U+202F, U+205F, U+3000, U+FEFF *)
Definition ws3 (a b c : ascii) : bool :=
  let x := code a in let y := code b in let z := code c in
  ((x =? 225) && (y =? 154) && (z =? 128)
   || (x =? 226) && (y =? 128)
      && ((128 <=? z) && (z <=? 138) || (z =? 168) || (z =? 169) || (z =? 175))
   || (x =? 226) && (y =? 129) && (z =? 159)
   || (x =? 227) && (y =? 128) && (z =? 128)
   || (x =? 239) && (y =? 187) && (z =? 191))%N.

Fixpoint trimStart (s : string) : string :=
  match s with
  | EmptyString => EmptyString
  | String a r1 =>
      if ws1 a then trimStart r1
      else match r1 with
           | EmptyString => s
           | String b r2 =>
               if ws2 a b then trimStart r2
               else match r2 with
                    | EmptyString => s
                    | String c r3 => if ws3 a b c then trimStart r3 else s
                    end
           end
  end.

(** [s.trim() === ''] *)
Definition blank (s : string) : bool := String.eqb (trimStart s) EmptyString.

Fixpoint trimEnd (s : string) : string :=
  match s with
  | EmptyString => EmptyString
  | String a r => if blank s then EmptyString else String a (trimEnd r)
  end.

Definition trim (s : string) : string := trimEnd (trimStart s).

(** [hay.startsWith(p)] *)
Fixpoint startsWith (p hay : string) : bool :=
  match p, hay with
  | EmptyString, _ => true
  | String a p', String b hay' => Ascii.eqb a b && startsWith p' hay'
  | String _ _, EmptyString => false
  end.

(** [hay.includes(needle)] *)
Fixpoint includes (needle hay : string) : bool :=
  startsWith needle hay
  || match hay with
     | EmptyString => false
     | String _ hay' => includes needle hay'
     end.

Definition isDigit (a : ascii) : bool := ((48 <=? code a) && (code a <=? 57))%N.

End JS.
Export JS.


(** ** Utilities of the server *)

Definition truthyDate (v : JVal) : bool :=
  match v with
  | JUndef | JNull => false
  | JStr s => negb (blank s)
  | _ => true
  end.

(** [firstNonEmpty(...vals)] *)
Fixpoint firstNonEmpty (vals : list JVal) : JVal :=
  match vals with
  | [] => JNull
  | v :: rest =>
      match v with
      | JUndef | JNull => firstNonEmpty rest
      | JStr s => if blank s then firstNonEmpty rest else v
      | _ => v
      end
  end.

Definition joinArrayField (v : JVal) : string :=
  if negb (truthy v) then EmptyString
  else match v with
       | JArr l => join (String (ascii_of_nat 10) EmptyString)
                     (List.map toStr (List.filter truthy l))
       | _ => toStr v
       end.

(** [/^\d{4}-\d{2}-\d{2}$/.test(s)] *)
Definition dateOnlyPattern (s : string) : bool :=
  match list_ascii_of_string s with
  | [y1; y2; y3; y4; h1; m1; m2; h2; d1; d2] =>
      isDigit y1 && isDigit y2 && isDigit y3 && isDigit y4
      && Ascii.eqb h1 "-" && isDigit m1 && isDigit m2
      && Ascii.eqb h2 "-" && isDigit d1 && isDigit d2
  | _ => false
  end.

Definition isDateOnlyString (v : JVal) : bool :=
  match v with
  | JStr s => dateOnlyPattern (trim s)
  | _ => false
  end.

Definition eventAllDayFromStart (startVal : JVal) : bool := isDateOnlyString startVal.

Definition isManualId (id : JVal) : bool := startsWith "m-" (toStr id).

(** ** Stages and colours *)

Definition STAGE_SUCCESS : string := "DT141_14:SUCCESS".
Definition STAGE_RECL_IN : string := "DT141_14:UC_9ALF9C".
Definition STAGE_RECL_WAIT : string := "DT141_14:UC_27ZEBX".

(** [RECL_STAGES.has(stageId)] *)
Definition RECL_STAGES_has (stageId : string) : bool :=
  String.eqb stageId STAGE_RECL_IN || String.eqb stageId STAGE_RECL_WAIT.

Definition COLOR_GRAY_DARK : string := "#111827".
Definition COLOR_BLUE : string := "#2563eb".
Definition COLOR_GREEN : string := "#16a34a".
Definition COLOR_PURPLE : string := "#7c3aed".
Definition COLOR_RED : string := "#ef4444".

Definition manualEventColor : string := "#ef4444".

Definition STONE_TYPE_MAP : list (string * string) :=
  [ ("8142", "Акрил"); ("8144", "Кварц"); ("8146", "Натуралка");
    ("8270", "Керамика"); ("8272", "Кварц+Акрил") ].

Fixpoint assoc (k : string) (l : list (string * string)) : option string :=
  match l with
  | [] => None
  | (k', v) :: rest => if String.eqb k k' then Some v else assoc k rest
  end.

Definition stoneTypeToText (v : JVal) : string :=
  match v with
  | JUndef | JNull => EmptyString
  | _ =>
      let s := trim (toStr v) in
      if String.eqb s EmptyString then EmptyString
      else match assoc s STONE_TYPE_MAP with
           | Some t => if String.eqb t EmptyString then s else t
           | None => s
           end
  end.

(** ** Data model *)

(** A raw CRM item, with the fields the deriver reads for the date, the
    colour, the done flag and the digest.  The address, coordinates, phone,
    thickness, manager, installers, calendar link and free comment are
    presentation attributes copied into the event; they feed none of these
    and are left out. *)
Record Item := mkItem {
  it_id : JVal;
  it_stageId : JVal;
  ufCrm8_1747916236564 : JVal; (* transferToShop *)
  ufCrm8_1747306212023 : JVal; (* otk *)
  ufCrm8_1744626911134 : JVal; (* planned *)
  ufCrm8_1747908559319 : JVal; (* assigned *)
  ufCrm8_1758806212646 : JVal; (* sys assigned *)
  ufCrm8_1744639197488 : JVal; (* done *)
  ufCrm8_1758702287777 : JVal; (* order number *)
  ufCrm8_1758702046420 : JVal; (* customer name *)
  ufCrm8_1732097971828 : JVal; (* install comment *)
  ufCrm8_1744638484827 : JVal; (* extra comment *)
  ufCrm8_1731616262 : JVal;    (* stone type *)
  ufCrm8_1759661234 : JVal     (* material code *)
}.

(** A manually entered record of [manualStore]. *)
Record Manual := mkManual {
  m_id : JVal;
  m_title : JVal;
  m_start : JVal;
  m_plannedInstall : JVal;
  m_assignedInstall : JVal;
  m_stoneCode : JVal;
  m_installComment : JVal;
  m_hideMarker : JVal
}.

(** A calendar event.  [extendedProps] is the open attribute map; [None]
    is an event (read back from disk) that carries none. *)
Record Event := mkEvent {
  ev_id : JVal;
  ev_title : JVal;
  start : JVal;
  allDay : bool;
  backgroundColor : JVal;
  borderColor : JVal;
  extendedProps : option (gmap string JVal)
}.

(** [p.k] on an attribute map *)
Definition prop (p : gmap string JVal) (k : string) : JVal :=
  match p !! k with Some v => v | None => JUndef end.

(** [e.extendedProps || {}] *)
Definition propsOf (e : Event) : gmap string JVal :=
  match extendedProps e with Some p => p | None => ∅ end.

(** [payload.events]: [None] stands for a value that is not an array. *)
Record Payload := mkPayload {
  p_version : Z;
  meta : gmap string JVal;
  events : option (list Event)
}.

Record Snapshot := mkSnapshot {
  version : Z;
  builtAt : Z;
  key : JVal;
  payload : Payload;
  digest : option string
}.

(** What the process does to the outside world, in order. *)
Inductive Effect : Type :=
| BroadcastVersion (v : Z)                         (* broadcastVersion() *)
| SaveSnapshotToDisk (snap : Snapshot)             (* saveSnapshotToDisk() *)
| SaveReclSeenStore (store : gmap string JVal)     (* saveReclSeenStore() *)
| LogError                                         (* console.error *)
| RefreshTimerSet (reason : string)                (* setTimeout(..., 250) in scheduleRefresh *)
| PollTimerSet.                                    (* setTimeout(pollBitrixTopUpdate, ...) *)

(** The module-level variables of the server. [ticks] counts the clock
    reads made so far and [trace] records the effects. *)
Record Globals := mkGlobals {
  dataVersion : Z;
  eventsSnapshot : Snapshot;
  manualStore : list Manual;
  reclSeenStore : gmap string JVal;
  doneStore : gmap string JVal;
  refreshInFlight : bool;
  refreshPending : bool;
  refreshTimer : option string;
  lastTopUpdatedTime : option string;
  ticks : nat;
  trace : list Effect
}.

Definition set_dataVersion (v : Z) (g : Globals) : Globals :=
  mkGlobals v (eventsSnapshot g) (manualStore g) (reclSeenStore g) (doneStore g)
    (refreshInFlight g) (refreshPending g) (refreshTimer g) (lastTopUpdatedTime g)
    (ticks g) (trace g).
Definition set_eventsSnapshot (v : Snapshot) (g : Globals) : Globals :=
  mkGlobals (dataVersion g) v (manualStore g) (reclSeenStore g) (doneStore g)
    (refreshInFlight g) (refreshPending g) (refreshTimer g) (lastTopUpdatedTime g)
    (ticks g) (trace g).
Definition set_reclSeenStore (v : gmap string JVal) (g : Globals) : Globals :=
  mkGlobals (dataVersion g) (eventsSnapshot g) (manualStore g) v (doneStore g)
    (refreshInFlight g) (refreshPending g) (refreshTimer g) (lastTopUpdatedTime g)
    (ticks g) (trace g).
Definition set_refreshInFlight (v : bool) (g : Globals) : Globals :=
  mkGlobals (dataVersion g) (eventsSnapshot g) (manualStore g) (reclSeenStore g) (doneStore g)
    v (refreshPending g) (refreshTimer g) (lastTopUpdatedTime g)
    (ticks g) (trace g).
Definition set_refreshPending (v : bool) (g : Globals) : Globals :=
  mkGlobals (dataVersion g) (eventsSnapshot g) (manualStore g) (reclSeenStore g) (doneStore g)
    (refreshInFlight g) v (refreshTimer g) (lastTopUpdatedTime g)
    (ticks g) (trace g).
Definition set_refreshTimer (v : option string) (g : Globals) : Globals :=
  mkGlobals (dataVersion g) (eventsSnapshot g) (manualStore g) (reclSeenStore g) (doneStore g)
    (refreshInFlight g) (refreshPending g) v (lastTopUpdatedTime g)
    (ticks g) (trace g).
Definition set_lastTopUpdatedTime (v : option string) (g : Globals) : Globals :=
  mkGlobals (dataVersion g) (eventsSnapshot g) (manualStore g) (reclSeenStore g) (doneStore g)
    (refreshInFlight g) (refreshPending g) (refreshTimer g) v
    (ticks g) (trace g).
Definition set_ticks (v : nat) (g : Globals) : Globals :=
  mkGlobals (dataVersion g) (eventsSnapshot g) (manualStore g) (reclSeenStore g) (doneStore g)
    (refreshInFlight g) (refreshPending g) (refreshTimer g) (lastTopUpdatedTime g)
    v (trace g).
Definition emit (e : Effect) (g : Globals) : Globals :=
  mkGlobals (dataVersion g) (eventsSnapshot g) (manualStore g) (reclSeenStore g) (doneStore g)
    (refreshInFlight g) (refreshPending g) (refreshTimer g) (lastTopUpdatedTime g)
    (ticks g) (trace g ++ [e]).

Inductive ItemOutcome : Type :=
| Pushed (e : Event)        (* events.push(...) *)
| NoTransferToShop          (* skipped.noTransferToShop++ *)
| NoPlannedNoAssigned       (* skipped.noPlannedNoAssigned++ *)
| NoStartDate.              (* skipped.noStartDate++ *)

Record Skipped := mkSkipped {
  noTransferToShop : nat;
  noStartDate : nat;
  noPlannedNoAssigned : nat
}.

Record Mapped := mkMapped {
  m_events : list Event;
  skipped : Skipped;
  reclChanged : bool
}.

Definition nonEmpty (s : string) : bool := negb (String.eqb s EmptyString).

Definition boolStr (b : bool) : string := if b then "true" else "false".

(** Supplied by the platform: [String.prototype.toLowerCase], the SHA-1 hex
    digest of [crypto], the successive readings of the wall clock and
    [Date.prototype.toISOString]. *)
Class Platform := mkPlatform {
  toLowerCase : string -> string;
  sha1_hex : string -> string;
  clock : nat -> Z;
  toISOString : Z -> string
}.

Section Engine.

Context {P : Platform}.

(** [Date.now()] *)
Definition dateNow (g : Globals) : Z * Globals :=
  (clock (ticks g), set_ticks (S (ticks g)) g).

(** [new Date().toISOString()] *)
Definition newDateISO (g : Globals) : string * Globals :=
  (toISOString (clock (ticks g)), set_ticks (S (ticks g)) g).

Definition detectPickup (title stoneText installComment extraComment : string) : bool :=
  let t := toLowerCase
             (join " " (List.filter nonEmpty [title; stoneText; installComment; extraComment])) in
  includes "самовывоз" t
  || includes "без монта" t
  || includes "безмонтаж" t
  || includes "без установки" t.

Definition pickColorByRules (reclEver : bool) (otkDate stoneTypeId : JVal)
    (title stoneText installComment extraComment : string) : string :=
  if reclEver then COLOR_RED
  else if negb (truthyDate otkDate) then COLOR_GRAY_DARK
  else if detectPickup title stoneText installComment extraComment then COLOR_PURPLE
  else
    let sid := match stoneTypeId with
               | JNull | JUndef => EmptyString
               | _ => trim (toStr stoneTypeId)
               end in
    if String.eqb sid "8142" then COLOR_BLUE
    else if String.eqb sid "8144" || String.eqb sid "8270"
            || String.eqb sid "8146" || String.eqb sid "8272" then COLOR_GREEN
    else COLOR_BLUE.

Definition colorToSortKey (color : string) : Z :=
  let c := toLowerCase color in
  if String.eqb c COLOR_GREEN then 0
  else if String.eqb c COLOR_BLUE || String.eqb c "#3b82f6" then 1
  else if String.eqb c COLOR_PURPLE then 2
  else if String.eqb c COLOR_RED then 3
  else if String.eqb c COLOR_GRAY_DARK || String.eqb c "#6b7280" then 4
  else 9.

(** *** MANUAL -> FullCalendar event *)
Definition manualToFcEvent (m : Manual) (g : Globals) : Event * Globals :=
  let id := toStr (m_id m) in
  let color := manualEventColor in
  let '(start, g1) :=
    let s := jsOr (jsOr (m_start m) (m_plannedInstall m)) (m_assignedInstall m) in
    if truthy s then (s, g)
    else let '(iso, g') := newDateISO g in (JStr iso, g') in
  let sortKey := colorToSortKey color in
  let sysDone := false in
  let done := truthy (prop (doneStore g1) id) in
  let stoneCode := trim (toStr (jsOr (m_stoneCode m) (JStr EmptyString))) in
  (mkEvent (JStr id) (jsOr (m_title m) (JStr id)) start (eventAllDayFromStart start)
     (JStr color) (JStr color)
     (Some (list_to_map
        [ ("color", JStr color); ("sortKey", JNum sortKey);
          ("done", JBool done); ("isDone", JBool sysDone);
          ("stageId", JStr "MANUAL");
          ("transferToShop", JNull); ("otkDate", JNull);
          ("plannedInstall", jsOr (m_plannedInstall m) JNull);
          ("assignedInstall", jsOr (m_assignedInstall m) JNull);
          ("sysAssignedInstall", JNull);
          ("assignedAny", jsOr (m_assignedInstall m) JNull);
          ("installDone", JNull);
          ("stoneTypeId", JNull); ("stoneText", JStr stoneCode);
          ("materialCode", JStr EmptyString); ("stoneCode", JStr stoneCode);
          ("installComment", jsOr (m_installComment m) (JStr EmptyString));
          ("extraComment", JStr EmptyString);
          ("hideMarker", JBool (truthy (m_hideMarker m))) ])),
   g1).

(** The [extendedProps] literal of a CRM-derived event. *)
Definition crmProps (color sortKey done isDone stageId transferToShop otkDate
    plannedInstall assignedInstall sysAssignedInstall assignedAny installDone
    orderNumber customerName installComment extraComment
    stoneTypeId stoneText materialCode hideMarker : JVal) : gmap string JVal :=
  list_to_map
    [ ("color", color); ("sortKey", sortKey);
      ("done", done); ("isDone", isDone);
      ("stageId", stageId);
      ("transferToShop", transferToShop); ("otkDate", otkDate);
      ("plannedInstall", plannedInstall);
      ("assignedInstall", assignedInstall);
      ("sysAssignedInstall", sysAssignedInstall);
      ("assignedAny", assignedAny);
      ("installDone", installDone);
      ("orderNumber", orderNumber);
      ("customerName", customerName);
      ("installComment", installComment);
      ("extraComment", extraComment);
      ("stoneTypeId", stoneTypeId); ("stoneText", stoneText);
      ("materialCode", materialCode); ("stoneCode", stoneText);
      ("hideMarker", hideMarker) ].

(** *** MAP ITEMS -> EVENTS: one turn of the loop over [items] *)
Definition mapItem (item : Item) (g : Globals) : Globals * bool * ItemOutcome :=
  let idStr := toStr (it_id item) in
  let stageId := trim (toStr (jsOr (it_stageId item) (JStr EmptyString))) in
  let isReclNow := RECL_STAGES_has stageId in
  let seen := truthy (prop (reclSeenStore g) idStr) in
  let isReclEver := isReclNow || seen in
  let '(g1, changed) :=
    if isReclNow && negb seen then
      let '(iso, g') := newDateISO g in
      (set_reclSeenStore
         (<[idStr := JObj [("at", JStr iso); ("stageId", JStr stageId)]]> (reclSeenStore g')) g',
       true)
    else (g, false) in
  (* 1) the card exists only when transferToShop is filled in *)
  let transferToShop := jsOr (ufCrm8_1747916236564 item) JNull in
  if negb (truthyDate transferToShop) then (g1, changed, NoTransferToShop)
  else
    let plannedInstall := jsOr (ufCrm8_1744626911134 item) JNull in
    let assignedInstall := jsOr (ufCrm8_1747908559319 item) JNull in
    let sysAssignedInstall := jsOr (ufCrm8_1758806212646 item) JNull in
    let installDone := jsOr (ufCrm8_1744639197488 item) JNull in
    let assignedAny := firstNonEmpty [assignedInstall; sysAssignedInstall] in
    (* 2) event date: installDone > assignedAny > plannedInstall *)
    let dateChoice :=
      if truthyDate installDone then Some installDone
      else if truthyDate assignedAny then Some assignedAny
      else if truthyDate plannedInstall then Some plannedInstall
      else None in
    match dateChoice with
    | None => (g1, changed, NoPlannedNoAssigned)
    | Some dateValue =>
        if negb (truthyDate dateValue) then (g1, changed, NoStartDate)
        else
          let sysDone := String.eqb stageId STAGE_SUCCESS in
          let hideMarker := sysDone in
          let orderNumber :=
            trim (toStr (jsOr (ufCrm8_1758702287777 item) (JStr EmptyString))) in
          let customerName :=
            trim (toStr (jsOr (ufCrm8_1758702046420 item) (JStr EmptyString))) in
          let prefix := if nonEmpty orderNumber then orderNumber else toStr (it_id item) in
          let title := if nonEmpty customerName
                       then prefix ++ " — " ++ customerName else prefix in
          let installComment := joinArrayField (ufCrm8_1732097971828 item) in
          let extraComment := joinArrayField (ufCrm8_1744638484827 item) in
          let stoneTypeId := jsNullish (ufCrm8_1731616262 item) JNull in
          let stoneTextFromId := stoneTypeToText stoneTypeId in
          let materialCode :=
            trim (toStr (jsOr (ufCrm8_1759661234 item) (JStr EmptyString))) in
          let stoneText :=
            trim (if nonEmpty stoneTextFromId then stoneTextFromId
                  else if nonEmpty materialCode then materialCode else EmptyString) in
          let otkDate := jsOr (ufCrm8_1747306212023 item) JNull in
          (* 3) colour *)
          let color := pickColorByRules isReclEver otkDate stoneTypeId
                         title stoneText installComment extraComment in
          let sortKey := colorToSortKey color in
          let done := if sysDone then true
                      else if isReclEver then false
                      else truthy (prop (doneStore g1) idStr) in
          (g1, changed,
           Pushed
             (mkEvent (JStr idStr) (JStr title) dateValue (eventAllDayFromStart dateValue)
                (JStr color) (JStr color)
                (Some (crmProps (JStr color) (JNum sortKey) (JBool done) (JBool sysDone)
                         (JStr stageId) transferToShop otkDate plannedInstall
                         (jsOr assignedInstall JNull) (jsOr sysAssignedInstall JNull)
                         (jsOr assignedAny JNull) installDone
                         (JStr orderNumber) (JStr customerName)
                         (JStr installComment) (JStr extraComment)
                         stoneTypeId (JStr stoneText) (JStr materialCode)
                         (JBool hideMarker)))))
    end.

Definition tally (out : ItemOutcome) (changed : bool) (acc : Mapped) : Mapped :=
  let sk := skipped acc in
  let rc := reclChanged acc || changed in
  match out with
  | Pushed e => mkMapped (m_events acc ++ [e]) sk rc
  | NoTransferToShop =>
      mkMapped (m_events acc)
        (mkSkipped (S (noTransferToShop sk)) (noStartDate sk) (noPlannedNoAssigned sk)) rc
  | NoPlannedNoAssigned =>
      mkMapped (m_events acc)
        (mkSkipped (noTransferToShop sk) (noStartDate sk) (S (noPlannedNoAssigned sk))) rc
  | NoStartDate =>
      mkMapped (m_events acc)
        (mkSkipped (noTransferToShop sk) (S (noStartDate sk)) (noPlannedNoAssigned sk)) rc
  end.

Fixpoint mapItemsLoop (items : list Item) (acc : Mapped) (g : Globals) : Globals * Mapped :=
  match items with
  | [] => (g, acc)
  | item :: rest =>
      let '(g1, changed, out) := mapItem item g in
      mapItemsLoop rest (tally out changed acc) g1
  end.

Definition mapItemsToEvents (items : list Item) (g : Globals) : Globals * Mapped :=
  mapItemsLoop items (mkMapped [] (mkSkipped 0 0 0) false) g.

(** *** Snapshot digest *)

Definition digestPart (e : Event) : string :=
  let p := propsOf e in
  "|" ++ toStr (ev_id e)
  ++ "|" ++ toStr (jsOr (start e) (JStr EmptyString))
  ++ "|" ++ toStr (jsOr (backgroundColor e) (JStr EmptyString))
  ++ "|" ++ boolStr (truthy (prop p "done"))
  ++ "|" ++ boolStr (truthy (prop p "isDone"))
  ++ "|" ++ boolStr (truthy (prop p "hideMarker"))
  ++ "|" ++ toStr (jsOr (prop p "otkDate") (JStr EmptyString))
  ++ "|" ++ toStr (jsOr (prop p "stageId") (JStr EmptyString)).

(** The byte sequence fed to the hash by the successive [h.update] calls. *)
Definition digestInput (evs : list Event) : string :=
  stringOfZ (Z.of_nat (length evs)) ++ String.concat EmptyString (List.map digestPart evs).

Definition snapshotDigest (p : Payload) : string :=
  sha1_hex (digestInput (match events p with Some evs => evs | None => [] end)).


(** *** Refresh coordinator *)

(** What the awaited calls of one refresh pass turn out to be:
    [loadAllSmartItems] resolves with the items or rejects ([None], which
    also stands for an answer the loop that collects the user ids chokes on,
    such as a [null] row: the pass throws at the same place, before anything
    is changed), [fetchUsersByBatch] and [saveReclSeenStore] resolve or
    reject.  A rejected [saveSnapshotToDisk] is swallowed by its own
    [.catch]. *)
Record Upstream := mkUpstream {
  pull : option (list Item);
  usersOk : bool;
  reclSaveOk : bool
}.

(** [scheduleRefresh]: any armed debounce timer is cleared and a new one armed. *)
Definition scheduleRefresh (reason : string) (g : Globals) : Globals :=
  emit (RefreshTimerSet reason) (set_refreshTimer (Some reason) g).

(** [saveSnapshotToDisk()]: the snapshot is read when the call is made. *)
Definition saveSnapshotToDisk (g : Globals) : Globals :=
  emit (SaveSnapshotToDisk (eventsSnapshot g)) g.

(** [broadcastVersion()] *)
Definition broadcastVersion (g : Globals) : Globals :=
  emit (BroadcastVersion (dataVersion g)) g.

(** [(manualStore || []).filter(m => m && isManualId(m.id)).map(manualToFcEvent)] *)
Fixpoint manualEventsOf (ms : list Manual) (g : Globals) : list Event * Globals :=
  match ms with
  | [] => ([], g)
  | m :: rest =>
      let '(e, g1) := manualToFcEvent m g in
      let '(es, g2) := manualEventsOf rest g1 in
      (e :: es, g2)
  end.

Definition skippedJson (sk : Skipped) : JVal :=
  JObj [ ("noTransferToShop", JNum (Z.of_nat (noTransferToShop sk)));
         ("noStartDate", JNum (Z.of_nat (noStartDate sk)));
         ("noPlannedNoAssigned", JNum (Z.of_nat (noPlannedNoAssigned sk))) ].

(** The [try] block up to [payload]: pull, warm the user cache, derive,
    persist new reclamation flags, add the manual events.  [None] when one
    of the awaited calls rejects; the synchronous steps are total on the data
    modelled here.  [t0] is the clock reading taken on entry. *)
Definition refreshBuild (reason : string) (up : Upstream) (g0 : Globals)
    : Globals * option (Z * Payload) :=
  let '(t0, g) := dateNow g0 in
  match pull up with
  | None => (g, None)
  | Some items =>
      if negb (usersOk up) then (g, None)
      else
        let '(g1, mapped) := mapItemsToEvents items g in
        let '(g2, saved) :=
          if reclChanged mapped
          then (emit (SaveReclSeenStore (reclSeenStore g1)) g1, reclSaveOk up)
          else (g1, true) in
        if negb saved then (g2, None)
        else
          let '(manualEvents, g3) :=
            manualEventsOf (List.filter (fun m => isManualId (m_id m)) (manualStore g2)) g2 in
          let '(iso, g4) := newDateISO g3 in
          let '(t1, g5) := dateNow g4 in
          (g5,
           Some (t0,
                 mkPayload (dataVersion g5)
                   (list_to_map
                      [ ("reason", JStr reason); ("builtAt", JStr iso);
                        ("perfMs", JNum (t1 - t0));
                        ("bitrixItems", JNum (Z.of_nat (length items)));
                        ("eventsOut", JNum (Z.of_nat (length (m_events mapped))));
                        ("manualOut", JNum (Z.of_nat (length manualEvents)));
                        ("skipped", skippedJson (skipped mapped)) ])
                   (Some (m_events mapped ++ manualEvents)%list)))
  end.

(** The rest of the [try] block: compare the digests, then discard or
    commit.  Returns whether the block goes on to [broadcastVersion]. *)
Definition commitOrDiscard (reason : string) (t0 : Z) (payload0 : Payload)
    (g : Globals) : Globals * bool :=
  let digest0 := snapshotDigest payload0 in
  let live := eventsSnapshot g in
  let same := match digest live with
              | Some d => nonEmpty d && String.eqb d digest0
              | None => false
              end in
  if same then
    let '(t2, g1) := dateNow g in
    let '(t3, g2) := dateNow g1 in
    let meta' := <["unchanged" := JBool true]>
                   (<["reason" := JStr reason]>
                      (<["lastRebuildMs" := JNum (t3 - t0)]> (meta (payload live)))) in
    let snap := mkSnapshot (version live) t2 (key live)
                  (mkPayload (p_version (payload live)) meta' (events (payload live)))
                  (digest live) in
    (saveSnapshotToDisk (set_eventsSnapshot snap g2), false)
  else
    let '(t2, g1) := dateNow g in
    let g2 := set_dataVersion t2 g1 in
    let payload1 := mkPayload (dataVersion g2) (meta payload0) (events payload0) in
    let '(t3, g3) := dateNow g2 in
    let snap := mkSnapshot (dataVersion g2) t3 JNull payload1 (Some digest0) in
    (saveSnapshotToDisk (set_eventsSnapshot snap g3), true).

(** The [try { ... } catch { console.error }] of a pass, for a pass during
    whose awaited calls the process serves nothing else.  On the commit
    path the code awaits the write of the snapshot between the commit and
    [broadcastVersion()], and the broadcast announces the data version as
    it is when the write has settled: what a patch or a route served in
    between does is no part of this function.  What the commit itself does
    is [commitOrDiscard], and the properties of the commit are stated on
    it. *)
Definition refreshBody (reason : string) (up : Upstream) (g0 : Globals) : Globals :=
  match refreshBuild reason up g0 with
  | (g, None) => emit LogError g
  | (g, Some (t0, payload0)) =>
      let '(g1, committed) := commitOrDiscard reason t0 payload0 g in
      if committed then broadcastVersion g1 else g1
  end.

(** The [finally] of a pass. *)
Definition refreshFinally (g : Globals) : Globals :=
  let g1 := set_refreshInFlight false g in
  if refreshPending g1
  then scheduleRefresh "pending" (set_refreshPending false g1)
  else g1.

(** The synchronous head of [refreshSnapshot]: join the pass in flight and
    leave a pending mark, or take the flight slot. *)
Definition refreshEnter (g : Globals) : Globals * bool :=
  if refreshInFlight g then (set_refreshPending true g, false)
  else (set_refreshInFlight true g, true).

(** A pass once it holds the flight slot, run to its end with nothing else
    served in between. *)
Definition refreshPass (reason : string) (up : Upstream) (g : Globals) : Globals :=
  refreshFinally (refreshBody reason up g).

(** [refreshSnapshot(reason)] with nothing else running in between. *)
Definition refreshSnapshot (reason : string) (up : Upstream) (g : Globals) : Globals :=
  let '(g1, started) := refreshEnter g in
  if started then refreshPass reason up g1 else g1.

(** *** Patch applier *)

Fixpoint findIndex {A} (f : A -> bool) (l : list A) : option nat :=
  match l with
  | [] => None
  | x :: rest => if f x then Some O else option_map S (findIndex f rest)
  end.

(** [v === true] *)
Definition isTrue (v : JVal) : bool :=
  match v with JBool true => true | _ => false end.

Definition patchEvent (value : JVal) (ev : Event) : Event :=
  let p := propsOf ev in
  mkEvent (ev_id ev) (ev_title ev) value (eventAllDayFromStart value)
    (backgroundColor ev) (borderColor ev)
    (Some (<["assignedAny" := value]> (<["assignedInstall" := value]> p))).

Definition patchSnapshotAssignedDate (idStr value : JVal) (g : Globals) : Globals * bool :=
  match events (payload (eventsSnapshot g)) with
  | None => (g, false)
  | Some evs =>
      match findIndex (fun e => String.eqb (toStr (ev_id e)) (toStr idStr)) evs with
      | None => (g, false)
      | Some idx =>
          match evs !! idx with
          | None => (g, false)
          | Some ev =>
              let p := propsOf ev in
              (* system-done cards are not patched *)
              if isTrue (prop p "isDone") || isTrue (prop p "hideMarker") then (g, false)
              else
                let evs' := <[idx := patchEvent value ev]> evs in
                (* bump version *)
                let '(t1, g1) := dateNow g in
                let g2 := set_dataVersion t1 g1 in
                let '(t2, g3) := dateNow g2 in
                let '(iso, g4) := newDateISO g3 in
                let live := eventsSnapshot g4 in
                let payload' :=
                  mkPayload (dataVersion g4)
                    (<["patchedAt" := JStr iso]>
                       (<["reason" := JStr "assigned_patch"]> (meta (payload live))))
                    (Some evs') in
                let snap := mkSnapshot (dataVersion g4) t2 (key live) payload'
                              (Some (snapshotDigest payload')) in
                (* persist + notify *)
                (broadcastVersion (saveSnapshotToDisk (set_eventsSnapshot snap g4)), true)
          end
      end
  end.

(** *** Reconciliation poller *)

(** A row of the poller's [crm.item.list] answer ([select: id, updatedTime, stageId]). *)
Record TopRow := mkTopRow {
  row_id : JVal;
  updatedTime : JVal;
  row_stageId : JVal
}.

(** One tick.  [resp] is the answer of the upstream call: [None] when it
    throws, else the rows of [data.result.items] (none when absent). *)
Definition pollBitrixTopUpdate (resp : option (list TopRow)) (g : Globals) : Globals :=
  let g1 :=
    match resp with
    | None => g
    | Some items =>
        let ut := match head items with
                  | Some top => if truthy (updatedTime top)
                                then Some (toStr (updatedTime top)) else None
                  | None => None
                  end in
        match ut with
        | Some u =>
            if nonEmpty u then
              let g' := match lastTopUpdatedTime g with
                        | Some l => if nonEmpty l && negb (String.eqb u l)
                                    then scheduleRefresh "bitrix_poll" g else g
                        | None => g
                        end in
              set_lastTopUpdatedTime (Some u) g'
            else g
        | None => g
        end
    end in
  emit PollTimerSet g1.

(** *** What the process does between two refreshes *)
Inductive Action : Type :=
| ARefresh (reason : string) (up : Upstream)      (* a whole refreshSnapshot *)
| APatch (idStr value : JVal)                     (* patchSnapshotAssignedDate *)
| APoll (resp : option (list TopRow))             (* a poller tick *)
| ASchedule (reason : string).                    (* scheduleRefresh *)

Definition act (a : Action) (g : Globals) : Globals :=
  match a with
  | ARefresh reason up => refreshSnapshot reason up g
  | APatch idStr value => fst (patchSnapshotAssignedDate idStr value g)
  | APoll resp => pollBitrixTopUpdate resp g
  | ASchedule reason => scheduleRefresh reason g
  end.

Fixpoint acts (l : list Action) (g : Globals) : Globals :=
  match l with
  | [] => g
  | a :: rest => acts rest (act a g)
  end.

(** *** The coordinator as a transition system

    Between the moment a pass takes the flight slot and the moment its
    [finally] runs, the process keeps serving other callbacks.  The
    callbacks that touch the coordinator are the calls of [scheduleRefresh],
    the debounce timer firing, and the end of the pass in flight.

    A pass ends in one of two ways.  [PassEnds up]: every stage query its
    pull has sent is settled by then (the pull resolved, or it rejected with
    nothing else awaited), and the awaited calls answer as [up] says.
    [PassAborts]: a stage query rejects while other stage queries of the
    same pull are still awaited; [Promise.all] in [mapLimit] rejects at
    once, the pass goes through [catch] and [finally], and the other workers
    of [mapLimit], which nothing stops, go on querying the stages that are
    left.  [StraySettles] is the moment at which the queries left over by an
    aborted pass have all settled.

    [passesStarted] and [pullsInFlight] are bookkeeping of the model: how
    many passes have begun their upstream pull, and how many pulls still
    have a stage query awaited. *)

Inductive CoordEvent : Type :=
| Trigger (reason : string)
| TimerFires
| PassEnds (up : Upstream)
| PassAborts
| StraySettles.

Record Coord := mkCoord {
  globals : Globals;
  passesStarted : nat;
  pullsInFlight : nat;
  flightReason : string
}.

(** What the awaited calls of an aborted pass amount to: the pull rejects. *)
Definition pullRejected : Upstream := mkUpstream None true true.

(** The pulls whose pass has ended. *)
Definition strayPulls (c : Coord) : nat :=
  (pullsInFlight c - (if refreshInFlight (globals c) then 1 else 0))%nat.

Definition step (ev : CoordEvent) (c : Coord) : option Coord :=
  let g := globals c in
  match ev with
  | Trigger reason =>
      Some (mkCoord (scheduleRefresh reason g) (passesStarted c) (pullsInFlight c)
              (flightReason c))
  | TimerFires =>
      match refreshTimer g with
      | None => None
      | Some reason =>
          let '(g1, started) := refreshEnter (set_refreshTimer None g) in
          if started
          then Some (mkCoord g1 (S (passesStarted c)) (S (pullsInFlight c)) reason)
          else Some (mkCoord g1 (passesStarted c) (pullsInFlight c) (flightReason c))
      end
  | PassEnds up =>
      if refreshInFlight g
      then Some (mkCoord (refreshPass (flightReason c) up g) (passesStarted c)
                   (Nat.pred (pullsInFlight c)) (flightReason c))
      else None
  | PassAborts =>
      if refreshInFlight g
      then Some (mkCoord (refreshPass (flightReason c) pullRejected g) (passesStarted c)
                   (pullsInFlight c) (flightReason c))
      else None
  | StraySettles =>
      match strayPulls c with
      | O => None
      | S _ => Some (mkCoord g (passesStarted c) (Nat.pred (pullsInFlight c))
                       (flightReason c))
      end
  end.

Fixpoint run (evs : list CoordEvent) (c : Coord) : option Coord :=
  match evs with
  | [] => Some c
  | ev :: rest =>
      match step ev c with
      | Some c1 => run rest c1
      | None => None
      end
  end.





(** *** The poller as a loop: tick after tick, whatever the answers *)
Fixpoint pollLoop (answers : list (option (list TopRow))) (g : Globals) : Globals :=
  match answers with
  | [] => g
  | resp :: rest => pollLoop rest (pollBitrixTopUpdate resp g)
  end.

End Engine.

(** ** Notions used to state the properties *)

(** A field is filled when it is present, is not a falsy value and is not
    a blank string. *)
Definition filled (v : JVal) : bool :=
  truthy v && match v with JStr s => negb (blank s) | _ => true end.

(** The stage of an item as the deriver reads it. *)
Definition stageOf (item : Item) : string :=
  trim (toStr (jsOr (it_stageId item) (JStr EmptyString))).

(** The date candidates of an item, highest priority first: completion,
    operator-assigned, system-assigned, planned. *)
Definition dateCandidates (item : Item) : list JVal :=
  [ ufCrm8_1744639197488 item; ufCrm8_1747908559319 item;
    ufCrm8_1758806212646 item; ufCrm8_1744626911134 item ].

(** The start date by the priority order; [None] when the item yields no event. *)
Definition startByPriority (item : Item) : option JVal :=
  if filled (ufCrm8_1747916236564 item)
  then List.find filled (dateCandidates item)
  else None.

(** The record [idStr] carries the ever-in-reclamation flag. *)
Definition flagged (idStr : string) (g : Globals) : Prop :=
  truthy (prop (reclSeenStore g) idStr) = true.

(** The versions pushed to the viewers, in order. *)
Fixpoint broadcasts (tr : list Effect) : list Z :=
  match tr with
  | [] => []
  | BroadcastVersion v :: rest => v :: broadcasts rest
  | _ :: rest => broadcasts rest
  end.

(** The snapshots handed to the disk writer, in order. *)
Fixpoint diskWrites (tr : list Effect) : list Snapshot :=
  match tr with
  | [] => []
  | SaveSnapshotToDisk s :: rest => s :: diskWrites rest
  | _ :: rest => diskWrites rest
  end.

(** How many times the poller re-armed itself. *)
Fixpoint pollTimers (tr : list Effect) : nat :=
  match tr with
  | [] => O
  | PollTimerSet :: rest => S (pollTimers rest)
  | _ :: rest => pollTimers rest
  end.

(** The debounce timers armed, in order. *)
Fixpoint refreshTimers (tr : list Effect) : list string :=
  match tr with
  | [] => []
  | RefreshTimerSet r :: rest => r :: refreshTimers rest
  | _ :: rest => refreshTimers rest
  end.

(** The free text scanned for self-pickup wording. *)
Definition pickupText (e : Event) : string :=
  join " "
    (List.filter nonEmpty
       [ toStr (ev_title e);
         toStr (prop (propsOf e) "stoneText");
         toStr (prop (propsOf e) "installComment");
         toStr (prop (propsOf e) "extraComment") ]).

Definition mentionsPickup {P : Platform} (text : string) : bool :=
  let t := toLowerCase text in
  includes "самовывоз" t || includes "без монта" t
  || includes "безмонтаж" t || includes "без установки" t.

(** The stone-type code of an item as text. *)
Definition stoneCodeOf (item : Item) : string :=
  match ufCrm8_1731616262 item with
  | JNull | JUndef => EmptyString
  | _ => trim (toStr (ufCrm8_1731616262 item))
  end.

(** The record was ever in a reclamation stage: it is in one now, or the
    store has it flagged. *)
Definition reclEverOf (item : Item) (g : Globals) : bool :=
  RECL_STAGES_has (stageOf item) || truthy (prop (reclSeenStore g) (toStr (it_id item))).

(** Everything but the reclamation store, the clock position and the trace. *)
Definition sameCore (g g' : Globals) : Prop :=
  dataVersion g' = dataVersion g
  /\ eventsSnapshot g' = eventsSnapshot g
  /\ manualStore g' = manualStore g
  /\ doneStore g' = doneStore g
  /\ refreshInFlight g' = refreshInFlight g
  /\ refreshPending g' = refreshPending g
  /\ refreshTimer g' = refreshTimer g
  /\ lastTopUpdatedTime g' = lastTopUpdatedTime g.

(** The patch applier's test for a closed card. *)
Definition closed (e : Event) : bool :=
  isTrue (prop (propsOf e) "isDone") || isTrue (prop (propsOf e) "hideMarker").

(** A decimal digit; a text that is a date written [YYYY-MM-DD] and nothing
    else. *)
Definition decimal (a : ascii) : Prop := (48 <= N_of_ascii a <= 57)%N.

Definition dateShaped (s : string) : Prop :=
  exists y1 y2 y3 y4 m1 m2 d1 d2 : ascii,
    s = string_of_list_ascii [y1; y2; y3; y4; "-"%char; m1; m2; "-"%char; d1; d2]
    /\ Forall decimal [y1; y2; y3; y4; m1; m2; d1; d2].

(** The timestamp a poller answer shows for the most recently updated record. *)
Definition topTimestamp (rows : list TopRow) : option string :=
  match rows with
  | top :: _ => if truthy (updatedTime top) then Some (toStr (updatedTime top)) else None
  | [] => None
  end.

(** One of the awaited calls of a pass that starts in [g] rejects: the pull,
    the warming of the user cache, or the saving of a changed reclamation
    store. *)
Definition passThrows {P : Platform} (up : Upstream) (g : Globals) : Prop :=
  match pull up with
  | None => True
  | Some items =>
      usersOk up = false
      \/ (reclChanged (snd (mapItemsToEvents items (snd (dateNow g)))) = true
          /\ reclSaveOk up = false)
  end.






(** ** Sample platforms and data *)

Definition lowerByte (a : ascii) : ascii :=
  let c := code a in
  if ((65 <=? c) && (c <=? 90))%N then ascii_of_N (c + 32) else a.

(** Lower-casing of Latin and Cyrillic letters on UTF-8 text. *)
Fixpoint lowerText (s : string) : string :=
  match s with
  | EmptyString => EmptyString
  | String a r =>
      match r with
      | String b r' =>
          let x := code a in let y := code b in
          if ((x =? 208) && (144 <=? y) && (y <=? 159))%N
          then String a (String (ascii_of_N (y + 32)) (lowerText r'))
          else if ((x =? 208) && (160 <=? y) && (y <=? 175))%N
          then String (ascii_of_N 209) (String (ascii_of_N (y - 32)) (lowerText r'))
          else if ((x =? 208) && (128 <=? y) && (y <=? 143))%N
          then String (ascii_of_N 209) (String (ascii_of_N (y + 16)) (lowerText r'))
          else String (lowerByte a) (lowerText r)
      | EmptyString => String (lowerByte a) EmptyString
      end
  end.

(** A stand-in digest that keeps its input, so that different inputs give
    different digests. *)
Definition tagDigest (s : string) : string := "sha1:" ++ s.

(** A clock that advances by one millisecond per reading. *)
Definition runningClock : Platform :=
  mkPlatform lowerText tagDigest (fun n => 1700000000000 + Z.of_nat n) stringOfZ.

Definition blankItem : Item :=
  mkItem JUndef JUndef JUndef JUndef JUndef JUndef JUndef JUndef JUndef JUndef JUndef JUndef
    JUndef JUndef.

(** [{id:7, transfer:"2024-01-01", otk:null, assigned:"2024-02-05"}] in the
    "assigned" stage. *)
Definition item7 : Item :=
  mkItem (JNum 7) (JStr "DT141_14:UC_44PKAP") (JStr "2024-01-01") JNull JUndef
    (JStr "2024-02-05") JUndef JUndef JUndef JUndef JUndef JUndef JUndef JUndef.

(** [{id:8, transfer:"2024-01-01", otk:"2024-01-10"}] in a reclamation stage. *)
Definition item8 : Item :=
  mkItem (JNum 8) (JStr STAGE_RECL_IN) (JStr "2024-01-01") (JStr "2024-01-10") JUndef
    (JStr "2024-02-07") JUndef JUndef JUndef JUndef JUndef JUndef (JNum 8144) JUndef.

(** The same record once its stage has left the reclamation set. *)
Definition item8later : Item :=
  mkItem (JNum 8) (JStr "DT141_14:UC_44PKAP") (JStr "2024-01-01") (JStr "2024-01-10") JUndef
    (JStr "2024-02-07") JUndef JUndef JUndef JUndef JUndef JUndef (JNum 8144) JUndef.

(** A record with a completion date, planned and assigned dates, in the
    "installation done" stage. *)
Definition item9 : Item :=
  mkItem (JNum 9) (JStr "DT141_14:UC_1LC3F5") (JStr "2024-01-01") (JStr "2024-01-10")
    (JStr "2024-02-01") (JStr "2024-02-05") JUndef (JStr "2024-03-10")
    JUndef JUndef JUndef JUndef (JNum 8142) JUndef.

Definition emptySnapshot : Snapshot :=
  mkSnapshot 1600000000000 0 JNull (mkPayload 1600000000000 ∅ (Some [])) None.

(** The process right after start-up, nothing loaded. *)
Definition freshGlobals : Globals :=
  mkGlobals 1600000000000 emptySnapshot [] ∅ ∅ false false None None 0 [].

(** A clock whose first eight readings are seconds apart and whose later
    readings all fall within one millisecond. *)
Definition burstClock : Platform :=
  mkPlatform lowerText tagDigest
    (fun n => if (n <? 8)%nat then 1699999990000 + 1000 * Z.of_nat n else 1700000000000)
    stringOfZ.

(** The CRM answers with record 7 alone; every awaited call succeeds. *)
Definition up7 : Upstream := mkUpstream (Some [item7]) true true.

(** The CRM is unreachable. *)
Definition upDown : Upstream := mkUpstream None true true.

Module Running.
#[local] Existing Instance runningClock.

(** The first refresh after start-up, and the state in which the next pass
    holds the flight slot. *)
Definition afterStartup : Globals := refreshSnapshot "startup" up7 freshGlobals.
Definition secondPass : Globals := fst (refreshEnter afterStartup).

(** What the second pass rebuilds. *)
Definition rebuilt : Globals * option (Z * Payload) := refreshBuild "bitrix_hook" up7 secondPass.
Definition rebuiltGlobals : Globals := fst rebuilt.
Definition rebuiltT0 : Z := match snd rebuilt with Some (t0, _) => t0 | None => 0 end.
Definition rebuiltPayload : Payload :=
  match snd rebuilt with Some (_, p) => p | None => payload emptySnapshot end.

(** The event derived from record 7 on a fresh process. *)
Definition event7 : Event :=
  match snd (mapItem item7 freshGlobals) with
  | Pushed e => e
  | _ => mkEvent JUndef JUndef JUndef false JUndef JUndef None
  end.


(** Two poller answers with different top timestamps. *)
Definition rowsA : list TopRow :=
  [mkTopRow (JNum 7) (JStr "2024-02-01T10:00:00+03:00") (JStr "DT141_14:UC_44PKAP")].
Definition rowsB : list TopRow :=
  [mkTopRow (JNum 8) (JStr "2024-02-01T10:05:00+03:00") (JStr STAGE_RECL_IN);
   mkTopRow (JNum 7) (JStr "2024-02-01T10:00:00+03:00") (JStr "DT141_14:UC_44PKAP")].

(** The poller has seen the top timestamp of [rowsA]; its next tick sees
    that of [rowsB] and arms a refresh; the pass of that refresh finds the
    CRM unreachable; the three ticks after it get the answer [rowsB] again. *)
Definition polled : Globals := pollLoop [Some rowsA; Some rowsB] afterStartup.
Definition pollPass : Globals := fst (refreshEnter (set_refreshTimer None polled)).
Definition failedPass : Globals := refreshPass "bitrix_poll" upDown pollPass.
Definition laterTicks : Globals := pollLoop [Some rowsB; Some rowsB; Some rowsB] failedPass.
End Running.

Module Burst.
#[local] Existing Instance burstClock.

(** A patch lands between the last await of a pass and its commit, all
    within one millisecond: the start-up refresh, the payload of the next
    pass (the CRM still answers with the old date), the patch of record 7,
    and then the commit of that payload. *)
Definition afterStartup : Globals := refreshSnapshot "startup" up7 freshGlobals.
Definition rebuilt : Globals * option (Z * Payload) :=
  refreshBuild "bitrix_hook" up7 (fst (refreshEnter afterStartup)).
Definition rebuiltT0 : Z := match snd rebuilt with Some (t0, _) => t0 | None => 0 end.
Definition rebuiltPayload : Payload :=
  match snd rebuilt with Some (_, p) => p | None => payload emptySnapshot end.
Definition afterPatch : Globals :=
  fst (patchSnapshotAssignedDate (JStr "7") (JStr "2024-03-01") (fst rebuilt)).
Definition afterCommit : Globals * bool :=
  commitOrDiscard "bitrix_hook" rebuiltT0 rebuiltPayload afterPatch.

(** A second patch of record 7, within the same millisecond as the first. *)
Definition secondPatch : Globals * bool :=
  patchSnapshotAssignedDate (JStr "7") (JStr "2024-03-02") afterPatch.
End Burst.

(** * Further parts of the server *)

Definition set_manualStore (v : list Manual) (g : Globals) : Globals :=
  mkGlobals (dataVersion g) (eventsSnapshot g) v (reclSeenStore g) (doneStore g)
    (refreshInFlight g) (refreshPending g) (refreshTimer g) (lastTopUpdatedTime g)
    (ticks g) (trace g).
Definition set_doneStore (v : gmap string JVal) (g : Globals) : Globals :=
  mkGlobals (dataVersion g) (eventsSnapshot g) (manualStore g) (reclSeenStore g) v
    (refreshInFlight g) (refreshPending g) (refreshTimer g) (lastTopUpdatedTime g)
    (ticks g) (trace g).

(** ** Paging through [crm.item.list] *)

(** An answer of [crm.item.list]: [data.result.items] ([None] when absent)
    and [data.next]. *)
Record ListAnswer := mkListAnswer {
  ans_items : option (list Item);
  ans_next : JVal
}.

Inductive Loaded : Type :=
| LoadedItems (all : list Item)   (* return all *)
| LoadThrew                       (* a request rejected *)
| LoadRunning.                    (* the loop is still asking *)

(** The [while (true)] loop of [loadItemsForOneStage] and of the all-stages
    branch of [loadAllSmartItems].  [ask start] is the answer to the request
    with that [start] ([None] when it rejects); [fuel] bounds the number of
    requests looked at. *)
Fixpoint loadPages (fuel : nat) (ask : JVal -> option ListAnswer) (start : JVal)
    (all : list Item) : Loaded :=
  match fuel with
  | O => LoadRunning
  | S fuel' =>
      match ask start with
      | None => LoadThrew
      | Some data =>
          let items := match ans_items data with Some l => l | None => [] end in
          let all' := (all ++ items)%list in
          match ans_next data with
          | JUndef | JNull => LoadedItems all'
          | next => loadPages fuel' ask next all'
          end
      end
  end.

Definition loadItemsForOneStage (fuel : nat) (crm : string -> JVal -> option ListAnswer)
    (stageId : string) : Loaded :=
  loadPages fuel (crm stageId) (JNum 0) [].

(** A CRM that serves a collection in pages of [size] records, with the
    offset of the next page as [next]. *)
Definition pagedCrm (coll : list Item) (size : nat) (start : JVal) : option ListAnswer :=
  match start with
  | JNum z =>
      let s := Z.to_nat z in
      Some (mkListAnswer (Some (take size (drop s coll)))
              (if (s + size <? length coll)%nat then JNum (Z.of_nat (s + size)) else JUndef))
  | _ => None
  end.

(** ** [mapLimit]: a pool of workers over an array *)

(** [nextIdx] is the shared [idx], [results] the array [res] (with holes),
    and each worker is either awaiting [fn(arr[i])] for the [i] it holds or
    has left its loop.  [rejected] records that a call has rejected, which
    makes [Promise.all(workers)], and so [mapLimit], reject. *)
Record Pool (B : Type) := mkPool {
  nextIdx : nat;
  results : list (option B);
  workers : list (option nat);
  rejected : bool
}.
Arguments mkPool {B}.
Arguments nextIdx {B}.
Arguments results {B}.
Arguments workers {B}.
Arguments rejected {B}.

(** The workers run up to their first [await]: worker [w] holds index [w]. *)
Definition poolStart {A B : Type} (arr : list A) (limit : nat) : Pool B :=
  let n := Nat.min limit (length arr) in
  mkPool n (replicate (length arr) None) (List.map Some (seq 0 n)) false.

(** The call awaited by worker [w] settles.  [fn a] is what the call on [a]
    resolves with, [None] when it rejects.  On a result the worker stores it
    and takes the next index or leaves its loop; on a rejection the worker
    is gone, the others go on. *)
Definition poolStep {A B : Type} (fn : A -> option B) (arr : list A) (w : nat) (p : Pool B)
    : option (Pool B) :=
  match workers p !! w with
  | Some (Some i) =>
      match arr !! i with
      | Some a =>
          match fn a with
          | Some b =>
              let res' := <[i := Some b]> (results p) in
              if (nextIdx p <? length arr)%nat
              then Some (mkPool (S (nextIdx p)) res' (<[w := Some (nextIdx p)]> (workers p))
                           (rejected p))
              else Some (mkPool (nextIdx p) res' (<[w := None]> (workers p)) (rejected p))
          | None =>
              Some (mkPool (nextIdx p) (results p) (<[w := None]> (workers p)) true)
          end
      | None => None
      end
  | _ => None
  end.

(** The calls settle in the order of [schedule], given by worker. *)
Fixpoint poolRun {A B : Type} (fn : A -> option B) (arr : list A) (schedule : list nat)
    (p : Pool B) : option (Pool B) :=
  match schedule with
  | [] => Some p
  | w :: rest =>
      match poolStep fn arr w p with
      | Some p1 => poolRun fn arr rest p1
      | None => None
      end
  end.

Definition busy (w : option nat) : bool :=
  match w with Some _ => true | None => false end.

(** The calls awaited at the moment. *)
Definition poolInFlight {B : Type} (p : Pool B) : nat :=
  length (List.filter busy (workers p)).

(** Every worker has left its loop. *)
Definition poolDone {B : Type} (p : Pool B) : Prop :=
  Forall (fun w => w = None) (workers p).

(** ** [loadAllSmartItems], stage by stage *)

Definition STAGE_TRANSFER_TO_SHOP : string := "DT141_14:UC_FDWOQ4".
Definition STAGE_OTK_WAREHOUSE : string := "DT141_14:UC_MIB2DM".
Definition STAGE_ASSIGNED_INSTALL : string := "DT141_14:UC_44PKAP".
Definition STAGE_INSTALL_DONE : string := "DT141_14:UC_1LC3F5".

Definition STAGE_FILTER : list string :=
  [ STAGE_TRANSFER_TO_SHOP; STAGE_OTK_WAREHOUSE; STAGE_ASSIGNED_INSTALL;
    STAGE_INSTALL_DONE; STAGE_SUCCESS; STAGE_RECL_IN; STAGE_RECL_WAIT ].

(** [parts.flat()]: an index never written contributes nothing. *)
Definition flat (parts : list (option (list Item))) : list Item :=
  concat (List.map (fun part => match part with Some l => l | None => [] end) parts).

(** [loadAllSmartItems({ allStages: false, stageIds: null })], the call of
    a refresh pass unless the all-stages default is switched on:
    [mapLimit(STAGE_FILTER, 3, loadItemsForOneStage)], then [parts.flat()].
    [stageItems s] is what [loadItemsForOneStage(s)] resolves with, [None]
    when it rejects; [schedule] is the order in which the stage queries
    settle (a schedule that names a worker that awaits nothing describes no
    run). *)
Definition loadAllSmartItems (stageItems : string -> option (list Item))
    (schedule : list nat) : Loaded :=
  match poolRun stageItems STAGE_FILTER schedule (poolStart STAGE_FILTER 3) with
  | Some p =>
      if rejected p then LoadThrew
      else if forallb (fun w => negb (busy w)) (workers p)
      then LoadedItems (flat (results p))
      else LoadRunning
  | None => LoadRunning
  end.

(** A CRM serves the collection [coll] in pages of [size] records. *)
Definition servesInPages (ask : JVal -> option ListAnswer) (coll : list Item) (size : nat)
    : Prop :=
  forall s : nat, (s <= length coll)%nat ->
    ask (JNum (Z.of_nat s))
    = Some (mkListAnswer (Some (take size (drop s coll)))
              (if (s + size <? length coll)%nat then JNum (Z.of_nat (s + size)) else JUndef)).

(** ** [chunk], the pack builder of [fetchUsersByBatch] *)

(** [arr.slice(i, j)] for [i <= j] *)
Definition slice {A : Type} (i j : nat) (arr : list A) : list A := take (j - i) (drop i arr).

(** [for (let i = 0; i < arr.length; i += size) out.push(arr.slice(i, i + size))],
    for a positive [size]; [fuel] bounds the turns of the loop. *)
Fixpoint chunkLoop {A : Type} (fuel i : nat) (arr : list A) (size : nat) : list (list A) :=
  match fuel with
  | O => []
  | S fuel' =>
      if (i <? length arr)%nat
      then slice i (i + size) arr :: chunkLoop fuel' (i + size) arr size
      else []
  end.

Definition chunk {A : Type} (arr : list A) (size : nat) : list (list A) :=
  chunkLoop (length arr) 0 arr size.

(** ** Roles *)

Definition ROLE_ADMIN : string := "admin".
Definition ROLE_OPERATOR : string := "operator".
Definition ROLE_VIEWER : string := "viewer".

(** What a handler answers: the status code and, for an error, its tag. *)
Inductive Reply : Type :=
| ReplyOk
| ReplyError (code : Z) (error : string)
| ReplyRedirect (location : string).

(** [req.session.user] when there is one, as its [role] attribute. *)
Definition Session : Type := option JVal.

(** [getRole(req)] *)
Definition getRole (s : Session) : string :=
  toStr (jsOr (match s with Some role => role | None => JUndef end) (JStr ROLE_VIEWER)).

(** [requireAuth]: [None] lets the request through. *)
Definition requireAuth (s : Session) (accept : string) : option Reply :=
  match s with
  | Some _ => None
  | None => if includes "text/html" accept
            then Some (ReplyRedirect "/login")
            else Some (ReplyError 401 "unauthorized")
  end.

(** [requireRole(roles)] *)
Definition requireRole (roles : list string) (s : Session) : option Reply :=
  if existsb (String.eqb (getRole s)) roles then None
  else Some (ReplyError 403 "forbidden").

Definition requireEditor : Session -> option Reply := requireRole [ROLE_ADMIN; ROLE_OPERATOR].
Definition requireAdmin : Session -> option Reply := requireRole [ROLE_ADMIN].

(** A route [app.put(path, requireAuth, requireEditor, handler)]. *)
Definition editorRoute (s : Session) (accept : string)
    (handler : Globals -> Globals * Reply) (g : Globals) : Globals * Reply :=
  match requireAuth s accept with
  | Some r => (g, r)
  | None =>
      match requireEditor s with
      | Some r => (g, r)
      | None => handler g
      end
  end.

Section Handlers.

Context {P : Platform}.

(** ** The manual-date patch *)
Definition patchSnapshotManualDate (idStr value : JVal) (g : Globals) : Globals * bool :=
  match events (payload (eventsSnapshot g)) with
  | None => (g, false)
  | Some evs =>
      match findIndex (fun e => String.eqb (toStr (ev_id e)) (toStr idStr)) evs with
      | None => (g, false)
      | Some idx =>
          match evs !! idx with
          | None => (g, false)
          | Some ev =>
              let evs' := <[idx := patchEvent value ev]> evs in
              let '(t1, g1) := dateNow g in
              let g2 := set_dataVersion t1 g1 in
              let '(t2, g3) := dateNow g2 in
              let '(iso, g4) := newDateISO g3 in
              let live := eventsSnapshot g4 in
              let payload' :=
                mkPayload (dataVersion g4)
                  (<["patchedAt" := JStr iso]>
                     (<["reason" := JStr "manual_patch"]> (meta (payload live))))
                  (Some evs') in
              let snap := mkSnapshot (dataVersion g4) t2 (key live) payload'
                            (Some (snapshotDigest payload')) in
              (broadcastVersion (saveSnapshotToDisk (set_eventsSnapshot snap g4)), true)
          end
      end
  end.

(** ** Handlers of the editing routes

    A handler is given the route parameter [id] (a string), the fields of
    the request body it reads, and whether each store write it awaits
    succeeds; it returns the globals and the answer.  The free-comment
    store is not among the globals modelled: the one handler that touches
    it is told whether that step gets through. *)

(** [obj[k] = v] on a store that is a plain object (a literal, or what
    [JSON.parse] gave): the object gets or updates a property of its own,
    except under the key [__proto__] when the object holds no property of
    that name itself; the assignment then goes to the setter the object
    inherits, which ignores a value that is no object, and nothing is
    stored. *)
Definition assignKey (k : string) (v : JVal) (o : gmap string JVal) : gmap string JVal :=
  match o !! k with
  | None => if String.eqb k "__proto__" then o else <[k := v]> o
  | Some _ => <[k := v]> o
  end.

(** [PUT /api/done/:id] *)
Definition putDone (id : string) (doneField : JVal) (saveOk : bool) (g : Globals)
    : Globals * Reply :=
  let done := truthy doneField in
  let g1 := set_doneStore (assignKey id (JBool done) (doneStore g)) g in
  if saveOk then (scheduleRefresh "done_update" g1, ReplyOk)
  else (g1, ReplyError 500 "done_save_failed").

(** [DELETE /api/manual/:id] *)
Definition deleteManual (id : string) (saveManualOk commentsOk saveDoneOk : bool)
    (g : Globals) : Globals * Reply :=
  if negb (isManualId (JStr id)) then (g, ReplyError 400 "bad_id")
  else
    let before := length (manualStore g) in
    let g1 := set_manualStore
                (List.filter (fun x => negb (String.eqb (toStr (m_id x)) id)) (manualStore g))
                g in
    if (length (manualStore g1) =? before)%nat then (g1, ReplyError 404 "not_found")
    else if negb saveManualOk then (g1, ReplyError 500 "manual_delete_failed")
    else if negb commentsOk then (g1, ReplyError 500 "manual_delete_failed")
    else
      match doneStore g1 !! id with
      | Some _ =>
          let g2 := set_doneStore (delete id (doneStore g1)) g1 in
          if saveDoneOk then (scheduleRefresh "manual_delete" g2, ReplyOk)
          else (g2, ReplyError 500 "manual_delete_failed")
      | None => (scheduleRefresh "manual_delete" g1, ReplyOk)
      end.

Definition setManualDates (start assignedInstall : string) (m : Manual) : Manual :=
  mkManual (m_id m) (m_title m)
    (if nonEmpty start then JStr start else m_start m)
    (m_plannedInstall m)
    (if nonEmpty assignedInstall then JStr assignedInstall else m_assignedInstall m)
    (m_stoneCode m) (m_installComment m) (m_hideMarker m).

(** [PUT /api/manual/:id].  The third component is the reason of the
    refresh armed for 1.5 s later, when there is one. *)
Definition putManual (id : string) (startField assignedField : JVal) (saveOk : bool)
    (g : Globals) : Globals * Reply * option string :=
  if negb (isManualId (JStr id)) then (g, ReplyError 400 "bad_id", None)
  else
    let start := trim (toStr (jsOr startField (JStr EmptyString))) in
    let assignedInstall :=
      trim (toStr (jsOr (jsOr assignedField (JStr start)) (JStr EmptyString))) in
    match findIndex (fun x => String.eqb (toStr (m_id x)) id) (manualStore g) with
    | None => (g, ReplyError 404 "not_found", None)
    | Some idx =>
        let g1 := set_manualStore
                    (alter (setManualDates start assignedInstall) idx (manualStore g)) g in
        if negb saveOk then (g1, ReplyError 500 "manual_update_failed", None)
        else
          let value := if nonEmpty start then start else assignedInstall in
          let g2 := fst (patchSnapshotManualDate (JStr id) (JStr value) g1) in
          (g2, ReplyOk, Some "manual_update")
    end.

(** The fields of the body of [POST /api/manual] that make the record. *)
Record ManualBody := mkManualBody {
  b_title : JVal;
  b_stoneCode : JVal;
  b_plannedInstall : JVal;
  b_assignedInstall : JVal;
  b_installComment : JVal;
  b_start : JVal
}.

(** The record [obj] that the handler builds under the id [id]. *)
Definition manualOf (id title : string) (b : ManualBody) : Manual :=
  mkManual (JStr id) (JStr title)
    (jsOr (b_start b) JNull)
    (jsOr (b_plannedInstall b) JNull)
    (jsOr (b_assignedInstall b) JNull)
    (JStr (trim (toStr (jsOr (b_stoneCode b) (JStr EmptyString)))))
    (JStr (trim (toStr (jsOr (b_installComment b) (JStr EmptyString)))))
    JUndef.

(** [POST /api/manual].  [rnd] is [Math.floor(Math.random() * 1000)]; the
    third component is the id of the record made, when one is made. *)
Definition postManual (b : ManualBody) (rnd : Z) (saveOk : bool) (g : Globals)
    : Globals * Reply * option string :=
  let title := trim (toStr (jsOr (b_title b) (JStr EmptyString))) in
  if negb (nonEmpty title) then (g, ReplyError 400 "title_required", None)
  else
    let '(now, g1) := dateNow g in
    let id := "m-" ++ toStr (JNum now) ++ "-" ++ toStr (JNum rnd) in
    let '(createdAt, g2) := newDateISO g1 in
    let obj := manualOf id title b in
    let g3 := set_manualStore (manualStore g2 ++ [obj])%list g2 in
    if saveOk then
      let g4 := scheduleRefresh "manual_create" g3 in
      let '(event, g5) := manualToFcEvent obj g4 in
      (g5, ReplyOk, Some id)
    else (g3, ReplyError 500 "manual_create_failed", None).

(** ** Everything that changes the globals *)
Inductive Request : Type :=
| RAct (a : Action)
| RManualPatch (idStr value : JVal)
| RPutDone (id : string) (doneField : JVal) (saveOk : bool)
| RDeleteManual (id : string) (saveManualOk commentsOk saveDoneOk : bool)
| RPutManual (id : string) (startField assignedField : JVal) (saveOk : bool)
| RPostManual (b : ManualBody) (rnd : Z) (saveOk : bool).

Definition serve (r : Request) (g : Globals) : Globals :=
  match r with
  | RAct a => act a g
  | RManualPatch idStr value => fst (patchSnapshotManualDate idStr value g)
  | RPutDone id doneField saveOk => fst (putDone id doneField saveOk g)
  | RDeleteManual id s1 s2 s3 => fst (deleteManual id s1 s2 s3 g)
  | RPutManual id s a saveOk => fst (fst (putManual id s a saveOk g))
  | RPostManual b rnd saveOk => fst (fst (postManual b rnd saveOk g))
  end.

Fixpoint serveAll (l : list Request) (g : Globals) : Globals :=
  match l with
  | [] => g
  | r :: rest => serveAll rest (serve r g)
  end.

End Handlers.

(** ** The deriver of [serverFF.js]

    The server without snapshot derives events with the same loop, except
    that it reads the CRM title into the text scanned for self-pickup
    wording, takes the done flag from the completion date, and has no done
    store. *)

(** An item as that server reads it: the fields above and [title]. *)
Record ItemFF := mkItemFF {
  ff_base : Item;
  ff_title : JVal
}.

Section DeriverFF.

Context {P : Platform}.

(** The [extendedProps] literal of that server. *)
Definition ffProps (color sortKey stageId isDone reclNow reclEver transferToShop otkDate
    plannedInstall assignedInstall sysAssignedInstall assignedAny installDone
    orderNumber customerName installComment extraComment
    stoneTypeId stoneText materialCode hideMarker : JVal) : gmap string JVal :=
  list_to_map
    [ ("color", color); ("sortKey", sortKey);
      ("stageId", stageId); ("isDone", isDone);
      ("reclNow", reclNow); ("reclEver", reclEver);
      ("transferToShop", transferToShop); ("otkDate", otkDate);
      ("plannedInstall", plannedInstall);
      ("assignedInstall", assignedInstall);
      ("sysAssignedInstall", sysAssignedInstall);
      ("assignedAny", assignedAny);
      ("installDone", installDone);
      ("orderNumber", orderNumber);
      ("customerName", customerName);
      ("installComment", installComment);
      ("extraComment", extraComment);
      ("stoneTypeId", stoneTypeId); ("stoneText", stoneText);
      ("materialCode", materialCode); ("stoneCode", stoneText);
      ("hideMarker", hideMarker) ].

(** One turn of the loop of [mapItemsToEvents] in [serverFF.js]. *)
Definition mapItemFF (itemFF : ItemFF) (g : Globals) : Globals * bool * ItemOutcome :=
  let item := ff_base itemFF in
  let idStr := toStr (it_id item) in
  let stageId := trim (toStr (jsOr (it_stageId item) (JStr EmptyString))) in
  let isReclNow := RECL_STAGES_has stageId in
  let seen := truthy (prop (reclSeenStore g) idStr) in
  let isReclEver := isReclNow || seen in
  let '(g1, changed) :=
    if isReclNow && negb seen then
      let '(iso, g') := newDateISO g in
      (set_reclSeenStore
         (<[idStr := JObj [("at", JStr iso); ("stageId", JStr stageId)]]> (reclSeenStore g')) g',
       true)
    else (g, false) in
  let transferToShop := jsOr (ufCrm8_1747916236564 item) JNull in
  if negb (truthyDate transferToShop) then (g1, changed, NoTransferToShop)
  else
    let plannedInstall := jsOr (ufCrm8_1744626911134 item) JNull in
    let assignedInstall := jsOr (ufCrm8_1747908559319 item) JNull in
    let sysAssignedInstall := jsOr (ufCrm8_1758806212646 item) JNull in
    let installDone := jsOr (ufCrm8_1744639197488 item) JNull in
    let assignedAny := firstNonEmpty [assignedInstall; sysAssignedInstall] in
    let dateChoice :=
      if truthyDate installDone then Some installDone
      else if truthyDate assignedAny then Some assignedAny
      else if truthyDate plannedInstall then Some plannedInstall
      else None in
    match dateChoice with
    | None => (g1, changed, NoPlannedNoAssigned)
    | Some dateValue =>
        if negb (truthyDate dateValue) then (g1, changed, NoStartDate)
        else
          let isDone := truthyDate installDone in
          let hideMarker := isDone in
          let orderNumber :=
            trim (toStr (jsOr (ufCrm8_1758702287777 item) (JStr EmptyString))) in
          let customerName :=
            trim (toStr (jsOr (ufCrm8_1758702046420 item) (JStr EmptyString))) in
          let rawTitle := trim (toStr (jsOr (ff_title itemFF) (JStr EmptyString))) in
          let prefix := if nonEmpty orderNumber then orderNumber else toStr (it_id item) in
          let title := if nonEmpty customerName
                       then prefix ++ " — " ++ customerName else prefix in
          let installComment := joinArrayField (ufCrm8_1732097971828 item) in
          let extraComment := joinArrayField (ufCrm8_1744638484827 item) in
          let stoneTypeId := jsNullish (ufCrm8_1731616262 item) JNull in
          let stoneTextFromId := stoneTypeToText stoneTypeId in
          let materialCode :=
            trim (toStr (jsOr (ufCrm8_1759661234 item) (JStr EmptyString))) in
          let stoneText :=
            trim (if nonEmpty stoneTextFromId then stoneTextFromId
                  else if nonEmpty materialCode then materialCode else EmptyString) in
          let otkDate := jsOr (ufCrm8_1747306212023 item) JNull in
          let color := pickColorByRules isReclEver otkDate stoneTypeId
                         (join " " (List.filter nonEmpty [rawTitle; title]))
                         stoneText installComment extraComment in
          let sortKey := colorToSortKey color in
          (g1, changed,
           Pushed
             (mkEvent (JStr idStr) (JStr title) dateValue (eventAllDayFromStart dateValue)
                (JStr color) (JStr color)
                (Some (ffProps (JStr color) (JNum sortKey) (JStr stageId) (JBool isDone)
                         (JBool isReclNow) (JBool isReclEver)
                         transferToShop otkDate plannedInstall
                         (jsOr assignedInstall JNull) (jsOr sysAssignedInstall JNull)
                         (jsOr assignedAny JNull) installDone
                         (JStr orderNumber) (JStr customerName)
                         (JStr installComment) (JStr extraComment)
                         stoneTypeId (JStr stoneText) (JStr materialCode)
                         (JBool hideMarker)))))
    end.

End DeriverFF.

(** ** Notions for the further properties *)

(** What the digest reads of an event. *)
Definition digestView (e : Event) : string * string * string * bool * bool * bool * string * string :=
  let p := propsOf e in
  (toStr (ev_id e),
   toStr (jsOr (start e) (JStr EmptyString)),
   toStr (jsOr (backgroundColor e) (JStr EmptyString)),
   truthy (prop p "done"), truthy (prop p "isDone"), truthy (prop p "hideMarker"),
   toStr (jsOr (prop p "otkDate") (JStr EmptyString)),
   toStr (jsOr (prop p "stageId") (JStr EmptyString))).

(** The live snapshot hangs together: its digest, when it has one, is the
    digest of its payload, and the payload carries the snapshot's version. *)
Definition coherent {P : Platform} (g : Globals) : Prop :=
  (digest (eventsSnapshot g) = None
   \/ digest (eventsSnapshot g) = Some (snapshotDigest (payload (eventsSnapshot g))))
  /\ p_version (payload (eventsSnapshot g)) = version (eventsSnapshot g).

(** A manual record carries a date of its own. *)
Definition dated (m : Manual) : bool :=
  truthy (jsOr (jsOr (m_start m) (m_plannedInstall m)) (m_assignedInstall m)).

(** The items that yield no event for want of a transfer date, and for want
    of any schedulable date. *)
Definition lacksTransfer (item : Item) : bool := negb (filled (ufCrm8_1747916236564 item)).
Definition lacksDate (item : Item) : bool :=
  filled (ufCrm8_1747916236564 item)
  && match List.find filled (dateCandidates item) with Some _ => false | None => true end.

(** The lower-casing leaves the five colour codes as they are. *)
Definition keepsColours {P : Platform} : Prop :=
  Forall (fun c => toLowerCase c = c)
    [COLOR_GREEN; COLOR_BLUE; COLOR_PURPLE; COLOR_RED; COLOR_GRAY_DARK].

(** Worker [w] of the pool awaits the call on index [j]. *)
Definition held {B : Type} (p : Pool B) (j : nat) : Prop :=
  exists w, workers p !! w = Some (Some j).

(** What holds of a pool of [limit] workers over [arr] at every moment. *)
Definition poolInv {A B : Type} (fn : A -> option B) (arr : list A) (limit : nat)
    (p : Pool B) : Prop :=
  (nextIdx p <= length arr)%nat
  /\ length (results p) = length arr
  /\ length (workers p) = Nat.min limit (length arr)
  /\ (forall w i, workers p !! w = Some (Some i) -> (i < nextIdx p)%nat)
  /\ (rejected p = false ->
      (forall w, workers p !! w = Some None -> nextIdx p = length arr)
      /\ (forall j a, (j < nextIdx p)%nat -> arr !! j = Some a ->
            held p j \/ exists b, fn a = Some b /\ results p !! j = Some (Some b))).

(** The item is in a reclamation stage and the store has no flag for it yet. *)
Definition newlyReclaimed (g : Globals) (item : Item) : bool :=
  RECL_STAGES_has (stageOf item)
  && negb (truthy (prop (reclSeenStore g) (toStr (it_id item)))).

(** The sort rank of each of the five colours. *)
Definition colourRank (c : string) (k : Z) : Prop :=
  (c = COLOR_GREEN /\ k = 0) \/ (c = COLOR_BLUE /\ k = 1) \/ (c = COLOR_PURPLE /\ k = 2)
  \/ (c = COLOR_RED /\ k = 3) \/ (c = COLOR_GRAY_DARK /\ k = 4).

(** The event a turn of the deriver's loop yields for an item, if any. *)
Definition eventOf {P : Platform} (g : Globals) (item : Item) : option Event :=
  match snd (mapItem item g) with
  | Pushed e => Some e
  | _ => None
  end.

(** The id of an item as the deriver reads it. *)
Definition idOf (item : Item) : string := toStr (it_id item).

(** The record as the CRM holds it once [crm.item.update] has written the
    operator-assigned date. *)
Definition setAssigned (v : JVal) (item : Item) : Item :=
  mkItem (it_id item) (it_stageId item) (ufCrm8_1747916236564 item)
    (ufCrm8_1747306212023 item) (ufCrm8_1744626911134 item) v
    (ufCrm8_1758806212646 item) (ufCrm8_1744639197488 item)
    (ufCrm8_1758702287777 item) (ufCrm8_1758702046420 item)
    (ufCrm8_1732097971828 item) (ufCrm8_1744638484827 item)
    (ufCrm8_1731616262 item) (ufCrm8_1759661234 item).

(** The timestamp a tick takes note of, if any. *)
Definition observed (resp : option (list TopRow)) : option string :=
  match resp with
  | Some rows =>
      match topTimestamp rows with
      | Some u => if nonEmpty u then Some u else None
      | None => None
      end
  | None => None
  end.

(** How often a run of timestamps differs from the one remembered before it. *)
Fixpoint changes (l : option string) (us : list string) : nat :=
  match us with
  | [] => O
  | u :: rest =>
      ((match l with
        | Some x => if nonEmpty x && negb (String.eqb u x) then 1 else 0
        | None => 0
        end) + changes (Some u) rest)%nat
  end.

(** The role lets a request through the editing routes. *)
Definition isEditor (s : Session) : bool :=
  match s with
  | Some _ => String.eqb (getRole s) ROLE_ADMIN || String.eqb (getRole s) ROLE_OPERATOR
  | None => false
  end.

(** ** Further sample data *)

(** A CRM that serves records 7, 8 and 9 in pages of two, whatever the stage. *)
Definition crmInTwos (stageId : string) : JVal -> option ListAnswer :=
  pagedCrm [item7; item8; item9] 2.

(** A CRM whose every answer is an empty page that names a next one. *)
Definition crmEndless (stageId : string) (start : JVal) : option ListAnswer :=
  Some (mkListAnswer (Some []) (JNum 50)).

(** Five stage queries, each resolving with ten times its number, run
    three at a time; the calls settle in the order of the workers 1, 0, 2,
    1, 0. *)
Definition tenfold (n : nat) : option nat := Some (10 * n)%nat.
Definition poolSettled : Pool nat :=
  mkPool 5 [Some 10; Some 20; Some 30; Some 40; Some 50]%nat [None; None; None] false.
(** The same pool after the first two of them. *)
Definition poolMidway : Pool nat :=
  mkPool 5 [Some 10; Some 20; None; None; None]%nat [Some 4; Some 3; Some 2]%nat false.

(** Record 7 with a customer name. *)
Definition item7named : Item :=
  mkItem (JNum 7) (JStr "DT141_14:UC_44PKAP") (JStr "2024-01-01") JNull JUndef
    (JStr "2024-02-05") JUndef JUndef JUndef (JStr "Ivanov") JUndef JUndef JUndef JUndef.

(** A manual record with a start of its own, its marker hidden. *)
Definition manualA : Manual :=
  mkManual (JStr "m-1700000000000-42") (JStr "Showroom") (JStr "2024-02-10") JNull JNull
    (JStr EmptyString) (JStr EmptyString) (JBool true).


Module Sample.
#[local] Existing Instance runningClock.

(** The event derived from record 7 once it has a customer name. *)
Definition event7named : Event :=
  match snd (mapItem item7named freshGlobals) with
  | Pushed e => e
  | _ => mkEvent JUndef JUndef JUndef false JUndef JUndef None
  end.

(** The process with the manual record in its store, and after its
    start-up refresh. *)
Definition withManual : Globals := set_manualStore [manualA] freshGlobals.
Definition afterStartup : Globals := refreshSnapshot "startup" up7 withManual.
Definition eventA : Event := fst (manualToFcEvent manualA withManual).

(** What the start-up pass of that process builds. *)
Definition built : Globals * option (Z * Payload) :=
  refreshBuild "startup" up7 (fst (refreshEnter withManual)).
Definition builtPayload : Payload :=
  match snd built with Some (_, p) => p | None => payload emptySnapshot end.
Definition builtT0 : Z := match snd built with Some (t0, _) => t0 | None => 0 end.

(** An idle coordinator. *)
Definition idle : Coord := mkCoord freshGlobals 0 0 EmptyString.


(** A refresh, a done mark, a patch of the manual record, a new manual
    record, a poller tick. *)
Definition requests : list Request :=
  [ RAct (ARefresh "startup" up7);
    RPutDone "7" (JBool true) true;
    RManualPatch (JStr "m-1700000000000-42") (JStr "2024-02-12");
    RPostManual (mkManualBody (JStr "Warehouse") JUndef JUndef JUndef JUndef
                   (JStr "2024-02-20")) 7 true;
    RAct (APoll (Some Running.rowsA)) ].
End Sample.

(** * Properties *)

(** ** The helpers on sample values *)

Example toStr_number : toStr (JNum 8142) = "8142".
Proof. reflexivity. Qed.

Example toStr_nested_array :
  toStr (JArr [JNum 1; JNull; JArr [JStr "a"; JNum (-2)]]) = "1,,a,-2".
Proof. reflexivity. Qed.

Example trim_spaces : trim "  2024-03-01 " = "2024-03-01".
Proof. reflexivity. Qed.

Example trim_no_break_space :
  trim (String (ascii_of_nat 194) (String (ascii_of_nat 160) " a b  ")) = "a b".
Proof. reflexivity. Qed.

Example blank_is_no_date : truthyDate (JStr "   ") = false.
Proof. reflexivity. Qed.

Example zero_is_not_filled : filled (JNum 0) = false.
Proof. reflexivity. Qed.

Example date_only_is_all_day : eventAllDayFromStart (JStr "2024-03-01") = true.
Proof. reflexivity. Qed.

Example date_time_is_not_all_day :
  eventAllDayFromStart (JStr "2024-03-01T10:00:00+03:00") = false.
Proof. reflexivity. Qed.

Example manual_id_prefix : isManualId (JStr "m-1700000000000-12") = true.
Proof. reflexivity. Qed.

Example pickup_wording_any_case :
  mentionsPickup (P := runningClock) "1234 — Иванов САМОВЫВОЗ со склада" = true.
Proof. vm_compute. reflexivity. Qed.

Example no_pickup_wording :
  mentionsPickup (P := runningClock) "1234 — Иванов, монтаж с установкой" = false.
Proof. vm_compute. reflexivity. Qed.

Example digest_input_of_record7 :
  digestInput [Running.event7]
  = "1|7|2024-02-05|#111827|false|false|false||DT141_14:UC_44PKAP".
Proof. vm_compute. reflexivity. Qed.

Section Properties.

Context {P : Platform}.

(** ** The event deriver *)

Lemma truthyDate_orNull v : truthyDate (jsOr v JNull) = filled v.
Proof.
  unfold jsOr, filled. destruct v as [| |b|z|s|l|f]; simpl; try reflexivity.
  - destruct b; reflexivity.
  - destruct (z =? 0); reflexivity.
  - destruct (String.eqb s EmptyString); reflexivity.
Qed.

Lemma filled_orNull v : filled v = true -> jsOr v JNull = v.
Proof.
  unfold filled, jsOr. intros H. apply andb_prop in H as [H _]. now rewrite H.
Qed.

Lemma truthyDate_filled_orNull v : truthyDate (jsOr v JNull) = true -> jsOr v JNull = v.
Proof. rewrite truthyDate_orNull. apply filled_orNull. Qed.

Lemma truthyDate_JNull_false : truthyDate JNull = false.
Proof. reflexivity. Qed.

Lemma firstNonEmpty_cons v rest :
  firstNonEmpty (v :: rest) = if truthyDate v then v else firstNonEmpty rest.
Proof.
  destruct v; simpl; try reflexivity. destruct (blank s); reflexivity.
Qed.

(** [firstNonEmpty] on two [|| null]-normalised fields. *)
Lemma firstNonEmpty_pair a b :
  firstNonEmpty [jsOr a JNull; jsOr b JNull]
  = if filled a then a else if filled b then b else JNull.
Proof.
  rewrite !firstNonEmpty_cons, !truthyDate_orNull.
  destruct (filled a) eqn:Ha; [now apply filled_orNull|].
  destruct (filled b) eqn:Hb; [now apply filled_orNull|].
  reflexivity.
Qed.

Lemma filled_truthyDate v : filled v = true -> truthyDate v = true.
Proof.
  intros H. rewrite <- (filled_orNull v H). now rewrite truthyDate_orNull.
Qed.

(** The date chosen by the loop body is the first filled candidate. *)
Lemma dateChoice_priority item :
  let plannedInstall := jsOr (ufCrm8_1744626911134 item) JNull in
  let assignedInstall := jsOr (ufCrm8_1747908559319 item) JNull in
  let sysAssignedInstall := jsOr (ufCrm8_1758806212646 item) JNull in
  let installDone := jsOr (ufCrm8_1744639197488 item) JNull in
  let assignedAny := firstNonEmpty [assignedInstall; sysAssignedInstall] in
  (if truthyDate installDone then Some installDone
   else if truthyDate assignedAny then Some assignedAny
   else if truthyDate plannedInstall then Some plannedInstall
   else None)
  = List.find filled (dateCandidates item).
Proof.
  cbv zeta. rewrite firstNonEmpty_pair. unfold dateCandidates. simpl.
  rewrite !truthyDate_orNull.
  destruct (filled (ufCrm8_1744639197488 item)) eqn:Hd.
  { now rewrite filled_orNull. }
  destruct (filled (ufCrm8_1747908559319 item)) eqn:Ha.
  { now rewrite (filled_truthyDate _ Ha). }
  destruct (filled (ufCrm8_1758806212646 item)) eqn:Hs.
  { now rewrite (filled_truthyDate _ Hs). }
  simpl.
  destruct (filled (ufCrm8_1744626911134 item)) eqn:Hp; [|reflexivity].
  now rewrite filled_orNull.
Qed.


Lemma crmProps_lookups (v1 v2 v3 v4 v5 v6 v7 v8 v9 v10 v11 v12 v13 v14 v15 v16 v17 v18 v19 v20 : JVal) :
  let m := crmProps v1 v2 v3 v4 v5 v6 v7 v8 v9 v10 v11 v12 v13 v14 v15 v16 v17 v18 v19 v20 in
  prop m "color" = v1 /\ prop m "done" = v3 /\ prop m "isDone" = v4
  /\ prop m "stageId" = v5 /\ prop m "otkDate" = v7 /\ prop m "installDone" = v12
  /\ prop m "installComment" = v15 /\ prop m "extraComment" = v16
  /\ prop m "stoneTypeId" = v17 /\ prop m "stoneText" = v18 /\ prop m "hideMarker" = v20.
Proof. cbv zeta. repeat split; reflexivity. Qed.

Lemma mapItem_pushed item g e :
  snd (mapItem item g) = Pushed e ->
  let p := propsOf e in
  filled (ufCrm8_1747916236564 item) = true
  /\ List.find filled (dateCandidates item) = Some (start e)
  /\ ev_id e = JStr (toStr (it_id item))
  /\ allDay e = eventAllDayFromStart (start e)
  /\ backgroundColor e
      = JStr (pickColorByRules (reclEverOf item g) (prop p "otkDate") (prop p "stoneTypeId")
                (toStr (ev_title e)) (toStr (prop p "stoneText"))
                (toStr (prop p "installComment")) (toStr (prop p "extraComment")))
  /\ borderColor e = backgroundColor e
  /\ prop p "color" = backgroundColor e
  /\ prop p "otkDate" = jsOr (ufCrm8_1747306212023 item) JNull
  /\ prop p "stoneTypeId" = jsNullish (ufCrm8_1731616262 item) JNull
  /\ prop p "stageId" = JStr (stageOf item)
  /\ prop p "installDone" = jsOr (ufCrm8_1744639197488 item) JNull
  /\ prop p "isDone" = JBool (String.eqb (stageOf item) STAGE_SUCCESS)
  /\ prop p "hideMarker" = JBool (String.eqb (stageOf item) STAGE_SUCCESS)
  /\ prop p "done"
      = JBool (if String.eqb (stageOf item) STAGE_SUCCESS then true
               else if reclEverOf item g then false
               else truthy (prop (doneStore g) (toStr (it_id item)))).
Proof.
  intros H.
  pose proof (dateChoice_priority item) as Hdc. cbv zeta in Hdc.
  unfold mapItem, newDateISO in H. cbv zeta in H. rewrite Hdc in H. clear Hdc.
  rewrite truthyDate_orNull in H.
  fold (stageOf item) in H. unfold reclEverOf. cbv zeta.
  destruct (RECL_STAGES_has (stageOf item) && negb _) eqn:Hrecl in H;
    cbv beta iota zeta in H;
    (destruct (filled (ufCrm8_1747916236564 item)) eqn:Htr; simpl negb in H;
       cbv beta iota zeta in H; [|discriminate H]);
    (destruct (List.find filled (dateCandidates item)) as [d|] eqn:Hfind; [|discriminate H]);
    (destruct (negb (truthyDate d)) eqn:Htd; [discriminate H|]);
    cbn [snd fst doneStore set_reclSeenStore set_ticks] in H; injection H as <-;
    cbn [start ev_id allDay backgroundColor borderColor ev_title propsOf extendedProps];
    match goal with |- context [crmProps ?v1 ?v2 ?v3 ?v4 ?v5 ?v6 ?v7 ?v8 ?v9 ?v10 ?v11 ?v12 ?v13 ?v14 ?v15 ?v16 ?v17 ?v18 ?v19 ?v20] =>
      destruct (crmProps_lookups v1 v2 v3 v4 v5 v6 v7 v8 v9 v10 v11 v12 v13 v14 v15 v16 v17 v18 v19 v20)
        as (L1 & L3 & L4 & L5 & L7 & L12 & L15 & L16 & L17 & L18 & L20)
    end;
    cbv zeta in L1, L3, L4, L5, L7, L12, L15, L16, L17, L18, L20;
    rewrite L1, L3, L4, L5, L7, L12, L15, L16, L17, L18, L20;
    cbn [toStr]; repeat split; reflexivity.
Qed.


Lemma find_filled_truthyDate l d : List.find filled l = Some d -> truthyDate d = true.
Proof.
  intros H. apply List.find_some in H as [_ H]. now apply filled_truthyDate.
Qed.

(** Which branch a turn of the loop takes. *)
Lemma mapItem_branch item g :
  match startByPriority item with
  | Some d => exists e, snd (mapItem item g) = Pushed e /\ start e = d
  | None =>
      snd (mapItem item g)
      = if filled (ufCrm8_1747916236564 item) then NoPlannedNoAssigned else NoTransferToShop
  end.
Proof.
  unfold startByPriority.
  pose proof (dateChoice_priority item) as Hdc. cbv zeta in Hdc.
  unfold mapItem, newDateISO. cbv zeta. rewrite Hdc. clear Hdc.
  rewrite truthyDate_orNull.
  destruct (filled (ufCrm8_1747916236564 item)) eqn:Htr; simpl negb.
  - destruct (List.find filled (dateCandidates item)) as [d|] eqn:Hfind.
    + rewrite (find_filled_truthyDate _ _ Hfind). simpl negb.
      destruct (RECL_STAGES_has _ && negb _); cbv beta iota zeta;
        eexists; split; reflexivity.
    + destruct (RECL_STAGES_has _ && negb _); reflexivity.
  - destruct (RECL_STAGES_has _ && negb _); reflexivity.
Qed.

(** A turn of the loop touches the reclamation store and the clock only,
    and the store only grows. *)
Lemma mapItem_globals item g :
  exists R T,
    fst (fst (mapItem item g)) = set_ticks T (set_reclSeenStore R g)
    /\ (forall idStr, flagged idStr g -> truthy (prop R idStr) = true)
    /\ (RECL_STAGES_has (stageOf item) = true -> truthy (prop R (toStr (it_id item))) = true).
Proof.
  assert (Hfst : exists R T,
    (let '(g1, changed) :=
       if RECL_STAGES_has (stageOf item) && negb (truthy (prop (reclSeenStore g) (toStr (it_id item))))
       then let '(iso, g') := newDateISO g in
            (set_reclSeenStore
               (<[toStr (it_id item) := JObj [("at", JStr iso); ("stageId", JStr (stageOf item))]]>
                  (reclSeenStore g')) g', true)
       else (g, false) in g1) = set_ticks T (set_reclSeenStore R g)
    /\ (forall idStr, flagged idStr g -> truthy (prop R idStr) = true)
    /\ (RECL_STAGES_has (stageOf item) = true -> truthy (prop R (toStr (it_id item))) = true)).
  { unfold newDateISO.
    destruct (RECL_STAGES_has (stageOf item)) eqn:Hnow; simpl andb.
    - destruct (truthy (prop (reclSeenStore g) (toStr (it_id item)))) eqn:Hseen; simpl negb.
      + exists (reclSeenStore g), (ticks g). split; [now destruct g|]. split; [tauto|]. now intros _.
      + exists (<[toStr (it_id item) :=
                    JObj [("at", JStr (toISOString (clock (ticks g))));
                          ("stageId", JStr (stageOf item))]]> (reclSeenStore g)), (S (ticks g)).
        split; [now destruct g|].
        split.
        * intros idStr Hf. unfold flagged in Hf. unfold prop in *.
          destruct (decide (toStr (it_id item) = idStr)) as [->|Hne].
          -- now rewrite lookup_insert_eq.
          -- now rewrite lookup_insert_ne.
        * intros _. unfold prop. now rewrite lookup_insert_eq.
    - exists (reclSeenStore g), (ticks g). split; [now destruct g|]. split; [tauto|]. discriminate. }
  destruct Hfst as (R & T & H1 & H2 & H3). exists R, T. split; [|tauto].
  rewrite <- H1. unfold mapItem. cbv zeta. fold (stageOf item).
  destruct (if RECL_STAGES_has (stageOf item) && negb _ then _ else _) as [g1 ch].
  repeat match goal with
         | |- context [if ?c then _ else _] => destruct c
         | |- context [match ?c with Some _ => _ | None => _ end] => destruct c
         end; reflexivity.
Qed.


Lemma tally_events out changed acc :
  m_events (tally out changed acc)
  = (m_events acc ++ match out with Pushed e => [e] | _ => [] end)%list.
Proof. destruct out; simpl; now rewrite ?app_nil_r. Qed.

Lemma mapItemsLoop_starts items : forall acc g,
  List.map start (m_events (snd (mapItemsLoop items acc g)))
  = (List.map start (m_events acc) ++ omap startByPriority items)%list.
Proof.
  induction items as [|item rest IH]; intros acc g; simpl.
  - now rewrite app_nil_r.
  - pose proof (mapItem_branch item g) as Hb.
    destruct (mapItem item g) as [[g1 changed] out]. cbn [snd] in Hb.
    rewrite IH, tally_events, List.map_app, <- app_assoc. f_equal.
    destruct (startByPriority item) as [d|].
    + destruct Hb as (e & -> & <-). reflexivity.
    + rewrite Hb. now destruct (filled _).
Qed.

(** A property of the globals kept by every turn, and a property of every
    pushed event, hold of the whole loop. *)
Lemma mapItemsLoop_inv (I : Globals -> Prop) (Q : Event -> Prop) :
  (forall item g, I g ->
     I (fst (fst (mapItem item g)))
     /\ forall e, snd (mapItem item g) = Pushed e -> Q e) ->
  forall items acc g, I g -> Forall Q (m_events acc) ->
    I (fst (mapItemsLoop items acc g))
    /\ Forall Q (m_events (snd (mapItemsLoop items acc g))).
Proof.
  intros Hstep. induction items as [|item rest IH]; intros acc g Hg Hacc; simpl.
  - now split.
  - destruct (Hstep item g Hg) as [Hg1 He].
    destruct (mapItem item g) as [[g1 changed] out]. cbn [fst snd] in *.
    apply IH; [exact Hg1|].
    rewrite tally_events. apply Forall_app. split; [exact Hacc|].
    destruct out; constructor; auto.
Qed.

Lemma mapItemsLoop_globals items : forall acc g,
  exists R T,
    fst (mapItemsLoop items acc g) = set_ticks T (set_reclSeenStore R g)
    /\ (forall idStr, flagged idStr g -> truthy (prop R idStr) = true).
Proof.
  induction items as [|item rest IH]; intros acc g; simpl.
  - exists (reclSeenStore g), (ticks g). split; [now destruct g|tauto].
  - destruct (mapItem_globals item g) as (R & T & Hg1 & Hmono & _).
    destruct (mapItem item g) as [[g1 changed] out]. cbn [fst] in Hg1. subst g1.
    destruct (IH (tally out changed acc) (set_ticks T (set_reclSeenStore R g)))
      as (R' & T' & -> & Hmono').
    exists R', T'. split; [now destruct g|].
    intros idStr Hf. apply Hmono'. unfold flagged. cbn. now apply Hmono.
Qed.

(** C3. For every raw CRM item with a filled transfer-to-shop date the start
    date of the derived event is the first filled candidate in the order
    completion date, operator-assigned date, system-assigned date, planned
    date; an item with none of them yields no event.  The same holds of a
    whole refresh: the item contributes exactly that start date, in its
    place, to the event list, or nothing. *)
Theorem start_date_by_priority (item : Item)
    (Htransfer : filled (ufCrm8_1747916236564 item) = true) :
  (forall g,
     match List.find filled (dateCandidates item) with
     | Some d => exists e, snd (mapItem item g) = Pushed e /\ start e = d
     | None => snd (mapItem item g) = NoPlannedNoAssigned
     end)
  /\ (forall before after g,
        List.map start (m_events (snd (mapItemsToEvents (before ++ item :: after) g)))
        = (omap startByPriority before
           ++ match List.find filled (dateCandidates item) with
              | Some d => [d]
              | None => []
              end
           ++ omap startByPriority after)%list).
Proof.
  split.
  - intros g. pose proof (mapItem_branch item g) as Hb.
    unfold startByPriority in Hb. rewrite Htransfer in Hb. exact Hb.
  - intros before after g. unfold mapItemsToEvents.
    rewrite mapItemsLoop_starts. cbn [m_events List.map app].
    rewrite omap_app. f_equal.
    change (omap startByPriority (item :: after))
      with (match startByPriority item with
            | Some d => d :: omap startByPriority after
            | None => omap startByPriority after
            end).
    unfold startByPriority at 1. rewrite Htransfer.
    now destruct (List.find filled (dateCandidates item)).
Qed.


Lemma pickColor_recl otk sid t st ic ec : pickColorByRules true otk sid t st ic ec = COLOR_RED.
Proof. reflexivity. Qed.

Lemma pickColor_not_recl otk sid t st ic ec :
  pickColorByRules false otk sid t st ic ec
  = if negb (truthyDate otk) then COLOR_GRAY_DARK
    else if mentionsPickup (join " " (List.filter nonEmpty [t; st; ic; ec])) then COLOR_PURPLE
    else let code := match sid with JNull | JUndef => EmptyString | _ => trim (toStr sid) end in
         if String.eqb code "8142" then COLOR_BLUE
         else if String.eqb code "8144" || String.eqb code "8270"
                 || String.eqb code "8146" || String.eqb code "8272" then COLOR_GREEN
         else COLOR_BLUE.
Proof. reflexivity. Qed.

Lemma stoneCode_nullish item :
  match jsNullish (ufCrm8_1731616262 item) JNull with
  | JNull | JUndef => EmptyString
  | _ => trim (toStr (jsNullish (ufCrm8_1731616262 item) JNull))
  end = stoneCodeOf item.
Proof. unfold stoneCodeOf. now destruct (ufCrm8_1731616262 item). Qed.

(** C4. For every event derived from a CRM item the colour is decided in
    this order: red if the record was ever in a reclamation stage; else dark
    gray if the quality-check date is absent or empty; else purple if the
    title, stone text and comments together mention self-pickup; else blue
    for stone-type code 8142 and green for codes 8144, 8146, 8270, 8272;
    else the default blue. *)
Theorem color_decision_order (item : Item) (g : Globals) (e : Event)
    (Hpushed : snd (mapItem item g) = Pushed e) :
  let color := backgroundColor e in
  let recl := reclEverOf item g in
  let otk := filled (ufCrm8_1747306212023 item) in
  let pickup := mentionsPickup (pickupText e) in
  let code := stoneCodeOf item in
  (recl = true -> color = JStr COLOR_RED)
  /\ (recl = false -> otk = false -> color = JStr COLOR_GRAY_DARK)
  /\ (recl = false -> otk = true -> pickup = true -> color = JStr COLOR_PURPLE)
  /\ (recl = false -> otk = true -> pickup = false -> code = "8142" ->
       color = JStr COLOR_BLUE)
  /\ (recl = false -> otk = true -> pickup = false ->
       In code ["8144"; "8146"; "8270"; "8272"] -> color = JStr COLOR_GREEN)
  /\ (recl = false -> otk = true -> pickup = false ->
       ~ In code ["8142"; "8144"; "8146"; "8270"; "8272"] -> color = JStr COLOR_BLUE)
  /\ borderColor e = color
  /\ prop (propsOf e) "color" = color.
Proof.
  destruct (mapItem_pushed item g e Hpushed)
    as (_ & _ & _ & _ & Hcol & Hborder & Hprop & Hotk & Hstone & _).
  cbv zeta in *. rewrite Hotk, Hstone in Hcol. rewrite Hborder, Hprop, Hcol.
  fold (pickupText e) in Hcol |- *.
  destruct (reclEverOf item g).
  - repeat split; intros; try discriminate; reflexivity.
  - rewrite pickColor_not_recl, truthyDate_orNull. cbv zeta.
    rewrite stoneCode_nullish. fold (pickupText e).
    destruct (filled (ufCrm8_1747306212023 item)); simpl negb;
      [|repeat split; intros; try discriminate; reflexivity].
    destruct (mentionsPickup (pickupText e));
      [repeat split; intros; try discriminate; reflexivity|].
    repeat split; try (intros; discriminate).
    + intros _ _ _ ->. reflexivity.
    + intros _ _ _ Hin. simpl in Hin.
      destruct Hin as [<-|[<-|[<-|[<-|[]]]]]; reflexivity.
    + intros _ _ _ Hnot.
      destruct (String.eqb_spec (stoneCodeOf item) "8142") as [E|_];
        [exfalso; apply Hnot; rewrite E; simpl; tauto|].
      destruct (String.eqb_spec (stoneCodeOf item) "8144") as [E|_];
        [exfalso; apply Hnot; rewrite E; simpl; tauto|].
      destruct (String.eqb_spec (stoneCodeOf item) "8270") as [E|_];
        [exfalso; apply Hnot; rewrite E; simpl; tauto|].
      destruct (String.eqb_spec (stoneCodeOf item) "8146") as [E|_];
        [exfalso; apply Hnot; rewrite E; simpl; tauto|].
      destruct (String.eqb_spec (stoneCodeOf item) "8272") as [E|_];
        [exfalso; apply Hnot; rewrite E; simpl; tauto|].
      reflexivity.
Qed.

(** C8 (as amended). For every raw CRM item with a filled transfer date and
    a filled completion date the derived event starts on the completion
    date, whatever assigned or planned dates are present.  Its done flag
    does not follow the completion date: it is true exactly when the stage is
    the SUCCESS stage, or when the record was never in reclamation and the
    operators' done store marks it. *)
Theorem completion_date_is_start (item : Item) (g : Globals)
    (Htransfer : filled (ufCrm8_1747916236564 item) = true)
    (Hdone : filled (ufCrm8_1744639197488 item) = true) :
  exists e,
    snd (mapItem item g) = Pushed e
    /\ start e = ufCrm8_1744639197488 item
    /\ prop (propsOf e) "installDone" = ufCrm8_1744639197488 item
    /\ prop (propsOf e) "isDone" = JBool (String.eqb (stageOf item) STAGE_SUCCESS)
    /\ prop (propsOf e) "done"
        = JBool (String.eqb (stageOf item) STAGE_SUCCESS
                 || negb (reclEverOf item g)
                    && truthy (prop (doneStore g) (toStr (it_id item)))).
Proof.
  pose proof (mapItem_branch item g) as Hb. unfold startByPriority in Hb.
  rewrite Htransfer in Hb. unfold dateCandidates in Hb. cbn [List.find] in Hb.
  rewrite Hdone in Hb. destruct Hb as (e & He & Hstart).
  exists e. split; [exact He|]. split; [exact Hstart|].
  destruct (mapItem_pushed item g e He)
    as (_ & _ & _ & _ & _ & _ & _ & _ & _ & _ & HiD & HisDone & _ & Hd).
  cbv zeta in *. rewrite HiD, HisDone, Hd, (filled_orNull _ Hdone).
  repeat split.
  destruct (String.eqb (stageOf item) STAGE_SUCCESS); [reflexivity|].
  now destruct (reclEverOf item g).
Qed.

(** ** Frames: what a step leaves alone *)

Lemma broadcasts_app a b : broadcasts (a ++ b) = (broadcasts a ++ broadcasts b)%list.
Proof. induction a as [|[] a IH]; simpl; now rewrite ?IH. Qed.

Lemma diskWrites_app a b : diskWrites (a ++ b) = (diskWrites a ++ diskWrites b)%list.
Proof. induction a as [|[] a IH]; simpl; now rewrite ?IH. Qed.

Lemma pollTimers_app a b : pollTimers (a ++ b) = (pollTimers a + pollTimers b)%nat.
Proof. induction a as [|[] a IH]; simpl; now rewrite ?IH. Qed.

Lemma refreshTimers_app a b : refreshTimers (a ++ b) = (refreshTimers a ++ refreshTimers b)%list.
Proof. induction a as [|[] a IH]; simpl; now rewrite ?IH. Qed.

(** Reduce projections of updated globals. *)
Ltac globals_simpl :=
  cbn [dataVersion eventsSnapshot manualStore reclSeenStore doneStore refreshInFlight
       refreshPending refreshTimer lastTopUpdatedTime ticks trace
       set_dataVersion set_eventsSnapshot set_reclSeenStore set_refreshInFlight
       set_refreshPending set_refreshTimer set_lastTopUpdatedTime set_ticks emit
       fst snd] in *.

Ltac traces_simpl :=
  rewrite ?broadcasts_app, ?diskWrites_app, ?pollTimers_app, ?refreshTimers_app;
  cbn [broadcasts diskWrites pollTimers refreshTimers];
  rewrite ?app_nil_r, ?Nat.add_0_r.


Lemma manualToFcEvent_globals m g : exists T, snd (manualToFcEvent m g) = set_ticks T g.
Proof.
  unfold manualToFcEvent, newDateISO. cbv zeta.
  destruct (truthy (jsOr (jsOr (m_start m) (m_plannedInstall m)) (m_assignedInstall m)));
    cbn [snd].
  - exists (ticks g). now destruct g.
  - exists (S (ticks g)). reflexivity.
Qed.

Lemma manualEventsOf_globals ms : forall g, exists T, snd (manualEventsOf ms g) = set_ticks T g.
Proof.
  induction ms as [|m rest IH]; intros g; simpl.
  - exists (ticks g). now destruct g.
  - destruct (manualToFcEvent_globals m g) as [T HT].
    destruct (manualToFcEvent m g) as [e g1]. cbn [snd] in HT. subst g1.
    destruct (IH (set_ticks T g)) as [T' HT'].
    destruct (manualEventsOf rest (set_ticks T g)) as [es g2]. cbn [snd] in *. subst g2.
    exists T'. now destruct g.
Qed.

(** The payload-building half of a pass leaves everything but the
    reclamation store, the clock position and the trace alone; the store only
    grows and the trace gains neither a broadcast nor a snapshot write. *)
Lemma refreshBuild_frame reason up g :
  let g' := fst (refreshBuild reason up g) in
  sameCore g g'
  /\ (forall idStr, flagged idStr g -> flagged idStr g')
  /\ broadcasts (trace g') = broadcasts (trace g)
  /\ diskWrites (trace g') = diskWrites (trace g)
  /\ refreshTimers (trace g') = refreshTimers (trace g)
  /\ pollTimers (trace g') = pollTimers (trace g).
Proof.
  cbv zeta. unfold refreshBuild, dateNow, newDateISO, mapItemsToEvents.
  destruct (pull up) as [items|]; [|unfold sameCore, flagged; globals_simpl; tauto].
  destruct (usersOk up); simpl negb; cbv iota;
    [|unfold sameCore, flagged; globals_simpl; tauto].
  set (g0 := set_ticks (S (ticks g)) g).
  destruct (mapItemsLoop_globals items (mkMapped [] (mkSkipped 0 0 0) false) g0)
    as (R & T & Hg1 & Hmono).
  destruct (mapItemsLoop items _ g0) as [g1 mapped]. cbn [fst] in Hg1. subst g1.
  assert (Hflag : forall idStr, flagged idStr g -> truthy (prop R idStr) = true).
  { intros idStr Hf. apply Hmono. exact Hf. }
  destruct (reclChanged mapped).
  - destruct (reclSaveOk up); simpl negb; cbv iota.
    + match goal with |- context [manualEventsOf ?ms ?gg] =>
        destruct (manualEventsOf_globals ms gg) as [T' HT'];
        destruct (manualEventsOf ms gg) as [es g3]
      end.
      cbn [snd] in HT'. subst g3. subst g0.
      unfold sameCore, flagged. globals_simpl. traces_simpl. tauto.
    + subst g0. unfold sameCore, flagged. globals_simpl. traces_simpl. tauto.
  - simpl negb; cbv iota.
    match goal with |- context [manualEventsOf ?ms ?gg] =>
      destruct (manualEventsOf_globals ms gg) as [T' HT'];
      destruct (manualEventsOf ms gg) as [es g3]
    end.
    cbn [snd] in HT'. subst g3. subst g0.
    unfold sameCore, flagged. globals_simpl. tauto.
Qed.

Lemma nonEmpty_true s : s <> EmptyString -> nonEmpty s = true.
Proof.
  intros H. unfold nonEmpty. destruct (String.eqb_spec s EmptyString); [contradiction|reflexivity].
Qed.

(** ** The patch applier *)

Lemma findIndex_None {A} (f : A -> bool) l :
  (forall x, In x l -> f x = false) -> findIndex f l = None.
Proof.
  induction l as [|x l IH]; intros H; simpl; [reflexivity|].
  rewrite (H x (or_introl eq_refl)). rewrite IH; [reflexivity|].
  intros y Hy. apply H. now right.
Qed.

Lemma findIndex_Some {A} (f : A -> bool) l : forall idx,
  findIndex f l = Some idx -> exists x, l !! idx = Some x /\ f x = true.
Proof.
  induction l as [|x l IH]; intros idx H; simpl in H; [discriminate|].
  destruct (f x) eqn:Hfx.
  - injection H as <-. now exists x.
  - destruct (findIndex f l) as [j|]; [|discriminate].
    injection H as <-. destruct (IH j eq_refl) as (y & Hy & Hfy). now exists y.
Qed.


Lemma isDigit_decimal a : isDigit a = true <-> decimal a.
Proof.
  unfold isDigit, decimal, code. rewrite andb_true_iff, !N.leb_le. tauto.
Qed.

Lemma dateOnlyPattern_dateShaped s : dateOnlyPattern s = true <-> dateShaped s.
Proof.
  unfold dateOnlyPattern, dateShaped. split.
  - intros H. rewrite <- (string_of_list_ascii_of_string s).
    destruct (list_ascii_of_string s) as [|y1 [|y2 [|y3 [|y4 [|h1 [|m1 [|m2 [|h2 [|d1 [|d2 [|x l]]]]]]]]]]];
      try discriminate.
    do 9 (apply andb_prop in H as [H ?]).
    repeat match goal with
           | Hd : isDigit _ = true |- _ => apply isDigit_decimal in Hd
           | He : Ascii.eqb _ _ = true |- _ => apply Ascii.eqb_eq in He; subst
           end.
    exists y1, y2, y3, y4, m1, m2, d1, d2. split; [reflexivity|].
    repeat (apply List.Forall_cons; [assumption|]). apply List.Forall_nil.
  - intros (y1 & y2 & y3 & y4 & m1 & m2 & d1 & d2 & -> & Hd).
    rewrite list_ascii_of_string_of_list_ascii.
    repeat match goal with
           | Hf : Forall _ (_ :: _) |- _ =>
               let Ha := fresh "Ha" in
               apply List.Forall_cons_iff in Hf as [Ha Hf]; apply isDigit_decimal in Ha
           end.
    cbn [andb]. rewrite Ha, Ha0, Ha1, Ha2, Ha3, Ha4, Ha5, Ha6. reflexivity.
Qed.

(** C7 (as amended). For every patch of the assigned date of an event found
    in the live snapshot: if the event is closed (its [isDone] or
    [hideMarker] flag is [true]) the patch is refused and nothing changes;
    otherwise the event alone is rewritten, only in [start], [allDay] and
    the attributes [assignedInstall] and [assignedAny]; [allDay] is true
    exactly when the new value is a string that, trimmed, is a date
    [YYYY-MM-DD]; the data version, the snapshot version and the payload
    version are set to the clock reading taken by the patch, whatever the
    version was; the digest becomes the hash of the patched event list, fed
    field by field; the snapshot is handed to the disk writer and that
    version is broadcast. *)
Theorem patch_assigned_date (idStr value : JVal) (g : Globals)
    (evs : list Event) (idx : nat) (ev : Event)
    (Hevs : events (payload (eventsSnapshot g)) = Some evs)
    (Hidx : findIndex (fun e => String.eqb (toStr (ev_id e)) (toStr idStr)) evs = Some idx)
    (Hev : evs !! idx = Some ev) :
  (closed ev = true -> patchSnapshotAssignedDate idStr value g = (g, false))
  /\ (closed ev = false ->
      let g' := fst (patchSnapshotAssignedDate idStr value g) in
      let snap' := eventsSnapshot g' in
      exists ev',
      snd (patchSnapshotAssignedDate idStr value g) = true
      /\ events (payload snap') = Some (<[idx := ev']> evs)
      /\ (forall j, j <> idx -> (<[idx := ev']> evs) !! j = evs !! j)
      /\ start ev' = value
      /\ (allDay ev' = true <-> exists s, value = JStr s /\ dateShaped (trim s))
      /\ prop (propsOf ev') "assignedInstall" = value
      /\ prop (propsOf ev') "assignedAny" = value
      /\ (forall k, k <> "assignedInstall" -> k <> "assignedAny" ->
            propsOf ev' !! k = propsOf ev !! k)
      /\ ev_id ev' = ev_id ev /\ ev_title ev' = ev_title ev
      /\ backgroundColor ev' = backgroundColor ev /\ borderColor ev' = borderColor ev
      /\ version snap' = clock (ticks g)
      /\ dataVersion g' = clock (ticks g)
      /\ p_version (payload snap') = clock (ticks g)
      /\ digest snap'
         = Some (sha1_hex
                   (stringOfZ (Z.of_nat (length evs))
                    ++ String.concat EmptyString
                         (List.map
                            (fun e =>
                               "|" ++ toStr (ev_id e)
                               ++ "|" ++ toStr (jsOr (start e) (JStr EmptyString))
                               ++ "|" ++ toStr (jsOr (backgroundColor e) (JStr EmptyString))
                               ++ "|" ++ boolStr (truthy (prop (propsOf e) "done"))
                               ++ "|" ++ boolStr (truthy (prop (propsOf e) "isDone"))
                               ++ "|" ++ boolStr (truthy (prop (propsOf e) "hideMarker"))
                               ++ "|" ++ toStr (jsOr (prop (propsOf e) "otkDate")
                                                  (JStr EmptyString))
                               ++ "|" ++ toStr (jsOr (prop (propsOf e) "stageId")
                                                  (JStr EmptyString)))
                            (<[idx := ev']> evs))))
      /\ trace g' = (trace g ++ [SaveSnapshotToDisk snap'; BroadcastVersion (clock (ticks g))])%list
      /\ reclSeenStore g' = reclSeenStore g /\ doneStore g' = doneStore g
      /\ manualStore g' = manualStore g
      /\ refreshInFlight g' = refreshInFlight g /\ refreshPending g' = refreshPending g
      /\ refreshTimer g' = refreshTimer g).
Proof.
  unfold patchSnapshotAssignedDate. rewrite Hevs, Hidx, Hev. fold (closed ev).
  split; intros Hc; rewrite Hc; [reflexivity|].
  cbv zeta. exists (patchEvent value ev).
  unfold dateNow, newDateISO, broadcastVersion, saveSnapshotToDisk.
  globals_simpl. cbn [version digest payload events p_version].
  split; [reflexivity|]. split; [reflexivity|].
  split; [intros j Hj; now apply list_lookup_insert_ne|].
  split; [reflexivity|].
  split.
  { unfold patchEvent. cbn [allDay]. unfold eventAllDayFromStart, isDateOnlyString.
    destruct value as [| |b|z|s|l|o];
      try (split; [discriminate|intros (s' & Hs' & _); discriminate]).
    rewrite dateOnlyPattern_dateShaped. split.
    - intros H. now exists s.
    - intros (s' & Hs' & H). now injection Hs' as ->. }
  split.
  { unfold patchEvent, prop. cbn [propsOf extendedProps].
    rewrite lookup_insert_ne by discriminate. now rewrite lookup_insert_eq. }
  split.
  { unfold patchEvent, prop. cbn [propsOf extendedProps]. now rewrite lookup_insert_eq. }
  split.
  { intros k Hk1 Hk2. unfold patchEvent. cbn [propsOf extendedProps].
    rewrite lookup_insert_ne by congruence. now rewrite lookup_insert_ne by congruence. }
  do 7 (split; [reflexivity|]).
  split.
  { unfold snapshotDigest, digestInput. cbn [events]. rewrite length_insert. reflexivity. }
  split; [now rewrite <- app_assoc|].
  repeat split.
Qed.

(** C10. For every id that matches no event of the live snapshot, and
    whenever the snapshot's event list is not an array, patching the assigned
    date returns false and leaves the globals exactly as they were: snapshot,
    event list, version, digest and data version are unchanged, the clock is
    not read, and the trace gains neither a broadcast nor a disk write. *)
Theorem patch_unknown_id (idStr value : JVal) (g : Globals)
    (Hmiss : match events (payload (eventsSnapshot g)) with
             | None => True
             | Some evs => forall e, In e evs -> toStr (ev_id e) <> toStr idStr
             end) :
  patchSnapshotAssignedDate idStr value g = (g, false).
Proof.
  unfold patchSnapshotAssignedDate.
  destruct (events (payload (eventsSnapshot g))) as [evs|]; [|reflexivity].
  rewrite findIndex_None; [reflexivity|].
  intros e He. apply String.eqb_neq. now apply Hmiss.
Qed.

Lemma patch_frame idStr value g :
  let g' := fst (patchSnapshotAssignedDate idStr value g) in
  reclSeenStore g' = reclSeenStore g
  /\ refreshInFlight g' = refreshInFlight g
  /\ refreshPending g' = refreshPending g
  /\ refreshTimer g' = refreshTimer g.
Proof.
  cbv zeta. unfold patchSnapshotAssignedDate.
  destruct (events (payload (eventsSnapshot g))) as [evs|]; [|now cbn].
  destruct (findIndex _ evs) as [idx|]; [|now cbn].
  destruct (evs !! idx) as [ev|]; [|now cbn].
  destruct (isTrue _ || isTrue _); [now cbn|].
  unfold dateNow, newDateISO, broadcastVersion, saveSnapshotToDisk. now cbn.
Qed.

(** ** The reconciliation poller *)

Lemma poll_frame resp g :
  let g' := pollBitrixTopUpdate resp g in
  eventsSnapshot g' = eventsSnapshot g
  /\ dataVersion g' = dataVersion g
  /\ reclSeenStore g' = reclSeenStore g
  /\ doneStore g' = doneStore g
  /\ refreshInFlight g' = refreshInFlight g
  /\ refreshPending g' = refreshPending g
  /\ ticks g' = ticks g
  /\ broadcasts (trace g') = broadcasts (trace g)
  /\ diskWrites (trace g') = diskWrites (trace g)
  /\ pollTimers (trace g') = S (pollTimers (trace g))
  /\ last (trace g') = Some PollTimerSet.
Proof.
  cbv zeta. unfold pollBitrixTopUpdate, scheduleRefresh.
  destruct resp as [items|]; [|globals_simpl; traces_simpl; rewrite last_snoc; repeat split; lia].
  destruct (head items) as [top|]; [|globals_simpl; traces_simpl; rewrite last_snoc; repeat split; lia].
  destruct (truthy (updatedTime top)); [|globals_simpl; traces_simpl; rewrite last_snoc; repeat split; lia].
  destruct (nonEmpty _); [|globals_simpl; traces_simpl; rewrite last_snoc; repeat split; lia].
  destruct (lastTopUpdatedTime g) as [l|];
    [destruct (nonEmpty l && negb _)|];
    globals_simpl; traces_simpl; rewrite last_snoc; repeat split; lia.
Qed.

(** What a tick does to the debounce timer and to the remembered timestamp. *)
Lemma poll_schedule rows g :
  let g' := pollBitrixTopUpdate (Some rows) g in
  match topTimestamp rows with
  | Some u =>
      if nonEmpty u then
        lastTopUpdatedTime g' = Some u
        /\ match lastTopUpdatedTime g with
           | Some l =>
               if nonEmpty l && negb (String.eqb u l)
               then refreshTimers (trace g') = (refreshTimers (trace g) ++ ["bitrix_poll"])%list
                    /\ refreshTimer g' = Some "bitrix_poll"
               else refreshTimers (trace g') = refreshTimers (trace g)
                    /\ refreshTimer g' = refreshTimer g
           | None => refreshTimers (trace g') = refreshTimers (trace g)
                     /\ refreshTimer g' = refreshTimer g
           end
      else lastTopUpdatedTime g' = lastTopUpdatedTime g
           /\ refreshTimers (trace g') = refreshTimers (trace g)
           /\ refreshTimer g' = refreshTimer g
  | None => lastTopUpdatedTime g' = lastTopUpdatedTime g
            /\ refreshTimers (trace g') = refreshTimers (trace g)
            /\ refreshTimer g' = refreshTimer g
  end.
Proof.
  cbv zeta. unfold pollBitrixTopUpdate, scheduleRefresh, topTimestamp.
  destruct rows as [|top rest]; cbn [head];
    [globals_simpl; traces_simpl; repeat split|].
  destruct (truthy (updatedTime top)); [|globals_simpl; traces_simpl; repeat split].
  destruct (nonEmpty (toStr (updatedTime top))); [|globals_simpl; traces_simpl; repeat split].
  destruct (lastTopUpdatedTime g) as [l|];
    [destruct (nonEmpty l && negb _)|];
    globals_simpl; traces_simpl; repeat split.
Qed.

Lemma pollLoop_frame answers : forall g,
  eventsSnapshot (pollLoop answers g) = eventsSnapshot g
  /\ dataVersion (pollLoop answers g) = dataVersion g
  /\ broadcasts (trace (pollLoop answers g)) = broadcasts (trace g)
  /\ pollTimers (trace (pollLoop answers g)) = (pollTimers (trace g) + length answers)%nat.
Proof.
  induction answers as [|resp rest IH]; intros g; simpl.
  - repeat split; lia.
  - destruct (IH (pollBitrixTopUpdate resp g)) as (H1 & H2 & H3 & H4).
    destruct (poll_frame resp g) as (F1 & F2 & _ & _ & _ & _ & _ & F3 & _ & F4 & _).
    cbv zeta in *. rewrite H1, H2, H3, H4, F1, F2, F3, F4. repeat split; lia.
Qed.

(** C9. Every tick of the reconciliation poller uses nothing of the answer
    but the modification timestamp of the most recently updated record; it
    arms a refresh exactly when that timestamp differs from the one observed
    on the tick before (and never on a tick that observes none, nor when none
    was observed before); it changes neither the snapshot nor the data
    version and broadcasts nothing; and every tick, whether the upstream call
    answers or throws, re-arms the poller, so after any run of ticks the next
    one is pending. *)
Theorem poller_tick (g : Globals) :
  (forall resp,
     let g' := pollBitrixTopUpdate resp g in
     eventsSnapshot g' = eventsSnapshot g
     /\ dataVersion g' = dataVersion g
     /\ broadcasts (trace g') = broadcasts (trace g)
     /\ diskWrites (trace g') = diskWrites (trace g)
     /\ pollTimers (trace g') = S (pollTimers (trace g))
     /\ last (trace g') = Some PollTimerSet)
  /\ (forall rows rows',
        topTimestamp rows = topTimestamp rows' ->
        pollBitrixTopUpdate (Some rows) g = pollBitrixTopUpdate (Some rows') g)
  /\ (forall rows u l,
        topTimestamp rows = Some u -> u <> EmptyString ->
        lastTopUpdatedTime g = Some l -> l <> EmptyString ->
        let g' := pollBitrixTopUpdate (Some rows) g in
        lastTopUpdatedTime g' = Some u
        /\ (u <> l ->
            refreshTimers (trace g') = (refreshTimers (trace g) ++ ["bitrix_poll"])%list
            /\ refreshTimer g' = Some "bitrix_poll")
        /\ (u = l ->
            refreshTimers (trace g') = refreshTimers (trace g)
            /\ refreshTimer g' = refreshTimer g))
  /\ (forall rows1 rows2 a b,
        topTimestamp rows1 = Some a -> a <> EmptyString ->
        topTimestamp rows2 = Some b -> b <> EmptyString ->
        let g1 := pollBitrixTopUpdate (Some rows1) g in
        let g2 := pollBitrixTopUpdate (Some rows2) g1 in
        (a <> b ->
           refreshTimers (trace g2) = (refreshTimers (trace g1) ++ ["bitrix_poll"])%list
           /\ refreshTimer g2 = Some "bitrix_poll")
        /\ (a = b ->
            refreshTimers (trace g2) = refreshTimers (trace g1)
            /\ refreshTimer g2 = refreshTimer g1))
  /\ (forall resp,
        match resp with
        | Some rows => topTimestamp rows = None \/ topTimestamp rows = Some EmptyString
                       \/ lastTopUpdatedTime g = None
        | None => True
        end ->
        refreshTimers (trace (pollBitrixTopUpdate resp g)) = refreshTimers (trace g)
        /\ refreshTimer (pollBitrixTopUpdate resp g) = refreshTimer g)
  /\ (forall answers,
        eventsSnapshot (pollLoop answers g) = eventsSnapshot g
        /\ broadcasts (trace (pollLoop answers g)) = broadcasts (trace g)
        /\ pollTimers (trace (pollLoop answers g)) = (pollTimers (trace g) + length answers)%nat).
Proof.
  split; [|split; [|split; [|split; [|split]]]].
  - intros resp. destruct (poll_frame resp g) as (H1 & H2 & _ & _ & _ & _ & _ & H3 & H4 & H5 & H6).
    cbv zeta in *. repeat split; assumption.
  - intros rows rows' H. unfold pollBitrixTopUpdate.
    unfold topTimestamp in H.
    destruct rows as [|t r], rows' as [|t' r']; cbn [head] in *; try reflexivity.
    + destruct (truthy (updatedTime t')); [discriminate|reflexivity].
    + destruct (truthy (updatedTime t)); [discriminate|reflexivity].
    + destruct (truthy (updatedTime t)), (truthy (updatedTime t')); try discriminate;
        [injection H as ->|]; reflexivity.
  - intros rows u l Hu Hune Hl Hlne. cbv zeta.
    pose proof (poll_schedule rows g) as H1. cbv zeta in H1.
    rewrite Hu, (nonEmpty_true _ Hune), Hl, (nonEmpty_true _ Hlne) in H1.
    destruct H1 as [Hlast H1]. cbn [andb] in H1. split; [exact Hlast|].
    destruct (String.eqb_spec u l) as [->|Hne]; cbn [negb] in H1.
    + split; [intros Hc; now elim Hc|intros _; exact H1].
    + split; [intros _; exact H1|intros ->; now elim Hne].
  - intros rows1 rows2 a b Ha Hane Hb Hbne. cbv zeta.
    pose proof (poll_schedule rows1 g) as H1. cbv zeta in H1.
    rewrite Ha, (nonEmpty_true _ Hane) in H1. destruct H1 as [Hlast _].
    pose proof (poll_schedule rows2 (pollBitrixTopUpdate (Some rows1) g)) as H2.
    cbv zeta in H2. rewrite Hb, (nonEmpty_true _ Hbne), Hlast, (nonEmpty_true _ Hane) in H2.
    destruct H2 as [_ H2]. cbn [andb] in H2.
    destruct (String.eqb_spec b a) as [->|Hne]; cbn [negb] in H2.
    + split; [intros Hc; now elim Hc|intros _; exact H2].
    + split; [intros _; exact H2|intros ->; now elim Hne].
  - intros [rows|] H.
    + pose proof (poll_schedule rows g) as H1. cbv zeta in H1.
      destruct H as [H|[H|H]].
      * rewrite H in H1. tauto.
      * rewrite H in H1. cbn in H1. tauto.
      * destruct (topTimestamp rows) as [u|]; [|tauto].
        destruct (nonEmpty u); [|tauto]. rewrite H in H1. tauto.
    + unfold pollBitrixTopUpdate. globals_simpl. traces_simpl. now split.
  - intros answers. destruct (pollLoop_frame answers g) as (H1 & _ & H3 & H4). now repeat split.
Qed.

(** ** Refresh passes *)

(** The discard branch. *)
Lemma commitOrDiscard_same reason t0 p g :
  snapshotDigest p <> EmptyString ->
  digest (eventsSnapshot g) = Some (snapshotDigest p) ->
  let g' := fst (commitOrDiscard reason t0 p g) in
  snd (commitOrDiscard reason t0 p g) = false
  /\ version (eventsSnapshot g') = version (eventsSnapshot g)
  /\ digest (eventsSnapshot g') = digest (eventsSnapshot g)
  /\ events (payload (eventsSnapshot g')) = events (payload (eventsSnapshot g))
  /\ dataVersion g' = dataVersion g
  /\ reclSeenStore g' = reclSeenStore g
  /\ refreshInFlight g' = refreshInFlight g
  /\ refreshPending g' = refreshPending g
  /\ refreshTimer g' = refreshTimer g
  /\ broadcasts (trace g') = broadcasts (trace g)
  /\ refreshTimers (trace g') = refreshTimers (trace g).
Proof.
  intros Hne Hd. cbv zeta. unfold commitOrDiscard, dateNow, saveSnapshotToDisk. cbv zeta.
  rewrite Hd, (nonEmpty_true _ Hne), String.eqb_refl. cbn [andb].
  globals_simpl. cbn [version digest payload events]. traces_simpl. rewrite ?Hd.
  repeat split.
Qed.

(** The commit branch. *)
Lemma commitOrDiscard_diff reason t0 p g :
  digest (eventsSnapshot g) <> Some (snapshotDigest p) ->
  let g' := fst (commitOrDiscard reason t0 p g) in
  snd (commitOrDiscard reason t0 p g) = true
  /\ version (eventsSnapshot g') = clock (ticks g)
  /\ digest (eventsSnapshot g') = Some (snapshotDigest p)
  /\ events (payload (eventsSnapshot g')) = events p
  /\ p_version (payload (eventsSnapshot g')) = clock (ticks g)
  /\ dataVersion g' = clock (ticks g)
  /\ reclSeenStore g' = reclSeenStore g
  /\ refreshInFlight g' = refreshInFlight g
  /\ refreshPending g' = refreshPending g
  /\ refreshTimer g' = refreshTimer g
  /\ broadcasts (trace g') = broadcasts (trace g)
  /\ refreshTimers (trace g') = refreshTimers (trace g).
Proof.
  intros Hd. cbv zeta. unfold commitOrDiscard, dateNow, saveSnapshotToDisk. cbv zeta.
  assert (Hsame : match digest (eventsSnapshot g) with
                  | Some d => nonEmpty d && String.eqb d (snapshotDigest p)
                  | None => false
                  end = false).
  { destruct (digest (eventsSnapshot g)) as [d|]; [|reflexivity].
    destruct (String.eqb_spec d (snapshotDigest p)) as [->|_]; [now elim Hd|].
    apply andb_false_r. }
  rewrite Hsame. globals_simpl. cbn [version digest payload events p_version]. traces_simpl.
  repeat split.
Qed.

Lemma refreshFinally_frame g :
  let g' := refreshFinally g in
  eventsSnapshot g' = eventsSnapshot g
  /\ dataVersion g' = dataVersion g
  /\ reclSeenStore g' = reclSeenStore g
  /\ refreshInFlight g' = false
  /\ refreshPending g' = false
  /\ refreshTimer g' = (if refreshPending g then Some "pending" else refreshTimer g)
  /\ broadcasts (trace g') = broadcasts (trace g)
  /\ diskWrites (trace g') = diskWrites (trace g).
Proof.
  cbv zeta. unfold refreshFinally, scheduleRefresh. globals_simpl.
  destruct (refreshPending g) eqn:Hp; globals_simpl; traces_simpl; repeat split; auto.
Qed.

(** C1 (as amended). For every refresh pass that gets as far as rebuilding
    the payload, in whatever state the live snapshot is when the digests are
    compared: when the payload's digest equals the live snapshot's digest
    the commit is discarded, so through the rest of the pass the snapshot's
    version, digest and events and the global data version do not change and
    nothing is broadcast; when the digest differs the payload is committed,
    and the commit sets the snapshot's version, the payload's version and
    the data version to the clock reading it takes, whatever the version was
    before. *)
Theorem refresh_digest_gate (reason : string) (t0 : Z) (p : Payload) (g : Globals)
    (Hsha : forall s, sha1_hex s <> EmptyString) :
  let r := commitOrDiscard reason t0 p g in
  let live := eventsSnapshot g in
  (digest live = Some (snapshotDigest p) ->
      let g' := refreshFinally (fst r) in
      snd r = false
      /\ (forall up g0, refreshBuild reason up g0 = (g, Some (t0, p)) ->
            refreshPass reason up g0 = g')
      /\ version (eventsSnapshot g') = version live
      /\ dataVersion g' = dataVersion g
      /\ digest (eventsSnapshot g') = digest live
      /\ events (payload (eventsSnapshot g')) = events (payload live)
      /\ broadcasts (trace g') = broadcasts (trace g))
  /\ (digest live <> Some (snapshotDigest p) ->
      let g1 := fst r in
      snd r = true
      /\ version (eventsSnapshot g1) = clock (ticks g)
      /\ p_version (payload (eventsSnapshot g1)) = clock (ticks g)
      /\ dataVersion g1 = clock (ticks g)
      /\ digest (eventsSnapshot g1) = Some (snapshotDigest p)
      /\ events (payload (eventsSnapshot g1)) = events p).
Proof.
  cbv zeta. split.
  - intros Hd.
    destruct (commitOrDiscard_same reason t0 p g (Hsha _) Hd)
      as (Hr & Hv & Hdg & Hev & Hdat & _ & _ & _ & _ & Hb & _).
    split; [exact Hr|]. split.
    { intros up g0 Hbuilt. unfold refreshPass, refreshBody. rewrite Hbuilt.
      destruct (commitOrDiscard reason t0 p g) as [g2 committed].
      cbn [fst snd] in *. now subst committed. }
    destruct (refreshFinally_frame (fst (commitOrDiscard reason t0 p g)))
      as (Fs & Fd & _ & _ & _ & _ & Fb & _).
    rewrite Fs, Fd, Fb, Hv, Hdg, Hev, Hdat, Hb. repeat split.
  - intros Hd.
    destruct (commitOrDiscard_diff reason t0 p g Hd)
      as (Hr & Hv & Hdg & Hev & Hpv & Hdat & _).
    repeat split; assumption.
Qed.

Lemma passThrows_build reason up g :
  passThrows up g <-> snd (refreshBuild reason up g) = None.
Proof.
  unfold passThrows, refreshBuild, dateNow, newDateISO. cbn [snd].
  destruct (pull up) as [items|]; [|tauto].
  destruct (usersOk up); cbn [negb]; [|tauto].
  destruct (mapItemsToEvents items (set_ticks (S (ticks g)) g)) as [g1 mapped]. cbn [snd].
  destruct (reclChanged mapped); [destruct (reclSaveOk up)|]; cbn [negb];
    try match goal with |- context [manualEventsOf ?ms ?gg] =>
          destruct (manualEventsOf ms gg) as [es g3]
        end; cbn [snd]; intuition congruence.
Qed.

(** C6 (as amended). If the upstream pull or a later awaited step of a
    refresh pass throws, the pass ends without touching the live snapshot
    (its version, digest and payload included) or the global data version,
    nothing is broadcast and no snapshot is written; the error is logged,
    the flight slot is released and what the poller remembers is left as it
    was.  So the pass of any later trigger runs; and a later poller tick
    arms a refresh when the top timestamp it sees differs from the one the
    poller remembers, and arms nothing when it sees the same. *)
Theorem failed_pass_keeps_snapshot (reason : string) (up : Upstream) (g : Globals)
    (Hthrows : passThrows up g) :
  let g' := refreshPass reason up g in
  eventsSnapshot g' = eventsSnapshot g
  /\ dataVersion g' = dataVersion g
  /\ broadcasts (trace g') = broadcasts (trace g)
  /\ diskWrites (trace g') = diskWrites (trace g)
  /\ In LogError (trace g')
  /\ refreshInFlight g' = false
  /\ lastTopUpdatedTime g' = lastTopUpdatedTime g
  /\ (forall later, snd (refreshEnter (set_refreshTimer None (scheduleRefresh later g'))) = true)
  /\ (forall rows u l,
        topTimestamp rows = Some u -> lastTopUpdatedTime g' = Some l ->
        u <> EmptyString -> l <> EmptyString ->
        let g'' := pollBitrixTopUpdate (Some rows) g' in
        (u <> l -> refreshTimer g'' = Some "bitrix_poll")
        /\ (u = l -> refreshTimer g'' = refreshTimer g'
                     /\ refreshTimers (trace g'') = refreshTimers (trace g'))).
Proof.
  cbv zeta. apply (passThrows_build reason) in Hthrows.
  destruct (refreshBuild_frame reason up g) as (Hcore & _ & Hbc & Hdw & _).
  unfold refreshPass, refreshBody.
  destruct (refreshBuild reason up g) as [g1 r]. cbn [fst snd] in *. subst r.
  pose proof Hcore as (Hdv & Hsnap & _).
  destruct (refreshFinally_frame (emit LogError g1)) as (Fs & Fd & _ & Ff & _ & _ & Fb & Fw).
  rewrite Fs, Fd, Fb, Fw. globals_simpl. traces_simpl.
  split; [auto|]. split; [auto|]. split; [auto|]. split; [auto|].
  split.
  { unfold refreshFinally, scheduleRefresh. globals_simpl.
    destruct (refreshPending g1); globals_simpl; rewrite ?in_app_iff; simpl; tauto. }
  split; [exact Ff|].
  split.
  { unfold refreshFinally, scheduleRefresh. globals_simpl.
    destruct (refreshPending g1); globals_simpl; apply Hcore. }
  split.
  { intros later. unfold refreshEnter, scheduleRefresh. globals_simpl. now rewrite Ff. }
  intros rows u l Hu Hl Hune Hlne.
  pose proof (poll_schedule rows (refreshFinally (emit LogError g1))) as Hp.
  cbv zeta in Hp. rewrite Hu, (nonEmpty_true _ Hune), Hl, (nonEmpty_true _ Hlne) in Hp.
  destruct (String.eqb_spec u l) as [Heq|Hne]; cbn [andb negb] in Hp.
  - split; [intros Hdiff; now elim Hdiff|]. intros _. tauto.
  - split; [intros _; tauto|]. intros Heq. now elim Hne.
Qed.

(** ** The refresh coordinator *)

Lemma commitOrDiscard_frame reason t0 p g :
  let g' := fst (commitOrDiscard reason t0 p g) in
  reclSeenStore g' = reclSeenStore g
  /\ refreshInFlight g' = refreshInFlight g
  /\ refreshPending g' = refreshPending g
  /\ refreshTimer g' = refreshTimer g.
Proof.
  cbv zeta. unfold commitOrDiscard, dateNow, saveSnapshotToDisk. cbv zeta.
  destruct (match digest (eventsSnapshot g) with Some _ => _ | None => _ end); now cbn.
Qed.

Lemma refreshBody_frame reason up g :
  let g' := refreshBody reason up g in
  (forall idStr, flagged idStr g -> flagged idStr g')
  /\ refreshInFlight g' = refreshInFlight g
  /\ refreshPending g' = refreshPending g
  /\ refreshTimer g' = refreshTimer g.
Proof.
  cbv zeta. unfold refreshBody.
  destruct (refreshBuild_frame reason up g) as (Hcore & Hflag & _).
  destruct (refreshBuild reason up g) as [g1 [[t0 p]|]]; cbn [fst] in *;
    destruct Hcore as (_ & _ & _ & _ & Hf & Hp & Ht & _).
  - destruct (commitOrDiscard_frame reason t0 p g1) as (Cr & Cf & Cp & Ct).
    destruct (commitOrDiscard reason t0 p g1) as [g2 committed]. cbn [fst] in *.
    assert (Hfl : forall idStr, flagged idStr g -> flagged idStr g2).
    { intros idStr H. unfold flagged. rewrite Cr. now apply Hflag. }
    destruct committed; unfold broadcastVersion; globals_simpl;
      rewrite ?Cf, ?Cp, ?Ct; repeat split; auto.
  - globals_simpl. repeat split; auto.
Qed.

Lemma refreshPass_coord reason up g :
  let g' := refreshPass reason up g in
  (forall idStr, flagged idStr g -> flagged idStr g')
  /\ refreshInFlight g' = false
  /\ refreshPending g' = false
  /\ refreshTimer g' = (if refreshPending g then Some "pending" else refreshTimer g).
Proof.
  cbv zeta. unfold refreshPass.
  destruct (refreshBody_frame reason up g) as (Hfl & Hf & Hp & Ht).
  destruct (refreshFinally_frame (refreshBody reason up g)) as (_ & _ & Fr & Ff & Fp & Ft & _).
  rewrite Ff, Fp, Ft, Hp, Ht. repeat split.
  intros idStr H. unfold flagged. rewrite Fr. now apply Hfl.
Qed.














(** ** The reclamation-ever flag *)

Lemma mapItemsLoop_app l1 l2 : forall acc g,
  mapItemsLoop (l1 ++ l2) acc g
  = let '(g1, acc1) := mapItemsLoop l1 acc g in mapItemsLoop l2 acc1 g1.
Proof.
  induction l1 as [|x l1 IH]; intros acc g; simpl; [reflexivity|].
  destruct (mapItem x g) as [[g1 changed] out]. apply IH.
Qed.

Lemma mapItemsLoop_flagged items acc g idStr :
  flagged idStr g -> flagged idStr (fst (mapItemsLoop items acc g)).
Proof.
  intros H. destruct (mapItemsLoop_globals items acc g) as (R & T & -> & Hmono).
  unfold flagged. cbn. now apply Hmono.
Qed.

Lemma mapItem_flagged item g idStr :
  flagged idStr g -> flagged idStr (fst (fst (mapItem item g))).
Proof.
  intros H. destruct (mapItem_globals item g) as (R & T & -> & Hmono & _).
  unfold flagged. cbn. now apply Hmono.
Qed.

Lemma mapItem_records item g :
  RECL_STAGES_has (stageOf item) = true ->
  flagged (toStr (it_id item)) (fst (fst (mapItem item g))).
Proof.
  intros H. destruct (mapItem_globals item g) as (R & T & -> & _ & Hrec).
  unfold flagged. cbn. now apply Hrec.
Qed.

Lemma refreshSnapshot_flagged reason up g idStr :
  flagged idStr g -> flagged idStr (refreshSnapshot reason up g).
Proof.
  intros H. unfold refreshSnapshot, refreshEnter.
  destruct (refreshInFlight g); [exact H|].
  destruct (refreshPass_coord reason up (set_refreshInFlight true g)) as (Hfl & _).
  now apply Hfl.
Qed.

Lemma act_flagged a g idStr : flagged idStr g -> flagged idStr (act a g).
Proof.
  intros H. destruct a as [reason up|i v|resp|reason]; cbn [act].
  - now apply refreshSnapshot_flagged.
  - destruct (patch_frame i v g) as (Hr & _). unfold flagged. cbv zeta in Hr. now rewrite Hr.
  - destruct (poll_frame resp g) as (_ & _ & Hr & _). unfold flagged. cbv zeta in Hr. now rewrite Hr.
  - exact H.
Qed.

Lemma acts_flagged l : forall g idStr, flagged idStr g -> flagged idStr (acts l g).
Proof.
  induction l as [|a l IH]; intros g idStr H; simpl; [exact H|].
  apply IH. now apply act_flagged.
Qed.

Lemma flagged_item_red item g e idStr :
  flagged idStr g -> snd (mapItem item g) = Pushed e -> ev_id e = JStr idStr ->
  backgroundColor e = JStr COLOR_RED /\ prop (propsOf e) "color" = JStr COLOR_RED.
Proof.
  intros Hf He Hid.
  destruct (mapItem_pushed item g e He) as (_ & _ & Hev & _ & Hcol & _ & Hprop & _).
  cbv zeta in *. rewrite Hev in Hid. injection Hid as Hid.
  assert (Hever : reclEverOf item g = true).
  { unfold reclEverOf. rewrite Hid. unfold flagged in Hf. rewrite Hf. apply orb_true_r. }
  rewrite Hever, pickColor_recl in Hcol. now rewrite Hprop, Hcol.
Qed.

(** C5. The reclamation-ever flag store is monotonic.  Once a refresh meets
    a record in a reclamation stage the record's flag is in the store; no
    later operation (a refresh, a patch, a poller tick, a scheduling call)
    removes it; and every later refresh derives the ever-in-reclamation
    status true for that record, whatever its stage has become, and gives
    every event of that record the red colour. *)
Theorem recl_flag_is_permanent (item : Item) (before after : list Item) (g0 : Globals)
    (Hrecl : RECL_STAGES_has (stageOf item) = true) :
  let idStr := toStr (it_id item) in
  let g1 := fst (mapItemsToEvents (before ++ item :: after) g0) in
  flagged idStr g1
  /\ forall actions,
       let g2 := acts actions g1 in
       flagged idStr g2
       /\ (forall later, toStr (it_id later) = idStr -> reclEverOf later g2 = true)
       /\ (forall items,
             Forall (fun e => ev_id e = JStr idStr ->
                              backgroundColor e = JStr COLOR_RED
                              /\ prop (propsOf e) "color" = JStr COLOR_RED)
               (m_events (snd (mapItemsToEvents items g2)))).
Proof.
  cbv zeta.
  assert (H1 : flagged (toStr (it_id item))
                 (fst (mapItemsToEvents (before ++ item :: after) g0))).
  { unfold mapItemsToEvents. rewrite mapItemsLoop_app.
    destruct (mapItemsLoop before _ g0) as [ga acca]. simpl.
    pose proof (mapItem_records item ga Hrecl) as Hrec.
    destruct (mapItem item ga) as [[gb changed] out]. cbn [fst] in Hrec.
    now apply mapItemsLoop_flagged. }
  split; [exact H1|].
  intros actions.
  pose proof (acts_flagged actions _ _ H1) as H2.
  split; [exact H2|]. split.
  - intros later Hid. unfold reclEverOf. rewrite Hid. unfold flagged in H2. rewrite H2.
    apply orb_true_r.
  - intros items. unfold mapItemsToEvents.
    apply (mapItemsLoop_inv (flagged (toStr (it_id item)))
             (fun e => ev_id e = JStr (toStr (it_id item)) ->
                       backgroundColor e = JStr COLOR_RED
                       /\ prop (propsOf e) "color" = JStr COLOR_RED)).
    + intros it g Hg. split; [now apply mapItem_flagged|].
      intros e He Hid. eapply flagged_item_red; eauto.
    + exact H2.
    + constructor.
Qed.

End Properties.

(** * The properties at work on the sample data *)

Lemma tagDigest_nonempty s : tagDigest s <> EmptyString.
Proof. discriminate. Qed.

(** The second pass rebuilds the payload the start-up pass committed: it is
    discarded, version and broadcasts stay. *)
Lemma refresh_digest_gate_example :
  (forall s, sha1_hex (Platform := runningClock) s <> EmptyString)
  /\ digest (eventsSnapshot Running.rebuiltGlobals)
     = Some (snapshotDigest (P := runningClock) Running.rebuiltPayload)
  /\ version (eventsSnapshot (refreshPass (P := runningClock) "bitrix_hook" up7 Running.secondPass))
     = version (eventsSnapshot Running.rebuiltGlobals)
  /\ broadcasts (trace (refreshPass (P := runningClock) "bitrix_hook" up7 Running.secondPass))
     = broadcasts (trace Running.rebuiltGlobals).
Proof.
  assert (Hb : refreshBuild (P := runningClock) "bitrix_hook" up7 Running.secondPass
               = (Running.rebuiltGlobals, Some (Running.rebuiltT0, Running.rebuiltPayload)))
    by (vm_compute; reflexivity).
  assert (Hd : digest (eventsSnapshot Running.rebuiltGlobals)
               = Some (snapshotDigest (P := runningClock) Running.rebuiltPayload))
    by (vm_compute; reflexivity).
  split; [exact tagDigest_nonempty|]. split; [exact Hd|].
  destruct (refresh_digest_gate (P := runningClock) "bitrix_hook" Running.rebuiltT0
              Running.rebuiltPayload Running.rebuiltGlobals tagDigest_nonempty)
    as (Hsame & _).
  destruct (Hsame Hd) as (_ & Hpass & Hv & _ & _ & _ & Hbc).
  rewrite (Hpass up7 Running.secondPass Hb). split; [exact Hv|exact Hbc].
Defined.

(** A commit of a different payload that leaves the version where it was:
    the patch of record 7 and the commit of the payload rebuilt from the
    CRM's older answer read the clock within the same millisecond. *)
Lemma commit_can_keep_version :
  snd Burst.afterCommit = true
  /\ digest (eventsSnapshot Burst.afterPatch)
     <> Some (snapshotDigest (P := burstClock) Burst.rebuiltPayload)
  /\ digest (eventsSnapshot (fst Burst.afterCommit))
     <> digest (eventsSnapshot Burst.afterPatch)
  /\ ~ (version (eventsSnapshot Burst.afterPatch)
        < version (eventsSnapshot (fst Burst.afterCommit))).
Proof.
  assert (Hv : version (eventsSnapshot (fst Burst.afterCommit))
               = version (eventsSnapshot Burst.afterPatch)) by (vm_compute; reflexivity).
  split; [vm_compute; reflexivity|].
  split; [vm_compute; discriminate|].
  split; [vm_compute; discriminate|].
  rewrite Hv. lia.
Qed.



(** Record 7 has a transfer date and an assigned date only: its event starts
    on the assigned date. *)
Lemma start_date_by_priority_example :
  filled (ufCrm8_1747916236564 item7) = true
  /\ exists e, snd (mapItem (P := runningClock) item7 freshGlobals) = Pushed e
               /\ start e = JStr "2024-02-05".
Proof.
  assert (H : filled (ufCrm8_1747916236564 item7) = true) by reflexivity.
  split; [exact H|].
  exact (proj1 (start_date_by_priority (P := runningClock) item7 H) freshGlobals).
Defined.

(** Record 7 was never in reclamation and has no quality-check date: dark gray. *)
Lemma color_decision_order_example :
  snd (mapItem (P := runningClock) item7 freshGlobals) = Pushed Running.event7
  /\ backgroundColor Running.event7 = JStr COLOR_GRAY_DARK.
Proof.
  assert (H : snd (mapItem (P := runningClock) item7 freshGlobals) = Pushed Running.event7)
    by (vm_compute; reflexivity).
  split; [exact H|].
  destruct (color_decision_order (P := runningClock) item7 freshGlobals Running.event7 H)
    as (_ & Hgray & _).
  apply Hgray; reflexivity.
Defined.

(** Record 8 is met in a reclamation stage; after a refresh, a patch, a
    poller tick and a scheduling call, a refresh that finds it in another
    stage still paints it red. *)
Lemma recl_flag_is_permanent_example :
  RECL_STAGES_has (stageOf item8) = true
  /\ Forall (fun e => ev_id e = JStr "8" -> backgroundColor e = JStr COLOR_RED
                                            /\ prop (propsOf e) "color" = JStr COLOR_RED)
       (m_events
          (snd (mapItemsToEvents (P := runningClock) [item7; item8later]
                  (acts (P := runningClock)
                     [ARefresh "bitrix_hook" (mkUpstream (Some [item8later]) true true);
                      APatch (JStr "8") (JStr "2024-03-01");
                      APoll (Some Running.rowsA);
                      ASchedule "done_update"]
                     (fst (mapItemsToEvents (P := runningClock) [item7; item8] freshGlobals)))))).
Proof.
  assert (H : RECL_STAGES_has (stageOf item8) = true) by reflexivity.
  split; [exact H|].
  destruct (recl_flag_is_permanent (P := runningClock) item8 [item7] [] freshGlobals H)
    as [_ Hlater].
  exact (proj2 (proj2 (Hlater _)) [item7; item8later]).
Defined.

(** The CRM is unreachable during the second pass: the snapshot of the
    start-up pass stays and nothing is broadcast. *)
Lemma failed_pass_keeps_snapshot_example :
  passThrows (P := runningClock) upDown Running.secondPass
  /\ eventsSnapshot (refreshPass (P := runningClock) "bitrix_hook" upDown Running.secondPass)
     = eventsSnapshot Running.secondPass
  /\ broadcasts (trace (refreshPass (P := runningClock) "bitrix_hook" upDown Running.secondPass))
     = broadcasts (trace Running.secondPass).
Proof.
  assert (H : passThrows (P := runningClock) upDown Running.secondPass) by exact I.
  split; [exact H|].
  destruct (failed_pass_keeps_snapshot (P := runningClock) "bitrix_hook" upDown
              Running.secondPass H) as (Hs & _ & Hb & _).
  split; [exact Hs|exact Hb].
Defined.

(** A refresh armed by the poller whose pass finds the CRM unreachable: the
    snapshot of the start-up pass stays, and the poller ticks that follow,
    seeing the timestamp the poller already remembers, arm nothing. *)
Lemma failed_poll_pass_is_not_retried :
  refreshTimer Running.polled = Some "bitrix_poll"
  /\ snd (refreshEnter (set_refreshTimer None Running.polled)) = true
  /\ passThrows (P := runningClock) upDown Running.pollPass
  /\ eventsSnapshot Running.failedPass = eventsSnapshot Running.afterStartup
  /\ refreshTimer Running.failedPass = None
  /\ refreshTimer Running.laterTicks = None
  /\ refreshInFlight Running.laterTicks = false
  /\ refreshTimers (trace Running.laterTicks) = refreshTimers (trace Running.failedPass)
  /\ eventsSnapshot Running.laterTicks = eventsSnapshot Running.afterStartup.
Proof.
  split; [vm_compute; reflexivity|]. split; [vm_compute; reflexivity|].
  split; [exact I|].
  split; [vm_compute; reflexivity|]. split; [vm_compute; reflexivity|].
  split; [vm_compute; reflexivity|]. split; [vm_compute; reflexivity|].
  split; vm_compute; reflexivity.
Qed.

(** Patching record 7 in the snapshot of the start-up pass: with a date the
    event becomes an all-day event, with a date and time it does not. *)
Lemma patch_assigned_date_example :
  events (payload (eventsSnapshot Running.afterStartup)) = Some [Running.event7]
  /\ findIndex (fun e => String.eqb (toStr (ev_id e)) (toStr (JStr "7"))) [Running.event7]
     = Some O
  /\ [Running.event7] !! O = Some Running.event7
  /\ closed Running.event7 = false
  /\ snd (patchSnapshotAssignedDate (P := runningClock) (JStr "7") (JStr "2024-03-01")
            Running.afterStartup) = true
  /\ (exists ev',
        events (payload (eventsSnapshot
                  (fst (patchSnapshotAssignedDate (P := runningClock) (JStr "7")
                          (JStr "2024-03-01") Running.afterStartup))))
        = Some [ev']
        /\ start ev' = JStr "2024-03-01"
        /\ allDay ev' = true)
  /\ version (eventsSnapshot
                (fst (patchSnapshotAssignedDate (P := runningClock) (JStr "7")
                        (JStr "2024-03-01") Running.afterStartup)))
     = 1700000000005
  /\ digest (eventsSnapshot
               (fst (patchSnapshotAssignedDate (P := runningClock) (JStr "7")
                       (JStr "2024-03-01") Running.afterStartup)))
     = Some "sha1:1|7|2024-03-01|#111827|false|false|false||DT141_14:UC_44PKAP"
  /\ (exists ev',
        events (payload (eventsSnapshot
                  (fst (patchSnapshotAssignedDate (P := runningClock) (JStr "7")
                          (JStr "2024-03-01T10:00:00") Running.afterStartup))))
        = Some [ev']
        /\ start ev' = JStr "2024-03-01T10:00:00"
        /\ allDay ev' = false).
Proof.
  assert (H1 : events (payload (eventsSnapshot Running.afterStartup)) = Some [Running.event7])
    by (vm_compute; reflexivity).
  assert (H2 : findIndex (fun e => String.eqb (toStr (ev_id e)) (toStr (JStr "7")))
                 [Running.event7] = Some O) by (vm_compute; reflexivity).
  assert (H3 : [Running.event7] !! O = Some Running.event7) by reflexivity.
  assert (H4 : closed Running.event7 = false) by (vm_compute; reflexivity).
  split; [exact H1|]. split; [exact H2|]. split; [exact H3|]. split; [exact H4|].
  destruct (patch_assigned_date (P := runningClock) (JStr "7") (JStr "2024-03-01")
              Running.afterStartup [Running.event7] O Running.event7 H1 H2 H3) as [_ Hopen].
  destruct (Hopen H4) as (ev' & Hr & Hev & _ & Hst & Hall & _ & _ & _ & _ & _ & _ & _ & Hv & _).
  split; [exact Hr|].
  split.
  { exists ev'. split; [exact Hev|]. split; [exact Hst|].
    apply Hall. exists "2024-03-01". split; [reflexivity|].
    exists "2"%char, "0"%char, "2"%char, "4"%char, "0"%char, "3"%char, "0"%char, "1"%char.
    split; [reflexivity|].
    repeat (apply List.Forall_cons; [unfold decimal; cbn; lia|]). apply List.Forall_nil. }
  split; [rewrite Hv; vm_compute; reflexivity|].
  split; [vm_compute; reflexivity|].
  destruct (patch_assigned_date (P := runningClock) (JStr "7") (JStr "2024-03-01T10:00:00")
              Running.afterStartup [Running.event7] O Running.event7 H1 H2 H3) as [_ Hopen2].
  destruct (Hopen2 H4) as (ev2 & _ & Hev2 & _ & Hst2 & Hall2 & _).
  exists ev2. split; [exact Hev2|]. split; [exact Hst2|].
  destruct (allDay ev2); [|reflexivity].
  destruct (proj1 Hall2 eq_refl)
    as (s & Hs & y1 & y2 & y3 & y4 & m1 & m2 & d1 & d2 & Heq & _).
  injection Hs as <-. vm_compute in Heq. discriminate Heq.
Defined.

(** Two patches of record 7 within one millisecond: the second is applied,
    moves the event and changes the digest, and the version stays where the
    first patch put it; the broadcast announces that same version again. *)
Lemma patch_can_keep_version :
  snd Burst.secondPatch = true
  /\ events (payload (eventsSnapshot (fst Burst.secondPatch)))
     <> events (payload (eventsSnapshot Burst.afterPatch))
  /\ digest (eventsSnapshot (fst Burst.secondPatch))
     <> digest (eventsSnapshot Burst.afterPatch)
  /\ version (eventsSnapshot (fst Burst.secondPatch))
     = version (eventsSnapshot Burst.afterPatch)
  /\ ~ (version (eventsSnapshot Burst.afterPatch)
        < version (eventsSnapshot (fst Burst.secondPatch)))
  /\ broadcasts (trace (fst Burst.secondPatch))
     = (broadcasts (trace Burst.afterPatch)
        ++ [version (eventsSnapshot Burst.afterPatch)])%list.
Proof.
  assert (Hv : version (eventsSnapshot (fst Burst.secondPatch))
               = version (eventsSnapshot Burst.afterPatch)) by (vm_compute; reflexivity).
  split; [vm_compute; reflexivity|].
  split; [vm_compute; discriminate|].
  split; [vm_compute; discriminate|].
  split; [exact Hv|].
  split; [rewrite Hv; lia|].
  vm_compute; reflexivity.
Qed.

(** Record 9 has a completion date besides planned and assigned dates: its
    event starts on the completion date. *)
Lemma completion_date_is_start_example :
  filled (ufCrm8_1747916236564 item9) = true
  /\ filled (ufCrm8_1744639197488 item9) = true
  /\ exists e, snd (mapItem (P := runningClock) item9 freshGlobals) = Pushed e
               /\ start e = JStr "2024-03-10".
Proof.
  assert (H1 : filled (ufCrm8_1747916236564 item9) = true) by reflexivity.
  assert (H2 : filled (ufCrm8_1744639197488 item9) = true) by reflexivity.
  split; [exact H1|]. split; [exact H2|].
  destruct (completion_date_is_start (P := runningClock) item9 freshGlobals H1 H2)
    as (e & He & Hs & _).
  exists e. split; [exact He|exact Hs].
Defined.

(** Record 9 has a completion date, is in the "installation done" stage and
    is not marked in the done store: its event is not done. *)
Lemma completion_date_without_done :
  filled (ufCrm8_1744639197488 item9) = true
  /\ exists e, snd (mapItem (P := runningClock) item9 freshGlobals) = Pushed e
               /\ start e = JStr "2024-03-10"
               /\ prop (propsOf e) "done" = JBool false
               /\ prop (propsOf e) "done" <> JBool true.
Proof.
  split; [reflexivity|].
  eexists. split; [vm_compute; reflexivity|].
  split; [reflexivity|]. split; [vm_compute; reflexivity|]. vm_compute. discriminate.
Qed.

(** Two ticks with different top timestamps: the second arms a refresh. *)
Lemma poller_tick_example :
  refreshTimer (pollBitrixTopUpdate (Some Running.rowsB)
                  (pollBitrixTopUpdate (Some Running.rowsA) freshGlobals))
  = Some "bitrix_poll"
  /\ eventsSnapshot (pollLoop [Some Running.rowsA; None; Some Running.rowsB] freshGlobals)
     = eventsSnapshot freshGlobals
  /\ pollTimers (trace (pollLoop [Some Running.rowsA; None; Some Running.rowsB] freshGlobals))
     = 3%nat.
Proof.
  destruct (poller_tick freshGlobals) as (_ & _ & _ & Hdiff & _ & Hloop).
  split.
  - refine (proj2 (proj1 (Hdiff Running.rowsA Running.rowsB
                            "2024-02-01T10:00:00+03:00" "2024-02-01T10:05:00+03:00"
                            eq_refl _ eq_refl _) _)); discriminate.
  - destruct (Hloop [Some Running.rowsA; None; Some Running.rowsB]) as (H1 & _ & H3).
    split; [exact H1|exact H3].
Defined.

(** No event of the start-up snapshot has id 99. *)
Lemma patch_unknown_id_example :
  (match events (payload (eventsSnapshot Running.afterStartup)) with
   | None => True
   | Some evs => forall e, In e evs -> toStr (ev_id e) <> toStr (JStr "99")
   end)
  /\ patchSnapshotAssignedDate (P := runningClock) (JStr "99") (JStr "2024-03-01")
       Running.afterStartup
     = (Running.afterStartup, false).
Proof.
  assert (H : match events (payload (eventsSnapshot Running.afterStartup)) with
              | None => True
              | Some evs => forall e, In e evs -> toStr (ev_id e) <> toStr (JStr "99")
              end).
  { assert (He : events (payload (eventsSnapshot Running.afterStartup))
                 = Some [Running.event7]) by (vm_compute; reflexivity).
    rewrite He. intros e [<-|[]]. vm_compute. discriminate. }
  split; [exact H|].
  exact (patch_unknown_id (P := runningClock) (JStr "99") (JStr "2024-03-01")
           Running.afterStartup H).
Defined.

(** * Further properties *)

(** ** Packing and paging *)

Lemma chunkLoop_spec {A : Type} (arr : list A) (size : nat) :
  (0 < size)%nat ->
  forall fuel i, (length arr <= i + fuel)%nat ->
    concat (chunkLoop fuel i arr size) = drop i arr
    /\ Forall (fun pack => (0 < length pack <= size)%nat) (chunkLoop fuel i arr size).
Proof.
  intros Hsize fuel.
  induction fuel as [|fuel IH]; intros i Hlen; simpl.
  - split; [|constructor].
    symmetry. apply drop_ge. lia.
  - destruct (Nat.ltb_spec i (length arr)) as [Hlt|Hge].
    + destruct (IH (i + size)%nat ltac:(lia)) as [Hc Hf].
      unfold slice.
      replace (i + size - i)%nat with size by lia.
      split.
      * simpl. rewrite Hc.
        rewrite <- (take_drop size (drop i arr)) at 2.
        rewrite drop_drop. reflexivity.
      * constructor; [|exact Hf].
        rewrite length_take, length_drop. lia.
    + split; [|constructor].
      symmetry. apply drop_ge. lia.
Qed.

(** X1. [chunk] loses and repeats nothing: the packs, put end to end, are
    the array, and every pack holds at least one and at most [size]
    elements. *)
Theorem chunk_packs {A : Type} (arr : list A) (size : nat) :
  (0 < size)%nat ->
  concat (chunk arr size) = arr
  /\ Forall (fun pack => (0 < length pack <= size)%nat) (chunk arr size).
Proof.
  intros Hsize.
  destruct (chunkLoop_spec arr size Hsize (length arr) 0%nat ltac:(lia)) as [Hc Hf].
  split; [exact Hc | exact Hf].
Qed.

Lemma loadPages_paged ask coll size :
  (0 < size)%nat ->
  servesInPages ask coll size ->
  forall fuel s all,
    (s <= length coll)%nat ->
    (length coll < s + fuel * size)%nat ->
    loadPages fuel ask (JNum (Z.of_nat s)) all = LoadedItems (all ++ drop s coll)%list.
Proof.
  intros Hsize Hask fuel.
  induction fuel as [|fuel IH]; intros s all Hs Hfuel.
  - simpl in Hfuel. lia.
  - simpl. rewrite (Hask s Hs). cbn [ans_items ans_next].
    destruct (Nat.ltb_spec (s + size) (length coll)) as [Hlt|Hge].
    + rewrite IH by lia.
      rewrite <- app_assoc.
      rewrite <- (drop_drop coll size s).
      rewrite take_drop. reflexivity.
    + rewrite take_ge; [reflexivity|].
      rewrite length_drop. lia.
Qed.

(** X2. Against a CRM that serves the records of a stage in pages of
    [size] records and names the offset of the next page while there is
    one, [loadItemsForOneStage] returns the whole collection, in order,
    once it has been given enough requests. *)
Theorem paging_collects crm stageId coll size :
  (0 < size)%nat ->
  servesInPages (crm stageId) coll size ->
  exists fuel, forall fuel', (fuel <= fuel')%nat ->
    loadItemsForOneStage fuel' crm stageId = LoadedItems coll.
Proof.
  intros Hsize Hask.
  exists (S (length coll)). intros fuel' Hf. unfold loadItemsForOneStage.
  apply (loadPages_paged (crm stageId) coll size Hsize Hask fuel' 0%nat []); [lia|nia].
Qed.

Lemma loadPages_endless ask :
  (forall start, exists data, ask start = Some data
                              /\ ans_next data <> JUndef /\ ans_next data <> JNull) ->
  forall fuel start all, loadPages fuel ask start all = LoadRunning.
Proof.
  intros Hask fuel.
  induction fuel as [|fuel IH]; intros start all; simpl; [reflexivity|].
  destruct (Hask start) as (data & -> & Hu & Hn).
  destruct (ans_next data); try congruence; apply IH.
Qed.

(** X3. The paging loop has no bound of its own: against an upstream whose
    every answer names a next page, [loadItemsForOneStage] never returns,
    however many requests it is given. *)
Theorem paging_needs_last_page crm stageId :
  (forall start, exists data, crm stageId start = Some data
                              /\ ans_next data <> JUndef /\ ans_next data <> JNull) ->
  forall fuel, loadItemsForOneStage fuel crm stageId = LoadRunning.
Proof.
  intros Hask fuel. unfold loadItemsForOneStage. apply loadPages_endless. exact Hask.
Qed.

(** ** The worker pool of [mapLimit] *)

Lemma map_lookup {A B : Type} (f : A -> B) (l : list A) :
  forall i, List.map f l !! i = option_map f (l !! i).
Proof.
  induction l as [|x l IH]; intros [|i]; simpl; try reflexivity. apply IH.
Qed.

Lemma poolStart_inv {A B : Type} (fn : A -> option B) (arr : list A) (limit : nat) :
  poolInv fn arr limit (poolStart (B:=B) arr limit).
Proof.
  unfold poolInv, poolStart. cbn [nextIdx results workers rejected].
  split; [lia|].
  split; [apply length_replicate|].
  split; [rewrite length_map, length_seq; reflexivity|].
  assert (Hw : forall w x, List.map Some (seq 0 (Nat.min limit (length arr))) !! w = Some x ->
                           x = Some w /\ (w < Nat.min limit (length arr))%nat).
  { intros w x Hx.
    rewrite map_lookup in Hx.
    destruct (seq 0 (Nat.min limit (length arr)) !! w) as [y|] eqn:Hy; [|discriminate].
    apply lookup_seq in Hy. simpl in Hx. destruct Hy as [-> Hlt].
    inversion Hx. split; [reflexivity|lia]. }
  split.
  - intros w i Hi. apply Hw in Hi. destruct Hi as [Hi Hlt]. inversion Hi. lia.
  - intros _. split.
    + intros w Hn. apply Hw in Hn. destruct Hn as [Hn _]. discriminate.
    + intros j a Hj _. left. exists j. cbn [workers].
      rewrite map_lookup.
      rewrite (lookup_seq_lt 0 _ j Hj). reflexivity.
Qed.

Lemma poolStep_cases {A B : Type} (fn : A -> option B) (arr : list A) w (p p' : Pool B) :
  poolStep fn arr w p = Some p' ->
  exists i a, workers p !! w = Some (Some i) /\ arr !! i = Some a
    /\ match fn a with
       | Some b =>
           if (nextIdx p <? length arr)%nat
           then p' = mkPool (S (nextIdx p)) (<[i := Some b]> (results p))
                       (<[w := Some (nextIdx p)]> (workers p)) (rejected p)
           else p' = mkPool (nextIdx p) (<[i := Some b]> (results p))
                       (<[w := None]> (workers p)) (rejected p)
       | None => p' = mkPool (nextIdx p) (results p) (<[w := None]> (workers p)) true
       end.
Proof.
  unfold poolStep. intros H.
  destruct (workers p !! w) as [[i|]|] eqn:Hw; try discriminate.
  destruct (arr !! i) as [a|] eqn:Ha; try discriminate.
  exists i, a. split; [reflexivity|]. split; [exact Ha|].
  destruct (fn a) as [b|]; [|congruence].
  destruct (nextIdx p <? length arr)%nat; congruence.
Qed.

Lemma poolStep_inv {A B : Type} (fn : A -> option B) (arr : list A) limit w (p p' : Pool B) :
  poolInv fn arr limit p -> poolStep fn arr w p = Some p' -> poolInv fn arr limit p'.
Proof.
  intros (Hn & Hr & Hl & Hh & Hrej) Hstep.
  destruct (poolStep_cases fn arr w p p' Hstep) as (i & a & Hw & Ha & Hp').
  pose proof (Hh w i Hw) as Hi.
  assert (Hwlt : (w < length (workers p))%nat) by (eapply lookup_lt_Some; eauto).
  assert (Hres : forall b j a', rejected p = false -> (j < nextIdx p)%nat -> arr !! j = Some a' ->
            fn a = Some b ->
            forall x, (held (mkPool (nextIdx p) (<[i := Some b]> (results p))
                               (<[w := x]> (workers p)) (rejected p)) j
                       \/ exists b', fn a' = Some b'
                            /\ <[i := Some b]> (results p) !! j = Some (Some b'))).
  { intros b j a' Hf Hj Ha' Hb x.
    destruct (Nat.eq_dec j i) as [->|Hji].
    - right. exists b. rewrite Ha in Ha'. inversion Ha'; subst a'.
      split; [exact Hb|]. apply list_lookup_insert_eq. lia.
    - destruct (proj2 (Hrej Hf) j a' Hj Ha') as [[w' Hw']|(b' & Hb' & Hl')].
      + left. exists w'. cbn [workers].
        rewrite list_lookup_insert_ne; [exact Hw'|].
        intros ->. rewrite Hw in Hw'. inversion Hw'. congruence.
      + right. exists b'. split; [exact Hb'|].
        rewrite list_lookup_insert_ne; [exact Hl'|congruence]. }
  destruct (fn a) as [b|] eqn:Hb.
  - destruct (Nat.ltb_spec (nextIdx p) (length arr)) as [Hlt|Hge]; subst p';
      unfold poolInv; cbn [nextIdx results workers rejected].
    + split; [lia|]. split; [rewrite length_insert; exact Hr|].
      split; [rewrite length_insert; exact Hl|].
      split.
      * intros w' i' Hw'.
        destruct (Nat.eq_dec w' w) as [->|Hne].
        -- rewrite list_lookup_insert_eq in Hw' by exact Hwlt. inversion Hw'. lia.
        -- rewrite list_lookup_insert_ne in Hw' by congruence.
           specialize (Hh w' i' Hw'). lia.
      * intros Hf. split.
        -- intros w' Hw'.
           destruct (Nat.eq_dec w' w) as [->|Hne].
           ++ rewrite list_lookup_insert_eq in Hw' by exact Hwlt. discriminate.
           ++ rewrite list_lookup_insert_ne in Hw' by congruence.
              pose proof (proj1 (Hrej Hf) w' Hw'). lia.
        -- intros j a' Hj Ha'.
           destruct (Nat.eq_dec j (nextIdx p)) as [->|Hjn].
           ++ left. exists w. cbn [workers]. apply list_lookup_insert_eq. exact Hwlt.
           ++ destruct (Hres b j a' Hf ltac:(lia) Ha' eq_refl (Some (nextIdx p)))
                as [[w' Hw']|Hr']; [left; exists w'; exact Hw'|right; exact Hr'].
    + split; [lia|]. split; [rewrite length_insert; exact Hr|].
      split; [rewrite length_insert; exact Hl|].
      split.
      * intros w' i' Hw'.
        destruct (Nat.eq_dec w' w) as [->|Hne].
        -- rewrite list_lookup_insert_eq in Hw' by exact Hwlt. discriminate.
        -- rewrite list_lookup_insert_ne in Hw' by congruence. exact (Hh w' i' Hw').
      * intros Hf. split.
        -- intros w' Hw'. lia.
        -- intros j a' Hj Ha'.
           destruct (Hres b j a' Hf Hj Ha' eq_refl None)
             as [[w' Hw']|Hr']; [left; exists w'; exact Hw'|right; exact Hr'].
  - subst p'. unfold poolInv; cbn [nextIdx results workers rejected].
    split; [lia|]. split; [exact Hr|].
    split; [rewrite length_insert; exact Hl|].
    split; [|discriminate].
    intros w' i' Hw'.
    destruct (Nat.eq_dec w' w) as [->|Hne].
    + rewrite list_lookup_insert_eq in Hw' by exact Hwlt. discriminate.
    + rewrite list_lookup_insert_ne in Hw' by congruence. exact (Hh w' i' Hw').
Qed.

Lemma poolRun_inv {A B : Type} (fn : A -> option B) (arr : list A) limit schedule :
  forall p p' : Pool B,
    poolInv fn arr limit p -> poolRun fn arr schedule p = Some p' -> poolInv fn arr limit p'.
Proof.
  induction schedule as [|w rest IH]; intros p p' Hinv Hrun; simpl in Hrun.
  - inversion Hrun; subst; exact Hinv.
  - destruct (poolStep fn arr w p) as [p1|] eqn:Hs; [|discriminate].
    apply (IH p1 p'); [|exact Hrun].
    eapply poolStep_inv; eauto.
Qed.

Lemma busy_count_le (l : list (option nat)) :
  (length (List.filter busy l) <= length l)%nat.
Proof.
  induction l as [|x l IH]; simpl; [lia|].
  destruct (busy x); simpl; lia.
Qed.

Lemma busy_count_insert (l : list (option nat)) :
  forall w i x, l !! w = Some (Some i) ->
    S (length (List.filter busy (<[w := x]> l)))
    = (length (List.filter busy l) + (if busy x then 1 else 0))%nat.
Proof.
  induction l as [|y l IH]; intros w i x Hw; [discriminate|].
  destruct w as [|w]; simpl in *.
  - inversion Hw; subst y. simpl. destruct (busy x); simpl; lia.
  - specialize (IH w i x Hw).
    destruct (busy y); simpl; lia.
Qed.

Lemma no_busy_done (l : list (option nat)) :
  length (List.filter busy l) = 0%nat -> Forall (fun w => w = None) l.
Proof.
  induction l as [|y l IH]; simpl; intros H; [constructor|].
  destruct y as [i|]; simpl in H; [discriminate|].
  constructor; [reflexivity|apply IH; exact H].
Qed.

Lemma some_busy (l : list (option nat)) :
  length (List.filter busy l) <> 0%nat -> exists w i, l !! w = Some (Some i).
Proof.
  induction l as [|y l IH]; simpl; intros H; [congruence|].
  destruct y as [i|].
  - exists 0%nat, i. reflexivity.
  - simpl in H. destruct (IH H) as (w & i & Hw). exists (S w), i. exact Hw.
Qed.

Lemma pool_settles {A B : Type} (fn : A -> option B) (arr : list A) limit :
  forall k (p : Pool B),
    poolInv fn arr limit p ->
    (length arr - nextIdx p + poolInFlight p <= k)%nat ->
    exists rest p', poolRun fn arr rest p = Some p' /\ poolDone p'.
Proof.
  induction k as [|k IH]; intros p Hinv Hk.
  - exists [], p. split; [reflexivity|].
    apply no_busy_done. unfold poolInFlight in Hk. lia.
  - destruct (Nat.eq_dec (poolInFlight p) 0%nat) as [Hz|Hnz].
    + exists [], p. split; [reflexivity|apply no_busy_done; exact Hz].
    + destruct (some_busy (workers p) Hnz) as (w & i & Hw).
      pose proof Hinv as (Hn & Hr & Hl & Hh & Hrej).
      pose proof (Hh w i Hw) as Hi.
      destruct (lookup_lt_is_Some_2 arr i ltac:(lia)) as [a Ha].
      assert (Hstep : exists p1, poolStep fn arr w p = Some p1
                 /\ (length arr - nextIdx p1 + poolInFlight p1 <= k)%nat).
      { unfold poolStep. rewrite Hw, Ha.
        pose proof (busy_count_insert (workers p) w i) as Hc.
        unfold poolInFlight in *.
        destruct (fn a) as [b|].
        - destruct (Nat.ltb_spec (nextIdx p) (length arr)) as [Hlt|Hge];
            eexists; (split; [reflexivity|]); cbn [nextIdx workers].
          + specialize (Hc (Some (nextIdx p)) Hw). simpl in Hc. lia.
          + specialize (Hc None Hw). simpl in Hc. lia.
        - eexists; (split; [reflexivity|]); cbn [nextIdx workers].
          specialize (Hc None Hw). simpl in Hc. lia. }
      destruct Hstep as (p1 & Hs & Hm).
      destruct (IH p1 (poolStep_inv fn arr limit w p p1 Hinv Hs) Hm) as (rest & p' & Hrun & Hd).
      exists (w :: rest), p'. split; [|exact Hd].
      simpl. rewrite Hs. exact Hrun.
Qed.

Lemma pool_done_results {A B : Type} (fn : A -> option B) (arr : list A) (limit : nat)
    (p : Pool B) :
  poolInv fn arr limit p ->
  poolDone p -> rejected p = false -> (0 < limit)%nat ->
  results p = List.map fn arr /\ Forall (fun a => fn a <> None) arr.
Proof.
  intros (Hn & Hr & Hl & Hh & Hrej) Hdone Hf Hlimit.
  destruct (Hrej Hf) as [Hfin Hall].
  assert (Hnone : forall w x, workers p !! w = Some x -> x = None).
  { intros w x Hx. unfold poolDone in Hdone.
    rewrite Forall_lookup in Hdone. exact (Hdone w x Hx). }
  assert (Hget : forall j a, arr !! j = Some a ->
             exists b, fn a = Some b /\ results p !! j = Some (Some b)).
  { intros j a Ha.
    assert (Hj : (j < length arr)%nat) by (eapply lookup_lt_Some; eauto).
    assert (Hfull : nextIdx p = length arr).
    { destruct (lookup_lt_is_Some_2 (workers p) 0%nat ltac:(lia)) as [x Hx].
      pose proof (Hnone _ _ Hx); subst x. exact (Hfin _ Hx). }
    destruct (Hall j a ltac:(lia) Ha) as [[w Hw]|Hres]; [|exact Hres].
    pose proof (Hnone _ _ Hw). discriminate. }
  split.
  - apply list_eq. intros j.
    rewrite map_lookup.
    destruct (arr !! j) as [a|] eqn:Ha; simpl.
    + destruct (Hget j a Ha) as (b & Hb & Hres). rewrite Hres, Hb. reflexivity.
    + apply lookup_ge_None. apply lookup_ge_None in Ha. lia.
  - rewrite Forall_lookup. intros j a Ha.
    destruct (Hget j a Ha) as (b & Hb & _). congruence.
Qed.

(** X4. [mapLimit] keeps to its limit and to the order of its input: in
    whatever order the calls settle, no more than [limit] are awaited at
    once, and once every worker has left its loop with no call rejected the
    result array holds, at each index, what the call on that element of the
    input resolved with. *)
Theorem mapLimit_pool {A B : Type} (fn : A -> option B) (arr : list A) (limit : nat)
    (schedule : list nat) (p : Pool B) :
  poolRun fn arr schedule (poolStart arr limit) = Some p ->
  (poolInFlight p <= limit)%nat
  /\ (poolDone p -> rejected p = false -> (0 < limit)%nat ->
      results p = List.map fn arr /\ Forall (fun a => fn a <> None) arr).
Proof.
  intros Hrun.
  pose proof (poolRun_inv fn arr limit schedule _ p (poolStart_inv fn arr limit) Hrun)
    as Hinv.
  split.
  - destruct Hinv as (Hn & Hr & Hl & _).
    unfold poolInFlight. pose proof (busy_count_le (workers p)). lia.
  - intros Hdone Hf Hlimit. apply (pool_done_results fn arr limit p); assumption.
Qed.

(** X5. The pool never gets stuck: from whatever it has reached, the calls
    still awaited can settle one after another until every worker has left
    its loop. *)
Theorem mapLimit_settles {A B : Type} (fn : A -> option B) (arr : list A) (limit : nat)
    (schedule : list nat) (p : Pool B) :
  poolRun fn arr schedule (poolStart arr limit) = Some p ->
  exists rest p', poolRun fn arr rest p = Some p' /\ poolDone p'.
Proof.
  intros Hrun.
  eapply (pool_settles fn arr limit _ p); [|apply Nat.le_refl].
  eapply poolRun_inv; [apply poolStart_inv|exact Hrun].
Qed.

Lemma poolRun_rejected {A B : Type} (fn : A -> option B) (arr : list A) schedule :
  forall p p' : Pool B,
    poolRun fn arr schedule p = Some p' ->
    rejected p' = true ->
    rejected p = true \/ Exists (fun a => fn a = None) arr.
Proof.
  induction schedule as [|w rest IH]; intros p p' Hrun Hrej; simpl in Hrun.
  - injection Hrun as <-. left. exact Hrej.
  - destruct (poolStep fn arr w p) as [p1|] eqn:Hs; [|discriminate].
    destruct (IH p1 p' Hrun Hrej) as [Hr1|Hex]; [|right; exact Hex].
    destruct (poolStep_cases fn arr w p p1 Hs) as (i & a & _ & Ha & Hp1).
    destruct (fn a) as [b|] eqn:Hb.
    + left. destruct (nextIdx p <? length arr)%nat; subst p1; exact Hr1.
    + right. apply Exists_exists. exists a. split; [|exact Hb].
      apply list_elem_of_lookup. exists i. exact Ha.
Qed.

Lemma done_forallb (l : list (option nat)) :
  forallb (fun w => negb (busy w)) l = true <-> Forall (fun w => w = None) l.
Proof.
  induction l as [|x l IH]; simpl.
  - split; [constructor|reflexivity].
  - rewrite andb_true_iff, IH, Forall_cons. destruct x; simpl; intuition congruence.
Qed.

(** X6. The pull of a refresh pass does not depend on which stage query
    finishes first.  In whatever order the seven stage queries settle,
    three at a time, [loadAllSmartItems] returns the records stage by
    stage, in the order of [STAGE_FILTER]; it rejects only when the query
    of some stage rejects; and there is always an order in which it ends,
    one way or the other. *)
Theorem pull_is_stage_by_stage (stageItems : string -> option (list Item)) :
  (forall schedule,
     match loadAllSmartItems stageItems schedule with
     | LoadedItems all =>
         Forall (fun s => stageItems s <> None) STAGE_FILTER
         /\ all = concat (List.map (fun s => match stageItems s with
                                              | Some l => l
                                              | None => []
                                              end) STAGE_FILTER)
     | LoadThrew => Exists (fun s => stageItems s = None) STAGE_FILTER
     | LoadRunning => True
     end)
  /\ exists schedule, loadAllSmartItems stageItems schedule <> LoadRunning.
Proof.
  split.
  - intros schedule. unfold loadAllSmartItems.
    destruct (poolRun stageItems STAGE_FILTER schedule (poolStart STAGE_FILTER 3))
      as [p|] eqn:Hrun; [|exact I].
    destruct (rejected p) eqn:Hrej.
    + destruct (poolRun_rejected _ _ _ _ _ Hrun Hrej) as [H|H]; [discriminate|exact H].
    + destruct (forallb (fun w => negb (busy w)) (workers p)) eqn:Hdone; [|exact I].
      apply done_forallb in Hdone.
      pose proof (poolRun_inv stageItems STAGE_FILTER 3 schedule _ p
                    (poolStart_inv stageItems STAGE_FILTER 3) Hrun) as Hinv.
      destruct (pool_done_results stageItems STAGE_FILTER 3 p Hinv Hdone Hrej ltac:(lia))
        as [Hres Hall].
      split; [exact Hall|].
      unfold flat. rewrite Hres, List.map_map. reflexivity.
  - destruct (pool_settles stageItems STAGE_FILTER 3 _ (poolStart STAGE_FILTER 3)
                (poolStart_inv stageItems STAGE_FILTER 3) (Nat.le_refl _))
      as (schedule & p & Hrun & Hdone).
    exists schedule. unfold loadAllSmartItems. rewrite Hrun.
    destruct (rejected p); [discriminate|].
    apply done_forallb in Hdone. rewrite Hdone. discriminate.
Qed.

Section DeriverProperties.

Context {P : Platform}.

(** ** More on the event deriver *)

(** What a turn of the loop does to the globals, exactly. *)
Lemma mapItem_store item g :
  snd (fst (mapItem item g)) = newlyReclaimed g item
  /\ fst (fst (mapItem item g))
     = if newlyReclaimed g item
       then set_reclSeenStore
              (<[toStr (it_id item) :=
                   JObj [("at", JStr (toISOString (clock (ticks g))));
                         ("stageId", JStr (stageOf item))]]> (reclSeenStore g))
              (set_ticks (S (ticks g)) g)
       else g.
Proof.
  unfold mapItem, newlyReclaimed, newDateISO. cbv zeta. fold (stageOf item).
  destruct (RECL_STAGES_has (stageOf item) && negb _);
    repeat match goal with
           | |- context [if ?c then _ else _] => destruct c
           | |- context [match ?c with Some _ => _ | None => _ end] => destruct c
           end; split; reflexivity.
Qed.

Lemma mapItem_outcome_kind item g :
  match snd (mapItem item g) with
  | Pushed _ => lacksTransfer item = false /\ lacksDate item = false
  | NoTransferToShop => lacksTransfer item = true /\ lacksDate item = false
  | NoPlannedNoAssigned => lacksTransfer item = false /\ lacksDate item = true
  | NoStartDate => False
  end.
Proof.
  pose proof (mapItem_branch item g) as Hb.
  unfold startByPriority, lacksTransfer, lacksDate in *.
  destruct (filled (ufCrm8_1747916236564 item)); cbn [negb andb].
  - destruct (List.find filled (dateCandidates item)).
    + destruct Hb as (e & -> & _). split; reflexivity.
    + rewrite Hb. split; reflexivity.
  - rewrite Hb. split; reflexivity.
Qed.

Lemma mapItemsLoop_counters items : forall acc g,
  let m := snd (mapItemsLoop items acc g) in
  noTransferToShop (skipped m)
  = (noTransferToShop (skipped acc) + length (List.filter lacksTransfer items))%nat
  /\ noPlannedNoAssigned (skipped m)
     = (noPlannedNoAssigned (skipped acc) + length (List.filter lacksDate items))%nat
  /\ noStartDate (skipped m) = noStartDate (skipped acc)
  /\ (length (m_events m) + length (List.filter lacksTransfer items)
      + length (List.filter lacksDate items)
      = length (m_events acc) + length items)%nat.
Proof.
  induction items as [|item rest IH]; intros acc g; cbv zeta; simpl.
  - repeat split; lia.
  - pose proof (mapItem_outcome_kind item g) as Hk.
    destruct (mapItem item g) as [[g1 changed] out]. cbn [snd] in Hk.
    specialize (IH (tally out changed acc) g1). cbv zeta in IH.
    destruct IH as (I1 & I2 & I3 & I4).
    rewrite I1, I2, I3. rewrite tally_events, length_app in I4.
    destruct out; [| | |contradiction]; destruct Hk as [-> ->]; simpl in *;
      repeat split; lia.
Qed.

(** X7. Every item of the CRM answer is accounted for once: it yields an
    event, or it is counted as lacking the transfer date, or as lacking any
    date to schedule it on; the third counter, [noStartDate], stays at zero. *)
Theorem skip_counters_partition items g :
  let m := snd (mapItemsToEvents items g) in
  noTransferToShop (skipped m) = length (List.filter lacksTransfer items)
  /\ noPlannedNoAssigned (skipped m) = length (List.filter lacksDate items)
  /\ noStartDate (skipped m) = 0%nat
  /\ (length (m_events m) + noTransferToShop (skipped m) + noPlannedNoAssigned (skipped m)
      = length items)%nat.
Proof.
  cbv zeta. unfold mapItemsToEvents.
  destruct (mapItemsLoop_counters items (mkMapped [] (mkSkipped 0 0 0) false) g)
    as (H1 & H2 & H3 & H4).
  cbv zeta in *. simpl in *. rewrite H1, H2, H3. repeat split. lia.
Qed.

Lemma newlyReclaimed_flag g item :
  newlyReclaimed g item = true
  <-> RECL_STAGES_has (stageOf item) = true /\ ~ flagged (toStr (it_id item)) g.
Proof.
  unfold newlyReclaimed, flagged.
  destruct (RECL_STAGES_has (stageOf item)), (truthy _); simpl; intuition congruence.
Qed.

Lemma mapItemsLoop_recl items : forall acc g,
  let r := mapItemsLoop items acc g in
  reclChanged (snd r) = reclChanged acc || existsb (newlyReclaimed g) items
  /\ (existsb (newlyReclaimed g) items = false -> fst r = g)
  /\ (forall x, flagged x (fst r) ->
        flagged x g
        \/ exists item, In item items /\ RECL_STAGES_has (stageOf item) = true
                        /\ toStr (it_id item) = x).
Proof.
  induction items as [|item rest IH]; intros acc g; cbv zeta; simpl.
  - rewrite orb_false_r. repeat split; auto.
  - destruct (mapItem_store item g) as [Hch Hg1].
    destruct (mapItem item g) as [[g1 changed] out]. cbn [fst snd] in Hch, Hg1.
    subst changed.
    specialize (IH (tally out (newlyReclaimed g item) acc) g1). cbv zeta in IH.
    destruct IH as (I1 & I2 & I3).
    assert (Hrc : reclChanged (tally out (newlyReclaimed g item) acc)
                  = reclChanged acc || newlyReclaimed g item)
      by (destruct out; reflexivity).
    rewrite I1, Hrc. clear I1 Hrc.
    destruct (newlyReclaimed g item) eqn:Hnew.
    + split; [destruct (reclChanged acc); reflexivity|]. split; [discriminate|].
      intros x Hx. destruct (I3 x Hx) as [Hf|(item' & Hin & Hr & Hid)].
      * subst g1. unfold flagged, prop in Hf. cbn [reclSeenStore set_reclSeenStore] in Hf.
        destruct (decide (toStr (it_id item) = x)) as [Heq|Hne].
        -- right. exists item. apply newlyReclaimed_flag in Hnew. tauto.
        -- rewrite lookup_insert_ne in Hf by exact Hne. left. exact Hf.
      * right. exists item'. tauto.
    + subst g1. rewrite orb_false_r. simpl.
      split; [reflexivity|]. split; [exact I2|].
      intros x Hx. destruct (I3 x Hx) as [Hf|(item' & Hin & Hr & Hid)]; [left; exact Hf|].
      right. exists item'. tauto.
Qed.

(** X8. The deriver reports a changed reclamation store exactly when the
    answer holds a record in a reclamation stage that carried no flag yet;
    when it reports none, it has left every global as it was; and it never
    flags a record that the answer does not show in a reclamation stage. *)
Theorem recl_store_changes items g :
  let g' := fst (mapItemsToEvents items g) in
  let m := snd (mapItemsToEvents items g) in
  (reclChanged m = true
   <-> exists item, In item items /\ RECL_STAGES_has (stageOf item) = true
                    /\ ~ flagged (toStr (it_id item)) g)
  /\ (reclChanged m = false -> g' = g)
  /\ (forall x, flagged x g' ->
        flagged x g
        \/ exists item, In item items /\ RECL_STAGES_has (stageOf item) = true
                        /\ toStr (it_id item) = x).
Proof.
  cbv zeta. unfold mapItemsToEvents.
  destruct (mapItemsLoop_recl items (mkMapped [] (mkSkipped 0 0 0) false) g)
    as (H1 & H2 & H3).
  cbv zeta in *. simpl in H1. rewrite H1.
  split; [|split; [exact H2|exact H3]].
  rewrite existsb_exists. split.
  - intros (item & Hin & Hnew). exists item. apply newlyReclaimed_flag in Hnew. tauto.
  - intros (item & Hin & Hr & Hf). exists item. split; [exact Hin|].
    apply newlyReclaimed_flag. tauto.
Qed.

Lemma pickColor_range reclEver otk sid t st ic ec :
  In (pickColorByRules reclEver otk sid t st ic ec)
     [COLOR_GREEN; COLOR_BLUE; COLOR_PURPLE; COLOR_RED; COLOR_GRAY_DARK].
Proof.
  unfold pickColorByRules.
  repeat match goal with
         | |- context [if ?c then _ else _] => destruct c
         end; simpl; tauto.
Qed.

Lemma colour_rank c :
  keepsColours ->
  In c [COLOR_GREEN; COLOR_BLUE; COLOR_PURPLE; COLOR_RED; COLOR_GRAY_DARK] ->
  colourRank c (colorToSortKey c).
Proof.
  unfold keepsColours. intros Hk Hin.
  pose proof (proj1 (List.Forall_forall _ _) Hk c Hin) as Hc.
  unfold colorToSortKey, colourRank. rewrite Hc.
  simpl in Hin.
  destruct Hin as [<-|[<-|[<-|[<-|[<-|[]]]]]]; vm_compute; tauto.
Qed.

Lemma crmProps_sortKey (v1 v2 v3 v4 v5 v6 v7 v8 v9 v10 v11 v12 v13 v14 v15 v16 v17 v18 v19 v20 : JVal) :
  prop (crmProps v1 v2 v3 v4 v5 v6 v7 v8 v9 v10 v11 v12 v13 v14 v15 v16 v17 v18 v19 v20)
    "sortKey" = v2.
Proof. reflexivity. Qed.

Lemma mapItem_sortKey item g e :
  snd (mapItem item g) = Pushed e ->
  exists c, backgroundColor e = JStr c
    /\ In c [COLOR_GREEN; COLOR_BLUE; COLOR_PURPLE; COLOR_RED; COLOR_GRAY_DARK]
    /\ prop (propsOf e) "sortKey" = JNum (colorToSortKey c).
Proof.
  intros H.
  unfold mapItem, newDateISO in H. cbv zeta in H.
  destruct (RECL_STAGES_has _ && negb _) in H; cbv beta iota zeta in H;
    (destruct (negb (truthyDate (jsOr (ufCrm8_1747916236564 item) JNull)));
       [discriminate H|]);
    match type of H with
    | context [match ?d with Some _ => _ | None => _ end] =>
        destruct d as [dv|]; [|discriminate H]
    end;
    (destruct (negb (truthyDate dv)); [discriminate H|]);
    cbn [snd] in H; injection H as <-;
    cbn [backgroundColor propsOf extendedProps];
    eexists; (split; [reflexivity|]); (split; [apply pickColor_range|]);
    rewrite crmProps_sortKey; reflexivity.
Qed.

Lemma manualToFcEvent_sortKey m g :
  let e := fst (manualToFcEvent m g) in
  backgroundColor e = JStr COLOR_RED
  /\ prop (propsOf e) "sortKey" = JNum (colorToSortKey COLOR_RED)
  /\ prop (propsOf e) "isDone" = JBool false
  /\ prop (propsOf e) "stageId" = JStr "MANUAL".
Proof.
  cbv zeta. unfold manualToFcEvent, newDateISO. cbv zeta.
  destruct (truthy _); cbn [fst backgroundColor propsOf extendedProps];
    repeat split; reflexivity.
Qed.

Lemma manualEventsOf_Forall (Q : Event -> Prop) :
  (forall m g, Q (fst (manualToFcEvent m g))) ->
  forall ms g, Forall Q (fst (manualEventsOf ms g)).
Proof.
  intros HQ. induction ms as [|m rest IH]; intros g; simpl; [constructor|].
  pose proof (HQ m g) as Hm.
  destruct (manualToFcEvent m g) as [e g1]. cbn [fst] in Hm.
  specialize (IH g1). destruct (manualEventsOf rest g1) as [es g2]. cbn [fst] in *.
  constructor; assumption.
Qed.

(** The events of a built payload: the derived events, then the manual ones. *)
Lemma refreshBuild_events reason up g g' t0 p :
  refreshBuild reason up g = (g', Some (t0, p)) ->
  exists items gm,
    pull up = Some items
    /\ events p
       = Some (m_events (snd (mapItemsToEvents items (snd (dateNow g))))
               ++ fst (manualEventsOf
                         (List.filter (fun m => isManualId (m_id m)) (manualStore g)) gm))%list
    /\ doneStore gm = doneStore g
    /\ reclSeenStore gm = reclSeenStore (fst (mapItemsToEvents items (snd (dateNow g)))).
Proof.
  unfold refreshBuild. cbn [dateNow fst snd].
  destruct (pull up) as [items|]; [|discriminate].
  destruct (negb (usersOk up)); [discriminate|].
  pose proof (mapItemsLoop_globals items (mkMapped [] (mkSkipped 0 0 0) false)
                (set_ticks (S (ticks g)) g)) as (R & T & Hg1 & _).
  unfold mapItemsToEvents.
  destruct (mapItemsLoop items _ (set_ticks (S (ticks g)) g)) as [g1 mapped] eqn:Hloop.
  cbn [fst snd] in *. subst g1.
  destruct (reclChanged mapped).
  - destruct (negb (reclSaveOk up)); [discriminate|].
    match goal with |- context [manualEventsOf (List.filter ?f (manualStore ?gg)) ?gg] =>
      change (manualStore gg) with (manualStore g);
      destruct (manualEventsOf (List.filter f (manualStore g)) gg) as [mev g3] eqn:Hm;
      unfold newDateISO, dateNow; cbv zeta; intros H; injection H as _ _ <-;
      exists items, gg; (split; [reflexivity|]); cbn [events];
      rewrite Hloop; split; [rewrite Hm; reflexivity|]; split; reflexivity
    end.
  - cbn [negb].
    match goal with |- context [manualEventsOf (List.filter ?f (manualStore ?gg)) ?gg] =>
      change (manualStore gg) with (manualStore g);
      destruct (manualEventsOf (List.filter f (manualStore g)) gg) as [mev g3] eqn:Hm;
      unfold newDateISO, dateNow; cbv zeta; intros H; injection H as _ _ <-;
      exists items, gg; (split; [reflexivity|]); cbn [events];
      rewrite Hloop; split; [rewrite Hm; reflexivity|]; split; reflexivity
    end.
Qed.

(** X9. In a built payload every event has one of the five colours and the
    sort key that goes with it (green 0, blue 1, purple 2, red 3, dark
    gray 4); the fallback key 9 is never given. *)
Theorem sort_key_follows_colour reason up g g' t0 p evs :
  keepsColours ->
  refreshBuild reason up g = (g', Some (t0, p)) ->
  events p = Some evs ->
  Forall (fun e => exists c k, backgroundColor e = JStr c
                     /\ prop (propsOf e) "sortKey" = JNum k /\ colourRank c k) evs.
Proof.
  intros Hk Hb Hev.
  destruct (refreshBuild_events reason up g g' t0 p Hb) as (items & gm & _ & He & _).
  rewrite He in Hev. injection Hev as <-.
  apply Forall_app. split.
  - unfold mapItemsToEvents.
    apply (mapItemsLoop_inv (fun _ => True)
             (fun e => exists c k, backgroundColor e = JStr c
                         /\ prop (propsOf e) "sortKey" = JNum k /\ colourRank c k)).
    + intros item g0 _. split; [exact I|].
      intros e He0. destruct (mapItem_sortKey item g0 e He0) as (c & Hc & Hin & Hs).
      exists c, (colorToSortKey c). split; [exact Hc|]. split; [exact Hs|].
      apply colour_rank; assumption.
    + exact I.
    + constructor.
  - apply manualEventsOf_Forall. intros m g0.
    destruct (manualToFcEvent_sortKey m g0) as (Hc & Hs & _).
    exists COLOR_RED, (colorToSortKey COLOR_RED). split; [exact Hc|]. split; [exact Hs|].
    apply colour_rank; [exact Hk|]. simpl. tauto.
Qed.

End DeriverProperties.

Section DigestGate.

Context {P : Platform}.

(** ** More on the digest gate *)

Lemma digestPart_view a b : digestView a = digestView b -> digestPart a = digestPart b.
Proof.
  unfold digestView, digestPart. cbv zeta. intros H.
  injection H as -> -> -> -> -> -> -> ->. reflexivity.
Qed.

Lemma digestInput_view evs evs' :
  Forall2 (fun a b => digestView a = digestView b) evs evs' ->
  digestInput evs = digestInput evs'.
Proof.
  intros H. unfold digestInput.
  rewrite (Forall2_length _ _ _ H). f_equal. f_equal.
  induction H as [|a b l l' Hab _ IH]; simpl; [reflexivity|].
  rewrite (digestPart_view a b Hab), IH. reflexivity.
Qed.

Lemma snapshotDigest_events p p' : events p = events p' -> snapshotDigest p = snapshotDigest p'.
Proof. unfold snapshotDigest. intros ->. reflexivity. Qed.

(** X10. The gate sees an event through eight of its attributes only: the
    id, the start, the colour, the done, isDone and hideMarker flags, the
    quality-control date and the stage.  A rebuilt payload whose events
    agree with the live ones on these, whatever else has changed (the
    title, the comments, the planned date, the stone text), is discarded:
    the live events stay as they were and nothing is broadcast. *)
Theorem unseen_changes_are_discarded reason t0 p g evs evs' :
  events (payload (eventsSnapshot g)) = Some evs ->
  events p = Some evs' ->
  digest (eventsSnapshot g) = Some (snapshotDigest (payload (eventsSnapshot g))) ->
  snapshotDigest p <> EmptyString ->
  Forall2 (fun a b => digestView a = digestView b) evs evs' ->
  let g' := fst (commitOrDiscard reason t0 p g) in
  snd (commitOrDiscard reason t0 p g) = false
  /\ events (payload (eventsSnapshot g')) = Some evs
  /\ version (eventsSnapshot g') = version (eventsSnapshot g)
  /\ dataVersion g' = dataVersion g
  /\ broadcasts (trace g') = broadcasts (trace g).
Proof.
  intros Hlive Hp Hd Hne Hview.
  assert (Heq : snapshotDigest (payload (eventsSnapshot g)) = snapshotDigest p).
  { unfold snapshotDigest. rewrite Hlive, Hp. f_equal. apply digestInput_view. exact Hview. }
  rewrite Heq in Hd.
  destruct (commitOrDiscard_same reason t0 p g Hne Hd)
    as (H1 & H2 & _ & H4 & H5 & _ & _ & _ & _ & H10 & _).
  cbv zeta. rewrite H4, Hlive. tauto.
Qed.

(** *** A pass repeated on the same answer *)

Lemma mapItem_cong item g g' :
  reclEverOf item g = reclEverOf item g' ->
  truthy (prop (doneStore g) (toStr (it_id item)))
  = truthy (prop (doneStore g') (toStr (it_id item))) ->
  snd (mapItem item g) = snd (mapItem item g').
Proof.
  unfold reclEverOf. intros Hr Hd.
  unfold mapItem, newDateISO. cbv zeta. fold (stageOf item).
  destruct (RECL_STAGES_has (stageOf item)
            && negb (truthy (prop (reclSeenStore g) (toStr (it_id item)))));
    destruct (RECL_STAGES_has (stageOf item)
              && negb (truthy (prop (reclSeenStore g') (toStr (it_id item)))));
    cbv beta iota zeta; cbn [doneStore set_reclSeenStore set_ticks snd];
    rewrite Hr, Hd;
    repeat match goal with
           | |- context [if ?c then _ else _] => destruct c
           | |- context [match ?c with Some _ => _ | None => _ end] => destruct c
           end; reflexivity.
Qed.

Lemma eventOf_cong item g g' :
  truthy (prop (reclSeenStore g) (idOf item)) = truthy (prop (reclSeenStore g') (idOf item)) ->
  doneStore g = doneStore g' ->
  eventOf g item = eventOf g' item.
Proof.
  intros Hr Hd. unfold eventOf.
  rewrite (mapItem_cong item g g'); [reflexivity| |].
  - unfold reclEverOf. unfold idOf in Hr. rewrite Hr. reflexivity.
  - rewrite Hd. reflexivity.
Qed.

Lemma omap_cong {A B : Type} (f f' : A -> option B) (l : list A) :
  (forall x, In x l -> f x = f' x) -> omap f l = omap f' l.
Proof.
  induction l as [|x l IH]; intros H; [reflexivity|].
  change (omap f (x :: l)) with (match f x with Some y => y :: omap f l | None => omap f l end).
  change (omap f' (x :: l)) with (match f' x with Some y => y :: omap f' l | None => omap f' l end).
  rewrite (H x (or_introl eq_refl)), IH; [reflexivity|].
  intros y Hy. apply H. right. exact Hy.
Qed.

Lemma mapItem_other item g item' :
  idOf item' <> idOf item ->
  eventOf (fst (fst (mapItem item g))) item' = eventOf g item'.
Proof.
  intros Hne. destruct (mapItem_store item g) as [_ Hg1]. rewrite Hg1.
  destruct (newlyReclaimed g item); [|reflexivity].
  apply eventOf_cong; [|reflexivity].
  cbn [reclSeenStore set_reclSeenStore set_ticks]. unfold prop.
  unfold idOf in *. rewrite lookup_insert_ne; [reflexivity|]. congruence.
Qed.

Lemma mapItemsLoop_events items : forall acc g,
  NoDup (List.map idOf items) ->
  m_events (snd (mapItemsLoop items acc g)) = (m_events acc ++ omap (eventOf g) items)%list.
Proof.
  induction items as [|item rest IH]; intros acc g Hnd; simpl.
  - rewrite app_nil_r. reflexivity.
  - simpl in Hnd. apply NoDup_cons in Hnd as [Hnotin Hnd].
    pose proof (fun item' => mapItem_other item g item') as Hother.
    change (omap (eventOf g) (item :: rest))
      with (match eventOf g item with
            | Some y => y :: omap (eventOf g) rest
            | None => omap (eventOf g) rest
            end).
    unfold eventOf at 1.
    destruct (mapItem item g) as [[g1 changed] out]. cbn [fst snd] in *.
    rewrite (IH _ g1 Hnd), tally_events, <- app_assoc. f_equal.
    rewrite (omap_cong (eventOf g1) (eventOf g) rest).
    + destruct out; reflexivity.
    + intros x Hx. apply Hother. intros Heq. apply Hnotin.
      rewrite <- Heq. apply list_elem_of_In. apply in_map. exact Hx.
Qed.

Lemma NoDup_map_eq {A B : Type} (f : A -> B) (l : list A) :
  NoDup (List.map f l) -> forall a b, In a l -> In b l -> f a = f b -> a = b.
Proof.
  induction l as [|x l IH]; intros Hnd a b Ha Hb Hf; [contradiction|].
  simpl in Hnd. apply NoDup_cons in Hnd as [Hnotin Hnd].
  destruct Ha as [<-|Ha], Hb as [<-|Hb].
  - reflexivity.
  - exfalso. apply Hnotin. rewrite Hf. apply list_elem_of_In. apply in_map. exact Hb.
  - exfalso. apply Hnotin. rewrite <- Hf. apply list_elem_of_In. apply in_map. exact Ha.
  - apply IH; assumption.
Qed.

Lemma mapItemsLoop_records items : forall acc g item,
  In item items -> RECL_STAGES_has (stageOf item) = true ->
  flagged (idOf item) (fst (mapItemsLoop items acc g)).
Proof.
  induction items as [|it rest IH]; intros acc g item Hin Hr; [contradiction|].
  simpl.
  pose proof (mapItem_records it g) as Hrec.
  destruct (mapItem it g) as [[g1 changed] out]. cbn [fst] in Hrec.
  destruct Hin as [->|Hin].
  - apply mapItemsLoop_flagged. apply Hrec. exact Hr.
  - apply IH; assumption.
Qed.

(** After the loop the reclamation store tells of each item of the list
    what the item's stage and the store before the loop told together. *)
Lemma mapItemsLoop_recl_ever items acc g item :
  NoDup (List.map idOf items) -> In item items ->
  reclEverOf item (fst (mapItemsLoop items acc g)) = reclEverOf item g.
Proof.
  intros Hnd Hin. unfold reclEverOf.
  destruct (RECL_STAGES_has (stageOf item)) eqn:Hnow; [reflexivity|]. simpl.
  destruct (truthy (prop (reclSeenStore g) (toStr (it_id item)))) eqn:Hf.
  - apply (mapItemsLoop_flagged items acc g). exact Hf.
  - destruct (truthy (prop (reclSeenStore (fst (mapItemsLoop items acc g)))
                        (toStr (it_id item)))) eqn:Hf'; [|reflexivity].
    destruct (mapItemsLoop_recl items acc g) as (_ & _ & H3).
    destruct (H3 _ Hf') as [Hold|(item' & Hin' & Hr' & Hid)].
    + unfold flagged in Hold. congruence.
    + assert (item' = item) by (apply (NoDup_map_eq idOf items Hnd); assumption).
      subst item'. congruence.
Qed.

Lemma manualToFcEvent_dated m g g' :
  dated m = true -> doneStore g = doneStore g' ->
  fst (manualToFcEvent m g) = fst (manualToFcEvent m g')
  /\ doneStore (snd (manualToFcEvent m g)) = doneStore g.
Proof.
  unfold dated, manualToFcEvent. intros Hd Hs. cbv zeta. rewrite Hd.
  cbn [fst snd]. rewrite Hs. split; reflexivity.
Qed.

Lemma manualEventsOf_dated ms : forall g g',
  Forall (fun m => dated m = true) ms -> doneStore g = doneStore g' ->
  fst (manualEventsOf ms g) = fst (manualEventsOf ms g').
Proof.
  induction ms as [|m rest IH]; intros g g' Hall Hs; simpl; [reflexivity|].
  apply Forall_cons in Hall as [Hm Hall].
  destruct (manualToFcEvent_dated m g g' Hm Hs) as [He Hd1].
  destruct (manualToFcEvent_dated m g' g Hm (eq_sym Hs)) as [_ Hd2].
  destruct (manualToFcEvent m g) as [e g1], (manualToFcEvent m g') as [e' g1'].
  cbn [fst snd] in *. subst e'.
  specialize (IH g1 g1' Hall ltac:(congruence)).
  destruct (manualEventsOf rest g1) as [es g2], (manualEventsOf rest g1') as [es' g2'].
  cbn [fst] in *. congruence.
Qed.

Lemma commitOrDiscard_result reason t0 p g :
  let g' := fst (commitOrDiscard reason t0 p g) in
  digest (eventsSnapshot g') = Some (snapshotDigest p)
  /\ doneStore g' = doneStore g
  /\ manualStore g' = manualStore g
  /\ reclSeenStore g' = reclSeenStore g
  /\ refreshInFlight g' = refreshInFlight g.
Proof.
  cbv zeta. unfold commitOrDiscard, dateNow, saveSnapshotToDisk. cbv zeta.
  destruct (digest (eventsSnapshot g)) as [d|] eqn:Hd.
  - destruct (nonEmpty d && String.eqb d (snapshotDigest p)) eqn:Hsame;
      cbn [fst eventsSnapshot digest doneStore manualStore reclSeenStore refreshInFlight
           emit set_eventsSnapshot set_ticks set_dataVersion]; repeat split.
    apply andb_prop in Hsame as [_ Heq]. apply String.eqb_eq in Heq. congruence.
  - cbn [fst eventsSnapshot digest doneStore manualStore reclSeenStore refreshInFlight
         emit set_eventsSnapshot set_ticks set_dataVersion]; repeat split.
Qed.

(** What a pass that gets through leaves behind. *)
Lemma pass_result reason up items g :
  refreshInFlight g = false ->
  pull up = Some items -> usersOk up = true -> reclSaveOk up = true ->
  NoDup (List.map idOf items) ->
  Forall (fun m => dated m = true)
    (List.filter (fun m => isManualId (m_id m)) (manualStore g)) ->
  let g1 := refreshSnapshot reason up g in
  exists p,
    digest (eventsSnapshot g1) = Some (snapshotDigest p)
    /\ events p
       = Some (omap (eventOf g) items
               ++ fst (manualEventsOf
                         (List.filter (fun m => isManualId (m_id m)) (manualStore g)) g))%list
    /\ doneStore g1 = doneStore g
    /\ manualStore g1 = manualStore g
    /\ refreshInFlight g1 = false
    /\ (forall item, In item items -> reclEverOf item g1 = reclEverOf item g).
Proof.
  intros Hfl Hpull Hu Hs Hnd Hdated. cbv zeta.
  unfold refreshSnapshot, refreshEnter. rewrite Hfl.
  unfold refreshPass, refreshBody.
  set (g0 := set_refreshInFlight true g).
  destruct (refreshBuild reason up g0) as [gb [[t0 p]|]] eqn:Hb.
  2:{ exfalso.
      assert (Hn : snd (refreshBuild reason up g0) = None) by (rewrite Hb; reflexivity).
      apply passThrows_build in Hn. unfold passThrows in Hn. rewrite Hpull in Hn.
      destruct Hn as [Hn|[_ Hn]]; congruence. }
  destruct (refreshBuild_events reason up g0 gb t0 p Hb) as (items' & gm & Hp' & Hev & Hdm & _).
  rewrite Hpull in Hp'. injection Hp' as <-.
  destruct (refreshBuild_frame reason up g0) as (Hcore & _). rewrite Hb in Hcore.
  cbn [fst] in Hcore. destruct Hcore as (_ & _ & Hms & Hds & Hif & _).
  pose proof (commitOrDiscard_result reason t0 p gb) as Hc. cbv zeta in Hc.
  destruct Hc as (Hdig & Hcd & Hcm & Hcr & Hcf).
  exists p.
  assert (Hfin : forall gx, eventsSnapshot (refreshFinally gx) = eventsSnapshot gx
                            /\ doneStore (refreshFinally gx) = doneStore gx
                            /\ manualStore (refreshFinally gx) = manualStore gx
                            /\ reclSeenStore (refreshFinally gx) = reclSeenStore gx
                            /\ refreshInFlight (refreshFinally gx) = false).
  { intros gx. unfold refreshFinally, scheduleRefresh.
    cbn [refreshPending set_refreshInFlight].
    destruct (refreshPending gx); repeat split. }
  set (gc := if snd (commitOrDiscard reason t0 p gb)
             then broadcastVersion (fst (commitOrDiscard reason t0 p gb))
             else fst (commitOrDiscard reason t0 p gb)).
  assert (Hgc : eventsSnapshot gc = eventsSnapshot (fst (commitOrDiscard reason t0 p gb))
                /\ doneStore gc = doneStore (fst (commitOrDiscard reason t0 p gb))
                /\ manualStore gc = manualStore (fst (commitOrDiscard reason t0 p gb))
                /\ reclSeenStore gc = reclSeenStore (fst (commitOrDiscard reason t0 p gb))).
  { unfold gc. destruct (snd (commitOrDiscard reason t0 p gb)); repeat split. }
  assert (Hshape : (let '(g2, committed) := commitOrDiscard reason t0 p gb in
                    if committed then broadcastVersion g2 else g2) = gc).
  { unfold gc. destruct (commitOrDiscard reason t0 p gb) as [g2 c]. reflexivity. }
  rewrite Hshape.
  destruct (Hfin gc) as (F1 & F2 & F3 & F4 & F5).
  destruct Hgc as (G1 & G2 & G3 & G4).
  assert (Hstore : reclSeenStore gb
                   = reclSeenStore (fst (mapItemsToEvents items (snd (dateNow g0))))).
  { clear - Hb Hpull Hu.
    unfold refreshBuild in Hb. cbn [dateNow fst snd] in *. rewrite Hpull, Hu in Hb.
    cbn [negb] in Hb.
    destruct (mapItemsToEvents items (set_ticks (S (ticks g0)) g0)) as [g1 mapped].
    cbn [fst].
    destruct (reclChanged mapped).
    - destruct (negb (reclSaveOk up)); [discriminate|].
      match type of Hb with context [manualEventsOf ?ms ?gg] =>
        destruct (manualEventsOf_globals ms gg) as [T HT];
        destruct (manualEventsOf ms gg) as [mev g3] end.
      cbn [snd] in HT. subst g3.
      unfold newDateISO, dateNow in Hb. cbv zeta in Hb. injection Hb as <- _ _. reflexivity.
    - cbn [negb] in Hb.
      match type of Hb with context [manualEventsOf ?ms ?gg] =>
        destruct (manualEventsOf_globals ms gg) as [T HT];
        destruct (manualEventsOf ms gg) as [mev g3] end.
      cbn [snd] in HT. subst g3.
      unfold newDateISO, dateNow in Hb. cbv zeta in Hb. injection Hb as <- _ _. reflexivity. }
  split; [rewrite F1, G1; exact Hdig|].
  split.
  { rewrite Hev. f_equal. f_equal.
    - unfold mapItemsToEvents. rewrite mapItemsLoop_events by exact Hnd. simpl.
      apply omap_cong. intros x _. apply eventOf_cong; reflexivity.
    - apply manualEventsOf_dated; [exact Hdated|]. rewrite Hdm. reflexivity. }
  split; [rewrite F2, G2, Hcd, Hds; reflexivity|].
  split; [rewrite F3, G3, Hcm, Hms; reflexivity|].
  split; [exact F5|].
  intros item Hin.
  unfold reclEverOf at 1. rewrite F4, G4, Hcr, Hstore.
  unfold mapItemsToEvents.
  change (RECL_STAGES_has (stageOf item)
          || truthy (prop (reclSeenStore (fst (mapItemsLoop items
                       (mkMapped [] (mkSkipped 0 0 0) false) (snd (dateNow g0)))))
                       (toStr (it_id item))))
    with (reclEverOf item (fst (mapItemsLoop items
                       (mkMapped [] (mkSkipped 0 0 0) false) (snd (dateNow g0))))).
  rewrite mapItemsLoop_recl_ever by assumption. reflexivity.
Qed.

(** X11. A pass that is run again on the same CRM answer changes nothing
    that viewers see.  When the records of the answer have distinct ids and
    every manual record carries a date of its own, the second pass rebuilds
    the events of the first, finds the digest unchanged and is discarded:
    same version, same events, no broadcast. *)
Theorem repeated_pass_is_discarded reason reason' up items g :
  (forall s, sha1_hex s <> EmptyString) ->
  refreshInFlight g = false ->
  pull up = Some items -> usersOk up = true -> reclSaveOk up = true ->
  NoDup (List.map idOf items) ->
  Forall (fun m => dated m = true)
    (List.filter (fun m => isManualId (m_id m)) (manualStore g)) ->
  let g1 := refreshSnapshot reason up g in
  let g2 := refreshSnapshot reason' up g1 in
  version (eventsSnapshot g2) = version (eventsSnapshot g1)
  /\ events (payload (eventsSnapshot g2)) = events (payload (eventsSnapshot g1))
  /\ dataVersion g2 = dataVersion g1
  /\ broadcasts (trace g2) = broadcasts (trace g1).
Proof.
  intros Hsha Hfl Hpull Hu Hs Hnd Hdated. cbv zeta.
  destruct (pass_result reason up items g Hfl Hpull Hu Hs Hnd Hdated)
    as (p & Hdig & Hev & Hd1 & Hm1 & Hf1 & Hre).
  set (g1 := refreshSnapshot reason up g) in *.
  unfold refreshSnapshot, refreshEnter. rewrite Hf1.
  unfold refreshPass, refreshBody.
  set (g0 := set_refreshInFlight true g1).
  destruct (refreshBuild reason' up g0) as [gb [[t0 p2]|]] eqn:Hb.
  2:{ exfalso.
      assert (Hn : snd (refreshBuild reason' up g0) = None) by (rewrite Hb; reflexivity).
      apply passThrows_build in Hn. unfold passThrows in Hn. rewrite Hpull in Hn.
      destruct Hn as [Hn|[_ Hn]]; congruence. }
  destruct (refreshBuild_events reason' up g0 gb t0 p2 Hb) as (items' & gm & Hp' & Hev2 & Hdm & _).
  rewrite Hpull in Hp'. injection Hp' as <-.
  destruct (refreshBuild_frame reason' up g0) as (Hcore & _ & Hbc & _). rewrite Hb in Hcore, Hbc.
  cbn [fst] in Hcore, Hbc. destruct Hcore as (Hdv & Hsnap & Hms & Hds & _).
  assert (Hsame : events p2 = events p).
  { rewrite Hev2, Hev. f_equal. f_equal.
    - unfold mapItemsToEvents. rewrite mapItemsLoop_events by exact Hnd. simpl.
      apply omap_cong. intros x Hx. unfold eventOf.
      rewrite (mapItem_cong x (snd (dateNow g0)) g); [reflexivity| |].
      + rewrite <- (Hre x Hx). reflexivity.
      + cbn [dateNow snd doneStore set_ticks]. unfold g0.
        cbn [doneStore set_refreshInFlight]. rewrite Hd1. reflexivity.
    - cbn [manualStore set_refreshInFlight] in *. unfold g0.
      cbn [manualStore set_refreshInFlight]. rewrite Hm1.
      apply manualEventsOf_dated; [exact Hdated|].
      rewrite Hdm. unfold g0. cbn [doneStore set_refreshInFlight]. exact Hd1. }
  assert (Hd2 : digest (eventsSnapshot gb) = Some (snapshotDigest p2)).
  { rewrite Hsnap. unfold g0. cbn [eventsSnapshot set_refreshInFlight].
    rewrite Hdig. f_equal. apply snapshotDigest_events. symmetry. exact Hsame. }
  destruct (commitOrDiscard_same reason' t0 p2 gb (Hsha _) Hd2)
    as (C1 & C2 & _ & C4 & C5 & _ & _ & _ & _ & C10 & _).
  destruct (commitOrDiscard reason' t0 p2 gb) as [gc committed]. cbn [fst snd] in *.
  subst committed.
  destruct (refreshFinally_frame gc) as (F1 & F2 & _ & _ & _ & _ & F7 & _).
  rewrite F1, F2, F7, C2, C4, C5, C10, Hsnap, Hdv, Hbc.
  unfold g0. cbn [eventsSnapshot dataVersion trace set_refreshInFlight].
  repeat split.
Qed.

End DigestGate.

(** Reduce projections of updated globals, the stores of the handlers
    included, and the traces of appended effects. *)
Ltac globals_cbn :=
  cbn [dataVersion eventsSnapshot manualStore reclSeenStore doneStore refreshInFlight
       refreshPending refreshTimer lastTopUpdatedTime ticks trace
       set_dataVersion set_eventsSnapshot set_reclSeenStore set_refreshInFlight
       set_refreshPending set_refreshTimer set_lastTopUpdatedTime set_ticks emit
       set_manualStore set_doneStore version builtAt key payload digest
       p_version meta events fst snd] in *.

Ltac traces_cbn :=
  rewrite ?broadcasts_app, ?diskWrites_app, ?pollTimers_app, ?refreshTimers_app;
  cbn [broadcasts diskWrites pollTimers refreshTimers];
  rewrite ?app_nil_r, ?Nat.add_0_r.

Section Patches.

Context {P : Platform}.

(** ** The two snapshot patches *)

(** X12. The manual-date patch rewrites the first event that carries the id
    even when the card is closed, where the assigned-date patch refuses;
    on a card that is not closed the two leave the same events, version and
    digest.  It bumps the version to the clock reading, recomputes the
    digest over the patched events, and writes and broadcasts once. *)
Theorem manual_patch_has_no_closed_check idStr value g evs idx ev :
  events (payload (eventsSnapshot g)) = Some evs ->
  findIndex (fun e => String.eqb (toStr (ev_id e)) (toStr idStr)) evs = Some idx ->
  evs !! idx = Some ev ->
  let g' := fst (patchSnapshotManualDate idStr value g) in
  let ga := fst (patchSnapshotAssignedDate idStr value g) in
  snd (patchSnapshotManualDate idStr value g) = true
  /\ events (payload (eventsSnapshot g')) = Some (<[idx := patchEvent value ev]> evs)
  /\ version (eventsSnapshot g') = clock (ticks g)
  /\ p_version (payload (eventsSnapshot g')) = clock (ticks g)
  /\ dataVersion g' = clock (ticks g)
  /\ digest (eventsSnapshot g') = Some (snapshotDigest (payload (eventsSnapshot g')))
  /\ prop (meta (payload (eventsSnapshot g'))) "reason" = JStr "manual_patch"
  /\ broadcasts (trace g') = (broadcasts (trace g) ++ [clock (ticks g)])%list
  /\ diskWrites (trace g') = (diskWrites (trace g) ++ [eventsSnapshot g'])%list
  /\ (if closed ev
      then patchSnapshotAssignedDate idStr value g = (g, false)
      else snd (patchSnapshotAssignedDate idStr value g) = true
           /\ events (payload (eventsSnapshot ga)) = events (payload (eventsSnapshot g'))
           /\ version (eventsSnapshot ga) = version (eventsSnapshot g')
           /\ digest (eventsSnapshot ga) = digest (eventsSnapshot g')).
Proof.
  intros Hev Hidx Hlook. cbv zeta.
  unfold patchSnapshotManualDate, patchSnapshotAssignedDate.
  rewrite Hev, Hidx, Hlook.
  unfold dateNow, newDateISO, broadcastVersion, saveSnapshotToDisk. cbv zeta.
  globals_cbn. traces_cbn.
  rewrite ?app_nil_r.
  split; [reflexivity|]. split; [reflexivity|]. split; [reflexivity|].
  split; [reflexivity|]. split; [reflexivity|]. split; [reflexivity|].
  split.
  { unfold prop. rewrite lookup_insert_ne by discriminate.
    rewrite lookup_insert_eq. reflexivity. }
  split; [reflexivity|]. split; [reflexivity|].
  unfold closed.
  destruct (isTrue (prop (propsOf ev) "isDone") || isTrue (prop (propsOf ev) "hideMarker"));
    [reflexivity|].
  globals_cbn. repeat split.
Qed.

Lemma crmProps_patch (v v1 v2 v3 v4 v5 v6 v7 v8 v9 v10 v11 v12 v13 v14 v15 v16 v17 v18 v19 v20 : JVal) :
  <["assignedAny" := v]>
    (<["assignedInstall" := v]>
       (crmProps v1 v2 v3 v4 v5 v6 v7 v8 v9 v10 v11 v12 v13 v14 v15 v16 v17 v18 v19 v20))
  = crmProps v1 v2 v3 v4 v5 v6 v7 v8 v v10 v v12 v13 v14 v15 v16 v17 v18 v19 v20.
Proof. reflexivity. Qed.

(** X13. The assigned-date patch anticipates the rebuild.  For a record with
    no completion date, the event as patched with a filled date is, in
    every attribute, the event the deriver yields once the CRM record holds
    that date as its operator-assigned date. *)
Theorem patch_agrees_with_rebuild item v g e :
  snd (mapItem item g) = Pushed e ->
  filled (ufCrm8_1744639197488 item) = false ->
  filled v = true ->
  snd (mapItem (setAssigned v item) g) = Pushed (patchEvent v e).
Proof.
  intros H Hdone Hv.
  assert (Hv1 : jsOr v JNull = v) by (apply filled_orNull; exact Hv).
  assert (Hvt : truthyDate v = true) by (apply filled_truthyDate; exact Hv).
  unfold mapItem, newDateISO in *. cbv zeta in *.
  cbn [setAssigned it_id it_stageId ufCrm8_1747916236564 ufCrm8_1747306212023
       ufCrm8_1744626911134 ufCrm8_1747908559319 ufCrm8_1758806212646
       ufCrm8_1744639197488 ufCrm8_1758702287777 ufCrm8_1758702046420
       ufCrm8_1732097971828 ufCrm8_1744638484827 ufCrm8_1731616262 ufCrm8_1759661234].
  rewrite Hv1. rewrite (firstNonEmpty_cons v), Hvt.
  rewrite (truthyDate_orNull (ufCrm8_1744639197488 item)), Hdone in *.
  rewrite Hvt. cbn [negb].
  destruct (RECL_STAGES_has _ && negb _); cbv beta iota zeta in *;
    (destruct (negb (truthyDate (jsOr (ufCrm8_1747916236564 item) JNull)));
       [discriminate H|]);
    match type of H with
    | context [match ?d with Some _ => _ | None => _ end] =>
        destruct d as [dv|]; [|discriminate H]
    end;
    (destruct (negb (truthyDate dv)); [discriminate H|]);
    cbn [snd] in H; injection H as <-;
    cbv beta iota; rewrite ?Hvt; cbn [negb snd doneStore set_reclSeenStore set_ticks];
    unfold patchEvent;
    cbn [ev_id ev_title backgroundColor borderColor propsOf extendedProps];
    rewrite crmProps_patch, Hv1; reflexivity.
Qed.

End Patches.

Section HandlerProperties.

Context {P : Platform}.

(** ** The editing routes *)

Lemma assignKey_stores k v (o : gmap string JVal) :
  k <> "__proto__" \/ o !! k <> None -> assignKey k v o = <[k := v]> o.
Proof.
  intros H. unfold assignKey. destruct (o !! k) as [x|] eqn:Hk; [reflexivity|].
  destruct (String.eqb_spec k "__proto__") as [->|_]; [|reflexivity].
  destruct H as [H|H]; now elim H.
Qed.

Lemma assignKey_others k v (o : gmap string JVal) k' :
  k' <> k -> assignKey k v o !! k' = o !! k'.
Proof.
  intros H. unfold assignKey.
  destruct (o !! k); [|destruct (String.eqb k "__proto__")];
    rewrite ?lookup_insert_ne by congruence; reflexivity.
Qed.

(** X14. [PUT /api/done/:id] records the mark under the id and touches no
    other mark, whether or not the store file could be written; the
    snapshot is left alone and nothing is broadcast; a refresh is armed
    only when the write got through.  The deriver then shows the mark as
    the [done] attribute of the record, unless the record is in the SUCCESS
    stage or was ever in reclamation.  The one id under which nothing is
    recorded is [__proto__], when the store holds no mark of that name: the
    store stays as it is, and the route answers as for any other id. *)
Theorem put_done_marks_the_record id doneField saveOk g :
  let g' := fst (putDone id doneField saveOk g) in
  (id <> "__proto__" \/ doneStore g !! id <> None ->
   prop (doneStore g') id = JBool (truthy doneField))
  /\ (id = "__proto__" -> doneStore g !! id = None -> doneStore g' = doneStore g)
  /\ (forall id', id' <> id -> doneStore g' !! id' = doneStore g !! id')
  /\ eventsSnapshot g' = eventsSnapshot g
  /\ dataVersion g' = dataVersion g
  /\ broadcasts (trace g') = broadcasts (trace g)
  /\ (if saveOk
      then snd (putDone id doneField saveOk g) = ReplyOk
           /\ refreshTimer g' = Some "done_update"
      else snd (putDone id doneField saveOk g) = ReplyError 500 "done_save_failed"
           /\ refreshTimer g' = refreshTimer g)
  /\ (forall item e,
        idOf item = id -> id <> "__proto__" \/ doneStore g !! id <> None ->
        snd (mapItem item g') = Pushed e ->
        String.eqb (stageOf item) STAGE_SUCCESS = false ->
        reclEverOf item g' = false ->
        prop (propsOf e) "done" = JBool (truthy doneField)).
Proof.
  cbv zeta.
  assert (Hstore : doneStore (fst (putDone id doneField saveOk g))
                   = assignKey id (JBool (truthy doneField)) (doneStore g)).
  { unfold putDone, scheduleRefresh. destruct saveOk; reflexivity. }
  split.
  { intros Hid. rewrite Hstore, (assignKey_stores _ _ _ Hid). unfold prop.
    rewrite lookup_insert_eq. reflexivity. }
  split.
  { intros -> Hnone. rewrite Hstore. unfold assignKey. now rewrite Hnone. }
  split; [intros id' Hne; rewrite Hstore; now apply assignKey_others|].
  split; [unfold putDone, scheduleRefresh; destruct saveOk; reflexivity|].
  split; [unfold putDone, scheduleRefresh; destruct saveOk; reflexivity|].
  split.
  { unfold putDone, scheduleRefresh. destruct saveOk; globals_cbn; traces_cbn; reflexivity. }
  split; [unfold putDone, scheduleRefresh; destruct saveOk; split; reflexivity|].
  intros item e Hid Hown He Hst Hre.
  destruct (mapItem_pushed item _ e He) as (_ & _ & _ & _ & _ & _ & _ & _ & _ & _ & _ & _ & _ & Hd).
  rewrite Hd, Hst, Hre, Hstore. unfold idOf in Hid. rewrite Hid.
  rewrite (assignKey_stores _ _ _ Hown). unfold prop. rewrite lookup_insert_eq. reflexivity.
Qed.

Lemma filter_all {A : Type} (f : A -> bool) (l : list A) :
  length (List.filter f l) = length l -> List.filter f l = l.
Proof.
  induction l as [|x l IH]; simpl; intros H; [reflexivity|].
  destruct (f x); simpl in H.
  - f_equal. apply IH. lia.
  - pose proof (List.filter_length_le f l). lia.
Qed.

Lemma filter_keeps {A : Type} (f : A -> bool) (l : list A) :
  Forall (fun x => f x = true) l -> List.filter f l = l.
Proof.
  induction 1 as [|x l Hx _ IH]; simpl; [reflexivity|]. rewrite Hx, IH. reflexivity.
Qed.

Lemma filter_drops {A : Type} (f : A -> bool) (l : list A) :
  length (List.filter f l) <> length l -> exists x, In x l /\ f x = false.
Proof.
  induction l as [|x l IH]; simpl; intros H; [congruence|].
  destruct (f x) eqn:Hx.
  - simpl in H. destruct IH as (y & Hy & Hf); [congruence|]. exists y. tauto.
  - exists x. tauto.
Qed.

Lemma set_manualStore_same g : set_manualStore (manualStore g) g = g.
Proof. destruct g; reflexivity. Qed.

Lemma deleteManual_snapshot id saveManualOk commentsOk saveDoneOk g :
  eventsSnapshot (fst (deleteManual id saveManualOk commentsOk saveDoneOk g))
  = eventsSnapshot g.
Proof.
  unfold deleteManual, scheduleRefresh.
  repeat match goal with
         | |- context [if ?c then _ else _] => destruct c
         | |- context [match ?c with Some _ => _ | None => _ end] => destruct c
         end; reflexivity.
Qed.

(** X15. [DELETE /api/manual/:id] refuses an id without the manual prefix
    and an id no record carries, and then changes nothing.  Otherwise it
    takes every record with that id out of the store and keeps the others
    in their order; when it answers ok the done mark of the id is gone, a
    refresh is armed and a record was indeed there.  The snapshot is not
    touched: the event leaves the calendar with the refresh. *)
Theorem delete_manual_removes_the_record id saveManualOk commentsOk saveDoneOk g :
  let g' := fst (deleteManual id saveManualOk commentsOk saveDoneOk g) in
  let r := snd (deleteManual id saveManualOk commentsOk saveDoneOk g) in
  eventsSnapshot g' = eventsSnapshot g
  /\ (isManualId (JStr id) = false -> r = ReplyError 400 "bad_id" /\ g' = g)
  /\ (isManualId (JStr id) = true ->
      manualStore g'
      = List.filter (fun x => negb (String.eqb (toStr (m_id x)) id)) (manualStore g)
      /\ (Forall (fun x => toStr (m_id x) <> id) (manualStore g) ->
          r = ReplyError 404 "not_found" /\ g' = g)
      /\ (r = ReplyOk ->
          doneStore g' !! id = None
          /\ refreshTimer g' = Some "manual_delete"
          /\ exists m, In m (manualStore g) /\ toStr (m_id m) = id)).
Proof.
  cbv zeta. unfold deleteManual.
  destruct (isManualId (JStr id)) eqn:Hman; cbn [negb].
  2:{ split; [reflexivity|]. split; [intros _; split; reflexivity|discriminate]. }
  set (kept := List.filter (fun x => negb (String.eqb (toStr (m_id x)) id)) (manualStore g)).
  globals_cbn.
  destruct (Nat.eqb_spec (length kept) (length (manualStore g))) as [Hlen|Hlen].
  - assert (Hk : kept = manualStore g) by (apply filter_all; exact Hlen).
    rewrite Hk, set_manualStore_same.
    split; [reflexivity|]. split; [discriminate|]. intros _.
    split; [reflexivity|]. split; [intros _; split; reflexivity|discriminate].
  - assert (Hin : exists m, In m (manualStore g) /\ toStr (m_id m) = id).
    { destruct (filter_drops _ _ Hlen) as (m & Hm & Hf). exists m. split; [exact Hm|].
      apply negb_false_iff in Hf. apply String.eqb_eq in Hf. exact Hf. }
    assert (Hno : Forall (fun x => toStr (m_id x) <> id) (manualStore g) -> False).
    { intros Hall. apply Hlen. unfold kept. rewrite filter_keeps; [reflexivity|].
      eapply Forall_impl; [exact Hall|]. intros x Hx. cbv beta.
      apply negb_true_iff. apply String.eqb_neq. exact Hx. }
    destruct saveManualOk; cbn [negb].
    2:{ split; [reflexivity|]. split; [discriminate|]. intros _.
        split; [reflexivity|]. split; [intros Hall; destruct (Hno Hall)|discriminate]. }
    destruct commentsOk; cbn [negb].
    2:{ split; [reflexivity|]. split; [discriminate|]. intros _.
        split; [reflexivity|]. split; [intros Hall; destruct (Hno Hall)|discriminate]. }
    destruct (doneStore g !! id) as [d|] eqn:Hd.
    + destruct saveDoneOk; unfold scheduleRefresh; globals_cbn.
      * split; [reflexivity|]. split; [discriminate|]. intros _.
        split; [reflexivity|]. split; [intros Hall; destruct (Hno Hall)|].
        intros _. split; [apply lookup_delete_eq|]. split; [reflexivity|exact Hin].
      * split; [reflexivity|]. split; [discriminate|]. intros _.
        split; [reflexivity|]. split; [intros Hall; destruct (Hno Hall)|discriminate].
    + unfold scheduleRefresh; globals_cbn.
      split; [reflexivity|]. split; [discriminate|]. intros _.
      split; [reflexivity|]. split; [intros Hall; destruct (Hno Hall)|].
      intros _. split; [exact Hd|]. split; [reflexivity|exact Hin].
Qed.

(** X16. [PUT /api/manual/:id] on a known record, the store written: the
    record takes the start and the assigned date that were given (a blank
    one leaves the old value), the other records stay, and the first event
    of the snapshot with that id, if there is one, is moved at once to the
    start given or else to the assigned date given, which is the empty
    string when neither was given; the refresh is left to a timer. *)
Theorem put_manual_moves_the_record id startField assignedField g idx m :
  isManualId (JStr id) = true ->
  findIndex (fun x => String.eqb (toStr (m_id x)) id) (manualStore g) = Some idx ->
  manualStore g !! idx = Some m ->
  let s := trim (toStr (jsOr startField (JStr EmptyString))) in
  let a := trim (toStr (jsOr (jsOr assignedField (JStr s)) (JStr EmptyString))) in
  let g' := fst (fst (putManual id startField assignedField true g)) in
  putManual id startField assignedField true g = (g', ReplyOk, Some "manual_update")
  /\ manualStore g' !! idx = Some (setManualDates s a m)
  /\ (forall k, k <> idx -> manualStore g' !! k = manualStore g !! k)
  /\ (nonEmpty s = false -> nonEmpty a = false -> manualStore g' = manualStore g)
  /\ (forall evs j ev,
        events (payload (eventsSnapshot g)) = Some evs ->
        findIndex (fun e => String.eqb (toStr (ev_id e)) id) evs = Some j ->
        evs !! j = Some ev ->
        events (payload (eventsSnapshot g'))
        = Some (<[j := patchEvent (JStr (if nonEmpty s then s else a)) ev]> evs)).
Proof.
  intros Hman Hidx Hm. cbv zeta.
  unfold putManual. rewrite Hman, Hidx. cbn [negb fst snd].
  set (s := trim (toStr (jsOr startField (JStr EmptyString)))).
  set (a := trim (toStr (jsOr (jsOr assignedField (JStr s)) (JStr EmptyString)))).
  set (g1 := set_manualStore (alter (setManualDates s a) idx (manualStore g)) g).
  assert (Hms : manualStore (fst (patchSnapshotManualDate (JStr id)
                               (JStr (if nonEmpty s then s else a)) g1))
                = alter (setManualDates s a) idx (manualStore g)).
  { unfold patchSnapshotManualDate.
    destruct (events (payload (eventsSnapshot g1))) as [evs|]; [|reflexivity].
    destruct (findIndex _ evs) as [j|]; [|reflexivity].
    destruct (evs !! j); reflexivity. }
  split; [reflexivity|].
  split; [rewrite Hms, list_lookup_alter_eq, Hm; reflexivity|].
  split; [intros k Hk; rewrite Hms; apply list_lookup_alter_ne; congruence|].
  split.
  { intros Hs Ha. rewrite Hms. apply list_eq. intros k.
    destruct (Nat.eq_dec k idx) as [->|Hk].
    - rewrite list_lookup_alter_eq, Hm. unfold setManualDates. rewrite Hs, Ha.
      destruct m; reflexivity.
    - apply list_lookup_alter_ne. congruence. }
  intros evs j ev Hev Hj Hlook.
  unfold patchSnapshotManualDate.
  change (eventsSnapshot g1) with (eventsSnapshot g). rewrite Hev.
  cbn [toStr]. rewrite Hj, Hlook. reflexivity.
Qed.

Lemma jsOr_first x p q : truthy x = true -> jsOr (jsOr x p) q = x.
Proof. intros H. unfold jsOr. rewrite H. cbv iota. rewrite H. reflexivity. Qed.

Lemma manual_start m g :
  start (fst (manualToFcEvent m g))
  = if truthy (jsOr (jsOr (m_start m) (m_plannedInstall m)) (m_assignedInstall m))
    then jsOr (jsOr (m_start m) (m_plannedInstall m)) (m_assignedInstall m)
    else JStr (toISOString (clock (ticks g))).
Proof.
  unfold manualToFcEvent, newDateISO. cbv zeta.
  destruct (truthy (jsOr (jsOr (m_start m) (m_plannedInstall m)) (m_assignedInstall m)));
    reflexivity.
Qed.

Lemma manual_fields m g :
  let e := fst (manualToFcEvent m g) in
  ev_id e = JStr (toStr (m_id m))
  /\ backgroundColor e = JStr manualEventColor
  /\ prop (propsOf e) "done" = JBool (truthy (prop (doneStore g) (toStr (m_id m))))
  /\ prop (propsOf e) "isDone" = JBool false
  /\ prop (propsOf e) "hideMarker" = JBool (truthy (m_hideMarker m))
  /\ prop (propsOf e) "otkDate" = JNull
  /\ prop (propsOf e) "stageId" = JStr "MANUAL".
Proof.
  cbv zeta. unfold manualToFcEvent, newDateISO. cbv zeta.
  destruct (truthy (jsOr (jsOr (m_start m) (m_plannedInstall m)) (m_assignedInstall m)));
    cbn [fst ev_id backgroundColor propsOf extendedProps doneStore set_ticks];
    repeat split; reflexivity.
Qed.

Lemma patchEvent_view v e :
  digestView (patchEvent v e)
  = (toStr (ev_id e), toStr (jsOr v (JStr EmptyString)),
     toStr (jsOr (backgroundColor e) (JStr EmptyString)),
     truthy (prop (propsOf e) "done"), truthy (prop (propsOf e) "isDone"),
     truthy (prop (propsOf e) "hideMarker"),
     toStr (jsOr (prop (propsOf e) "otkDate") (JStr EmptyString)),
     toStr (jsOr (prop (propsOf e) "stageId") (JStr EmptyString))).
Proof.
  unfold digestView, patchEvent.
  cbn [ev_id start backgroundColor propsOf extendedProps]. unfold prop.
  rewrite !lookup_insert_ne by discriminate. reflexivity.
Qed.

(** X17. What the rebuild makes of a manual record after the update.  When
    a start was given, the rebuilt event has that start and looks to the
    digest exactly like the event as patched, so the rebuild confirms the
    patch.  When only an assigned date was given and the record has a
    start of its own, the rebuilt event keeps that start: the patch had
    moved the event to the assigned date, the rebuild moves it back. *)
Theorem put_manual_rebuild m s a g :
  let e := fst (manualToFcEvent m g) in
  let e' := fst (manualToFcEvent (setManualDates s a m) g) in
  (nonEmpty s = true ->
   start e' = JStr s /\ digestView e' = digestView (patchEvent (JStr s) e))
  /\ (nonEmpty s = false -> nonEmpty a = true -> truthy (m_start m) = true ->
      start e' = m_start m /\ start (patchEvent (JStr a) e) = JStr a).
Proof.
  cbv zeta. split.
  - intros Hs.
    assert (Hst : start (fst (manualToFcEvent (setManualDates s a m) g)) = JStr s).
    { rewrite manual_start. unfold setManualDates.
      cbn [m_start m_plannedInstall m_assignedInstall]. rewrite Hs.
      assert (Ht : truthy (JStr s) = true) by exact Hs.
      rewrite (jsOr_first _ _ _ Ht), Ht. reflexivity. }
    split; [exact Hst|].
    rewrite patchEvent_view. unfold digestView. rewrite Hst.
    destruct (manual_fields m g) as (E1 & E2 & E3 & E4 & E5 & E6 & E7).
    destruct (manual_fields (setManualDates s a m) g) as (F1 & F2 & F3 & F4 & F5 & F6 & F7).
    cbv zeta in *.
    rewrite E1, E2, E3, E4, E5, E6, E7, F1, F2, F3, F4, F5, F6, F7. reflexivity.
  - intros Hs Ha Hm.
    split; [|reflexivity].
    rewrite manual_start. unfold setManualDates.
    cbn [m_start m_plannedInstall m_assignedInstall]. rewrite Hs.
    rewrite (jsOr_first _ _ _ Hm), Hm. reflexivity.
Qed.

Lemma startsWith_prefix p s : startsWith p (p ++ s) = true.
Proof.
  induction p as [|a p IH]; simpl; [destruct s; reflexivity|].
  rewrite Ascii.eqb_refl. exact IH.
Qed.

Lemma postManual_cases b rnd saveOk g :
  let title := trim (toStr (jsOr (b_title b) (JStr EmptyString))) in
  let id := "m-" ++ toStr (JNum (clock (ticks g))) ++ "-" ++ toStr (JNum rnd) in
  if nonEmpty title
  then exists T,
         fst (fst (postManual b rnd saveOk g))
         = (if saveOk
            then set_ticks T (scheduleRefresh "manual_create"
                                (set_manualStore (manualStore g ++ [manualOf id title b])%list g))
            else set_ticks T (set_manualStore (manualStore g ++ [manualOf id title b])%list g))
         /\ snd (fst (postManual b rnd saveOk g))
            = (if saveOk then ReplyOk else ReplyError 500 "manual_create_failed")
         /\ snd (postManual b rnd saveOk g) = (if saveOk then Some id else None)
  else postManual b rnd saveOk g = (g, ReplyError 400 "title_required", None).
Proof.
  cbv zeta. unfold postManual, dateNow, newDateISO. cbv zeta.
  destruct (nonEmpty (trim (toStr (jsOr (b_title b) (JStr EmptyString))))); cbn [negb];
    [|reflexivity].
  destruct saveOk.
  - match goal with |- context [manualToFcEvent ?m ?gg] =>
      destruct (manualToFcEvent_globals m gg) as [T HT];
      destruct (manualToFcEvent m gg) as [e g5]
    end.
    cbn [fst snd] in *. subst g5. exists T.
    unfold scheduleRefresh. globals_cbn.
    split; [destruct g; reflexivity|]. split; reflexivity.
  - exists (S (S (ticks g))). cbn [fst snd]. globals_cbn.
    split; [destruct g; reflexivity|]. split; reflexivity.
Qed.

(** X18. [POST /api/manual] refuses a blank title and then changes nothing.
    Otherwise it appends one record to the store, under an id made of the
    manual prefix, the clock reading and the random number; the snapshot is
    left alone, and when the store was written a refresh is armed.  The id
    is accepted by the update and delete routes, and, when no record
    carried it before, deleting it gives back the store as it was. *)
Theorem post_manual_adds_a_record b rnd saveOk g :
  let title := trim (toStr (jsOr (b_title b) (JStr EmptyString))) in
  let id := "m-" ++ toStr (JNum (clock (ticks g))) ++ "-" ++ toStr (JNum rnd) in
  let g' := fst (fst (postManual b rnd saveOk g)) in
  eventsSnapshot g' = eventsSnapshot g
  /\ (nonEmpty title = false ->
      postManual b rnd saveOk g = (g, ReplyError 400 "title_required", None))
  /\ (nonEmpty title = true ->
      manualStore g' = (manualStore g ++ [manualOf id title b])%list
      /\ isManualId (JStr id) = true
      /\ (if saveOk
          then postManual b rnd saveOk g = (g', ReplyOk, Some id)
               /\ refreshTimer g' = Some "manual_create"
          else postManual b rnd saveOk g = (g', ReplyError 500 "manual_create_failed", None)
               /\ refreshTimer g' = refreshTimer g)
      /\ (Forall (fun x => toStr (m_id x) <> id) (manualStore g) ->
          snd (deleteManual id true true true g') = ReplyOk
          /\ manualStore (fst (deleteManual id true true true g')) = manualStore g)).
Proof.
  cbv zeta.
  pose proof (postManual_cases b rnd saveOk g) as Hc. cbv zeta in Hc.
  set (title := trim (toStr (jsOr (b_title b) (JStr EmptyString)))) in *.
  set (id := "m-" ++ toStr (JNum (clock (ticks g))) ++ "-" ++ toStr (JNum rnd)) in *.
  destruct (nonEmpty title) eqn:Ht.
  2:{ rewrite Hc. split; [reflexivity|]. split; [reflexivity|discriminate]. }
  destruct Hc as (T & Hg & Hr & Hi).
  assert (Hstore : manualStore (fst (fst (postManual b rnd saveOk g)))
                   = (manualStore g ++ [manualOf id title b])%list).
  { rewrite Hg. destruct saveOk; reflexivity. }
  assert (Hman : isManualId (JStr id) = true).
  { unfold isManualId, id. cbn [toStr]. apply (startsWith_prefix "m-"). }
  split; [rewrite Hg; destruct saveOk; reflexivity|].
  split; [discriminate|]. intros _.
  split; [exact Hstore|]. split; [exact Hman|].
  split.
  { destruct saveOk; (split; [|rewrite Hg; reflexivity]);
      destruct (postManual b rnd _ g) as [[g1 r1] i1]; cbn [fst snd] in *; congruence. }
  intros Hfresh.
  set (g' := fst (fst (postManual b rnd saveOk g))) in *.
  assert (Hkept : List.filter (fun x => negb (String.eqb (toStr (m_id x)) id)) (manualStore g')
                  = manualStore g).
  { rewrite Hstore, List.filter_app. cbn [List.filter manualOf m_id toStr].
    rewrite String.eqb_refl. cbn [negb]. rewrite app_nil_r.
    apply filter_keeps. eapply Forall_impl; [exact Hfresh|].
    intros x Hx. cbv beta. apply negb_true_iff. apply String.eqb_neq. exact Hx. }
  unfold deleteManual. rewrite Hman. cbn [negb]. globals_cbn. rewrite Hkept.
  assert (Hlen : (length (manualStore g) =? length (manualStore g'))%nat = false).
  { apply Nat.eqb_neq. rewrite Hstore, length_app. simpl. lia. }
  rewrite Hlen.
  destruct (doneStore g' !! id); unfold scheduleRefresh; globals_cbn; split; reflexivity.
Qed.

(** ** The snapshot hangs together *)

Lemma commitOrDiscard_coherent reason t0 p g :
  coherent g -> coherent (fst (commitOrDiscard reason t0 p g)).
Proof.
  unfold coherent, commitOrDiscard, dateNow, saveSnapshotToDisk. cbv zeta.
  intros [Hd Hv].
  destruct (digest (eventsSnapshot g)) as [d|] eqn:Hdg.
  - destruct (nonEmpty d && String.eqb d (snapshotDigest p)); globals_cbn.
    + split; [|exact Hv]. right.
      destruct Hd as [Hd|Hd]; [discriminate|]. rewrite Hd. f_equal.
    + split; [right|]; reflexivity.
  - globals_cbn. split; [right|]; reflexivity.
Qed.

Lemma refreshSnapshot_coherent reason up g :
  coherent g -> coherent (refreshSnapshot reason up g).
Proof.
  intros Hc.
  assert (Hext : forall g1 g2, eventsSnapshot g2 = eventsSnapshot g1 ->
                               coherent g1 -> coherent g2).
  { unfold coherent. intros g1 g2 ->. tauto. }
  unfold refreshSnapshot, refreshEnter.
  destruct (refreshInFlight g); [apply (Hext g); [reflexivity|exact Hc]|].
  unfold refreshPass.
  apply (Hext (refreshBody reason up (set_refreshInFlight true g)));
    [apply refreshFinally_frame|].
  unfold refreshBody.
  pose proof (refreshBuild_frame reason up (set_refreshInFlight true g)) as (Hcore & _).
  destruct (refreshBuild reason up (set_refreshInFlight true g)) as [gb [[t0 p]|]].
  - cbn [fst] in Hcore. destruct Hcore as (_ & Hsnap & _).
    pose proof (commitOrDiscard_coherent reason t0 p gb
                  (Hext g gb Hsnap Hc)) as Hcc.
    destruct (commitOrDiscard reason t0 p gb) as [gc committed]. cbn [fst] in Hcc.
    destruct committed; [apply (Hext gc); [reflexivity|exact Hcc]|exact Hcc].
  - cbn [fst] in Hcore. destruct Hcore as (_ & Hsnap & _).
    apply (Hext g); [exact Hsnap|exact Hc].
Qed.

Lemma patch_coherent idStr value g :
  coherent g ->
  coherent (fst (patchSnapshotAssignedDate idStr value g))
  /\ coherent (fst (patchSnapshotManualDate idStr value g)).
Proof.
  intros Hc. unfold patchSnapshotAssignedDate, patchSnapshotManualDate.
  destruct (events (payload (eventsSnapshot g))) as [evs|]; [|split; exact Hc].
  destruct (findIndex _ evs) as [idx|]; [|split; exact Hc].
  destruct (evs !! idx) as [ev|]; [|split; exact Hc].
  split.
  - destruct (isTrue _ || isTrue _); [exact Hc|].
    unfold coherent, dateNow, newDateISO, broadcastVersion, saveSnapshotToDisk.
    cbv zeta. globals_cbn. split; [right|]; reflexivity.
  - unfold coherent, dateNow, newDateISO, broadcastVersion, saveSnapshotToDisk.
    cbv zeta. globals_cbn. split; [right|]; reflexivity.
Qed.

Lemma serve_coherent r g : coherent g -> coherent (serve r g).
Proof.
  intros Hc.
  assert (Hext : forall g1 g2, eventsSnapshot g2 = eventsSnapshot g1 ->
                               coherent g1 -> coherent g2).
  { unfold coherent. intros g1 g2 ->. tauto. }
  destruct r as [[reason up|idStr value|resp|reason]|idStr value|id d ok|id s1 s2 s3
                |id s a ok|b rnd ok];
    cbn [serve act].
  - apply refreshSnapshot_coherent. exact Hc.
  - apply patch_coherent. exact Hc.
  - apply (Hext g); [apply poll_frame|exact Hc].
  - apply (Hext g); [reflexivity|exact Hc].
  - apply patch_coherent. exact Hc.
  - apply (Hext g); [|exact Hc].
    unfold putDone, scheduleRefresh. destruct ok; reflexivity.
  - apply (Hext g); [|exact Hc].
    apply deleteManual_snapshot.
  - unfold putManual.
    destruct (negb (isManualId (JStr id))); [exact Hc|].
    destruct (findIndex _ (manualStore g)) as [idx|]; [|exact Hc].
    destruct (negb ok); cbn [fst].
    + apply (Hext g); [reflexivity|exact Hc].
    + apply patch_coherent. apply (Hext g); [reflexivity|exact Hc].
  - apply (Hext g); [|exact Hc].
    pose proof (postManual_cases b rnd ok g) as Hp. cbv zeta in Hp.
    destruct (nonEmpty _).
    + destruct Hp as (T & -> & _). destruct ok; reflexivity.
    + rewrite Hp. reflexivity.
Qed.

(** X19. Whatever the server is asked to do, in whatever order (refresh
    passes, either patch, poller ticks, triggers, the done route and the
    routes that create, update and delete manual records), the snapshot
    hangs together: once it has a digest, the digest is that of the events
    it holds, and the payload carries the snapshot's own version. *)
Theorem snapshot_stays_coherent reqs g :
  coherent g -> coherent (serveAll reqs g).
Proof.
  revert g. induction reqs as [|r rest IH]; intros g Hc; simpl; [exact Hc|].
  apply IH. apply serve_coherent. exact Hc.
Qed.

End HandlerProperties.

(** ** Roles *)

(** X20. The editing routes run their handler for a session whose role is
    admin or operator, and for no other request: without a session the
    answer is 401 or the redirect to the login page, with another role
    (a missing one counts as viewer) it is 403, and the server's state is
    as before.  Whoever passes the admin check passes the editor check. *)
Theorem editing_routes_need_an_editor s accept handler g :
  (if isEditor s
   then editorRoute s accept handler g = handler g
   else fst (editorRoute s accept handler g) = g
        /\ match s with
           | None => snd (editorRoute s accept handler g)
                     = (if includes "text/html" accept
                        then ReplyRedirect "/login"
                        else ReplyError 401 "unauthorized")
           | Some _ => snd (editorRoute s accept handler g) = ReplyError 403 "forbidden"
           end)
  /\ (requireAdmin s = None -> isEditor s = true)
  /\ (forall role, s = Some role -> truthy role = false -> isEditor s = false).
Proof.
  split; [|split].
  - unfold isEditor, editorRoute, requireAuth, requireEditor, requireRole.
    destruct s as [role|].
    + cbn [existsb]. rewrite orb_false_r.
      destruct (String.eqb (getRole (Some role)) ROLE_ADMIN
                || String.eqb (getRole (Some role)) ROLE_OPERATOR); [reflexivity|].
      split; reflexivity.
    + split; [destruct (includes "text/html" accept); reflexivity|].
      destruct (includes "text/html" accept); reflexivity.
  - unfold requireAdmin, requireRole, isEditor. cbn [existsb]. rewrite orb_false_r.
    destruct s as [role|].
    + destruct (String.eqb (getRole (Some role)) ROLE_ADMIN); [reflexivity|discriminate].
    + vm_compute. discriminate.
  - intros role -> Hr. unfold isEditor, getRole, jsOr. rewrite Hr. reflexivity.
Qed.

Section CoordinatorProperties.

Context {P : Platform}.

(** ** More on the coordinator and the poller *)

Lemma run_app evs1 : forall evs2 c,
  run (evs1 ++ evs2)%list c
  = match run evs1 c with Some c1 => run evs2 c1 | None => None end.
Proof.
  induction evs1 as [|ev rest IH]; intros evs2 c; simpl; [reflexivity|].
  destruct (step ev c) as [c1|]; [apply IH|reflexivity].
Qed.

Lemma run_triggers reasons : forall c,
  exists c1,
    run (List.map Trigger reasons) c = Some c1
    /\ passesStarted c1 = passesStarted c
    /\ pullsInFlight c1 = pullsInFlight c
    /\ flightReason c1 = flightReason c
    /\ refreshInFlight (globals c1) = refreshInFlight (globals c)
    /\ refreshPending (globals c1) = refreshPending (globals c)
    /\ eventsSnapshot (globals c1) = eventsSnapshot (globals c)
    /\ refreshTimers (trace (globals c1))
       = (refreshTimers (trace (globals c)) ++ reasons)%list.
Proof.
  induction reasons as [|r rest IH]; intros c; simpl.
  - exists c. rewrite app_nil_r. repeat split.
  - destruct (IH (mkCoord (scheduleRefresh r (globals c)) (passesStarted c)
                    (pullsInFlight c) (flightReason c)))
      as (c1 & Hrun & H1 & H2 & H3 & H4 & H5 & H6 & H7).
    exists c1. split; [exact Hrun|].
    unfold scheduleRefresh in *.
    cbn [globals passesStarted pullsInFlight flightReason] in *. globals_cbn.
    rewrite H1, H2, H3, H4, H5, H6, H7. traces_cbn.
    rewrite <- app_assoc. repeat split.
Qed.

(** X21. Debouncing while idle.  With no pass in flight, a burst of calls of
    [scheduleRefresh] followed by the firing of the timer starts exactly
    one pass, and the pass carries the reason of the last call; the timer
    is then unarmed. *)
Theorem idle_burst_starts_one_pass reasons r c :
  refreshInFlight (globals c) = false ->
  exists c',
    run (List.map Trigger reasons ++ [Trigger r; TimerFires])%list c = Some c'
    /\ passesStarted c' = S (passesStarted c)
    /\ pullsInFlight c' = S (pullsInFlight c)
    /\ flightReason c' = r
    /\ refreshInFlight (globals c') = true
    /\ refreshTimer (globals c') = None
    /\ eventsSnapshot (globals c') = eventsSnapshot (globals c)
    /\ refreshTimers (trace (globals c'))
       = (refreshTimers (trace (globals c)) ++ reasons ++ [r])%list.
Proof.
  intros Hidle.
  destruct (run_triggers reasons c) as (c1 & Hrun & H1 & H2 & H3 & H4 & H5 & H6 & H7).
  rewrite run_app, Hrun.
  cbn [run step]. unfold scheduleRefresh, refreshEnter. globals_cbn.
  cbn [globals]. globals_cbn. rewrite H4, Hidle.
  eexists. split; [reflexivity|].
  cbn [globals passesStarted pullsInFlight flightReason]. globals_cbn. traces_cbn.
  rewrite H1, H2, H6, H7, <- app_assoc. repeat split.
Qed.




Lemma poll_tick_observed resp g :
  let g' := pollBitrixTopUpdate resp g in
  lastTopUpdatedTime g'
  = match observed resp with Some u => Some u | None => lastTopUpdatedTime g end
  /\ refreshTimers (trace g')
     = (refreshTimers (trace g)
        ++ replicate (changes (lastTopUpdatedTime g)
                        (match observed resp with Some u => [u] | None => [] end))
             "bitrix_poll")%list.
Proof.
  cbv zeta. destruct resp as [rows|].
  - pose proof (poll_schedule rows g) as H. cbv zeta in H.
    unfold observed. destruct (topTimestamp rows) as [u|].
    + destruct (nonEmpty u).
      * destruct H as [Hl H]. split; [exact Hl|]. cbn [changes].
        destruct (lastTopUpdatedTime g) as [l|].
        -- destruct (nonEmpty l && negb (String.eqb u l)); destruct H as [H _]; rewrite H;
             [reflexivity|rewrite app_nil_r; reflexivity].
        -- destruct H as [H _]. rewrite H, app_nil_r. reflexivity.
      * destruct H as (Hl & H & _). rewrite Hl, H, app_nil_r. split; reflexivity.
    + destruct H as (Hl & H & _). rewrite Hl, H, app_nil_r. split; reflexivity.
  - unfold pollBitrixTopUpdate, observed. globals_cbn. traces_cbn. split; reflexivity.
Qed.

Lemma changes_app us : forall l vs,
  changes l (us ++ vs)
  = (changes l us + changes (match last us with Some u => Some u | None => l end) vs)%nat.
Proof.
  induction us as [|u rest IH]; intros l vs; [reflexivity|].
  cbn [app changes]. rewrite IH, last_cons.
  destruct (last rest); lia.
Qed.

(** X23. Over any run of ticks the poller remembers the last timestamp any
    of them has seen (a tick that fails or sees none forgets nothing), and
    it has armed one refresh for every time a timestamp seen differed from
    the one remembered before it, and no other. *)
Theorem poller_remembers_last answers g :
  lastTopUpdatedTime (pollLoop answers g)
  = match last (omap observed answers) with
    | Some u => Some u
    | None => lastTopUpdatedTime g
    end
  /\ refreshTimers (trace (pollLoop answers g))
     = (refreshTimers (trace g)
        ++ replicate (changes (lastTopUpdatedTime g) (omap observed answers))
             "bitrix_poll")%list.
Proof.
  revert g. induction answers as [|resp rest IH]; intros g.
  - simpl. rewrite app_nil_r. split; reflexivity.
  - cbn [pollLoop].
    destruct (IH (pollBitrixTopUpdate resp g)) as [Hl Ht].
    destruct (poll_tick_observed resp g) as [Hl1 Ht1]. cbv zeta in Hl1, Ht1.
    rewrite Hl, Ht, Hl1, Ht1.
    change (omap observed (resp :: rest))
      with (match observed resp with
            | Some u => u :: omap observed rest
            | None => omap observed rest
            end).
    destruct (observed resp) as [u|].
    + rewrite last_cons. split; [destruct (last (omap observed rest)); reflexivity|].
      rewrite <- app_assoc, <- replicate_add. f_equal. f_equal. cbn [changes]. lia.
    + cbn [changes replicate]. rewrite app_nil_r. split; reflexivity.
Qed.

(** ** The deriver of the server without snapshot *)

Lemma ffProps_lookups (v1 v2 v3 v4 v5 v6 v7 v8 v9 v10 v11 v12 v13 v14 v15 v16 v17 v18 v19 v20 v21 : JVal) :
  let m := ffProps v1 v2 v3 v4 v5 v6 v7 v8 v9 v10 v11 v12 v13 v14 v15 v16 v17 v18 v19 v20 v21 in
  prop m "isDone" = v4 /\ prop m "reclEver" = v6 /\ prop m "hideMarker" = v21
  /\ prop m "done" = JUndef /\ prop m "installDone" = v13.
Proof. cbv zeta. repeat split; reflexivity. Qed.

(** X24. The server without snapshot derives from a record the same start
    date, all-day flag, id and title as the snapshot server, skips the
    same records for the same reason and keeps the reclamation store the
    same way; but it marks the event done, and hides its marker, exactly
    when the completion date is filled, where the snapshot server goes by
    the SUCCESS stage, and it gives the event no operators' done mark. *)
Theorem serverFF_done_is_completion itemFF g :
  let item := ff_base itemFF in
  fst (mapItemFF itemFF g) = fst (mapItem item g)
  /\ match snd (mapItemFF itemFF g), snd (mapItem item g) with
     | Pushed e, Pushed e' =>
         ev_id e = ev_id e' /\ ev_title e = ev_title e'
         /\ start e = start e' /\ allDay e = allDay e'
         /\ prop (propsOf e) "isDone" = JBool (filled (ufCrm8_1744639197488 item))
         /\ prop (propsOf e) "hideMarker" = JBool (filled (ufCrm8_1744639197488 item))
         /\ prop (propsOf e') "isDone" = JBool (String.eqb (stageOf item) STAGE_SUCCESS)
         /\ prop (propsOf e) "reclEver" = JBool (reclEverOf item g)
         /\ prop (propsOf e) "done" = JUndef
     | NoTransferToShop, NoTransferToShop => True
     | NoPlannedNoAssigned, NoPlannedNoAssigned => True
     | _, _ => False
     end.
Proof.
  cbv zeta. unfold mapItemFF, mapItem, newDateISO, reclEverOf. cbv zeta.
  fold (stageOf (ff_base itemFF)).
  pose proof (dateChoice_priority (ff_base itemFF)) as Hdc. cbv zeta in Hdc.
  rewrite !Hdc. clear Hdc.
  rewrite <- (truthyDate_orNull (ufCrm8_1744639197488 (ff_base itemFF))).
  destruct (RECL_STAGES_has (stageOf (ff_base itemFF)) && negb _); cbv beta iota zeta;
    (destruct (negb (truthyDate (jsOr (ufCrm8_1747916236564 (ff_base itemFF)) JNull)));
       [split; [reflexivity|exact I]|]);
    (destruct (List.find filled (dateCandidates (ff_base itemFF))) as [dv|] eqn:Hfind;
       [|split; [reflexivity|exact I]]);
    rewrite (find_filled_truthyDate _ _ Hfind); cbn [negb fst snd];
    (split; [reflexivity|]).
  all: try match goal with
    | |- context [ffProps ?v1 ?v2 ?v3 ?v4 ?v5 ?v6 ?v7 ?v8 ?v9 ?v10 ?v11 ?v12 ?v13 ?v14 ?v15 ?v16 ?v17 ?v18 ?v19 ?v20 ?v21] =>
      destruct (ffProps_lookups v1 v2 v3 v4 v5 v6 v7 v8 v9 v10 v11 v12 v13 v14 v15 v16 v17 v18 v19 v20 v21)
        as (L4 & L6 & L21 & Ld & _)
    end.
  all: try match goal with
    | |- context [crmProps ?v1 ?v2 ?v3 ?v4 ?v5 ?v6 ?v7 ?v8 ?v9 ?v10 ?v11 ?v12 ?v13 ?v14 ?v15 ?v16 ?v17 ?v18 ?v19 ?v20] =>
      destruct (crmProps_lookups v1 v2 v3 v4 v5 v6 v7 v8 v9 v10 v11 v12 v13 v14 v15 v16 v17 v18 v19 v20)
        as (_ & _ & K4 & _)
    end.
  all: cbv zeta in *;
    cbn [ev_id ev_title start allDay propsOf extendedProps];
    try rewrite L4, L6, L21, Ld, K4; repeat split.
Qed.

End CoordinatorProperties.

(** * The further properties at work on the sample data *)

(** Five ids in packs of two. *)
Lemma chunk_packs_example :
  (0 < 2)%nat
  /\ chunk [1; 2; 3; 4; 5] 2 = [[1; 2]; [3; 4]; [5]]
  /\ concat (chunk [1; 2; 3; 4; 5] 2) = [1; 2; 3; 4; 5].
Proof.
  assert (H : (0 < 2)%nat) by lia.
  split; [exact H|]. split; [reflexivity|].
  exact (proj1 (chunk_packs [1; 2; 3; 4; 5] 2%nat H)).
Defined.

(** Three records served in pages of two are gathered by two requests. *)
Lemma paging_collects_example :
  (0 < 2)%nat
  /\ servesInPages (crmInTwos "DT141_14:UC_44PKAP") [item7; item8; item9] 2
  /\ exists fuel, forall fuel', (fuel <= fuel')%nat ->
       loadItemsForOneStage fuel' crmInTwos "DT141_14:UC_44PKAP"
       = LoadedItems [item7; item8; item9].
Proof.
  assert (H1 : (0 < 2)%nat) by lia.
  assert (H2 : servesInPages (crmInTwos "DT141_14:UC_44PKAP") [item7; item8; item9] 2).
  { intros s Hs. simpl in Hs.
    destruct s as [|[|[|[|s]]]]; [reflexivity|reflexivity|reflexivity|reflexivity|lia]. }
  split; [exact H1|]. split; [exact H2|].
  exact (paging_collects crmInTwos "DT141_14:UC_44PKAP" [item7; item8; item9] 2%nat H1 H2).
Defined.

(** The endless CRM keeps the loop asking. *)
Lemma paging_needs_last_page_example :
  (forall start, exists data, crmEndless "DT141_14:UC_44PKAP" start = Some data
                              /\ ans_next data <> JUndef /\ ans_next data <> JNull)
  /\ loadItemsForOneStage 1000 crmEndless "DT141_14:UC_44PKAP" = LoadRunning.
Proof.
  assert (H : forall start, exists data, crmEndless "DT141_14:UC_44PKAP" start = Some data
                              /\ ans_next data <> JUndef /\ ans_next data <> JNull).
  { intros start. eexists. split; [reflexivity|]. split; discriminate. }
  split; [exact H|].
  exact (paging_needs_last_page crmEndless "DT141_14:UC_44PKAP" H 1000%nat).
Defined.

(** Five queries, three at a time: every result lands at its index. *)
Lemma mapLimit_pool_example :
  poolRun tenfold [1; 2; 3; 4; 5]%nat [1; 0; 2; 1; 0]%nat (poolStart [1; 2; 3; 4; 5]%nat 3)
  = Some poolSettled
  /\ (poolInFlight poolSettled <= 3)%nat
  /\ results poolSettled = List.map tenfold [1; 2; 3; 4; 5]%nat.
Proof.
  assert (H : poolRun tenfold [1; 2; 3; 4; 5]%nat [1; 0; 2; 1; 0]%nat
                (poolStart [1; 2; 3; 4; 5]%nat 3) = Some poolSettled) by reflexivity.
  split; [exact H|].
  destruct (mapLimit_pool tenfold [1; 2; 3; 4; 5]%nat 3 [1; 0; 2; 1; 0]%nat poolSettled H)
    as [Hin Hdone].
  split; [exact Hin|].
  apply Hdone; [repeat constructor|reflexivity|lia].
Defined.

(** After two of the calls have settled the rest can still settle. *)
Lemma mapLimit_settles_example :
  poolRun tenfold [1; 2; 3; 4; 5]%nat [1; 0]%nat (poolStart [1; 2; 3; 4; 5]%nat 3)
  = Some poolMidway
  /\ exists rest p', poolRun tenfold [1; 2; 3; 4; 5]%nat rest poolMidway = Some p'
                     /\ poolDone p'.
Proof.
  assert (H : poolRun tenfold [1; 2; 3; 4; 5]%nat [1; 0]%nat
                (poolStart [1; 2; 3; 4; 5]%nat 3) = Some poolMidway) by reflexivity.
  split; [exact H|].
  exact (mapLimit_settles tenfold [1; 2; 3; 4; 5]%nat 3 [1; 0]%nat poolMidway H).
Defined.

Lemma lowerText_keepsColours : keepsColours (P := runningClock).
Proof. repeat constructor. Qed.

(** The payload of the start-up pass: record 7 in dark gray with key 4, the
    manual record in red with key 3. *)
Lemma sort_key_follows_colour_example :
  keepsColours (P := runningClock)
  /\ refreshBuild (P := runningClock) "startup" up7 (fst (refreshEnter Sample.withManual))
     = (fst Sample.built, Some (Sample.builtT0, Sample.builtPayload))
  /\ events Sample.builtPayload = Some [Running.event7; Sample.eventA]
  /\ Forall (fun e => exists c k, backgroundColor e = JStr c
                        /\ prop (propsOf e) "sortKey" = JNum k /\ colourRank c k)
       [Running.event7; Sample.eventA].
Proof.
  assert (H1 : refreshBuild (P := runningClock) "startup" up7 (fst (refreshEnter Sample.withManual))
               = (fst Sample.built, Some (Sample.builtT0, Sample.builtPayload)))
    by (vm_compute; reflexivity).
  assert (H2 : events Sample.builtPayload = Some [Running.event7; Sample.eventA])
    by (vm_compute; reflexivity).
  split; [exact lowerText_keepsColours|]. split; [exact H1|]. split; [exact H2|].
  exact (sort_key_follows_colour (P := runningClock) "startup" up7 _ _ _ _ _
           lowerText_keepsColours H1 H2).
Defined.

(** Record 7 gets a customer name: the title of its event changes, the
    digest does not, and the rebuilt payload is discarded. *)
Lemma unseen_changes_are_discarded_example :
  ev_title Sample.event7named <> ev_title Running.event7
  /\ events (payload (eventsSnapshot Running.afterStartup)) = Some [Running.event7]
  /\ digest (eventsSnapshot Running.afterStartup)
     = Some (snapshotDigest (P := runningClock) (payload (eventsSnapshot Running.afterStartup)))
  /\ Forall2 (fun a b => digestView a = digestView b) [Running.event7] [Sample.event7named]
  /\ snd (commitOrDiscard (P := runningClock) "bitrix_hook" 0
            (mkPayload 0 ∅ (Some [Sample.event7named])) Running.afterStartup) = false
  /\ events (payload (eventsSnapshot
               (fst (commitOrDiscard (P := runningClock) "bitrix_hook" 0
                       (mkPayload 0 ∅ (Some [Sample.event7named])) Running.afterStartup))))
     = Some [Running.event7].
Proof.
  assert (H0 : ev_title Sample.event7named <> ev_title Running.event7)
    by (vm_compute; discriminate).
  assert (H1 : events (payload (eventsSnapshot Running.afterStartup)) = Some [Running.event7])
    by (vm_compute; reflexivity).
  assert (H2 : digest (eventsSnapshot Running.afterStartup)
               = Some (snapshotDigest (P := runningClock)
                         (payload (eventsSnapshot Running.afterStartup))))
    by (vm_compute; reflexivity).
  assert (H3 : Forall2 (fun a b => digestView a = digestView b)
                 [Running.event7] [Sample.event7named])
    by (repeat constructor).
  split; [exact H0|]. split; [exact H1|]. split; [exact H2|]. split; [exact H3|].
  destruct (unseen_changes_are_discarded (P := runningClock) "bitrix_hook" 0
              (mkPayload 0 ∅ (Some [Sample.event7named])) Running.afterStartup
              [Running.event7] [Sample.event7named] H1 eq_refl H2
              (tagDigest_nonempty _) H3) as (Hr & He & _).
  split; [exact Hr|exact He].
Defined.

(** The start-up pass run twice on the same answer: one broadcast. *)
Lemma repeated_pass_is_discarded_example :
  NoDup (List.map idOf [item7])
  /\ Forall (fun m => dated m = true)
       (List.filter (fun m => isManualId (m_id m)) (manualStore Sample.withManual))
  /\ version (eventsSnapshot
                (refreshSnapshot (P := runningClock) "bitrix_poll" up7 Sample.afterStartup))
     = version (eventsSnapshot Sample.afterStartup)
  /\ broadcasts (trace (refreshSnapshot (P := runningClock) "bitrix_poll" up7
                          Sample.afterStartup))
     = broadcasts (trace Sample.afterStartup).
Proof.
  assert (H1 : NoDup (List.map idOf [item7])) by (repeat constructor; intros H; inversion H).
  assert (H2 : Forall (fun m => dated m = true)
                 (List.filter (fun m => isManualId (m_id m)) (manualStore Sample.withManual)))
    by (repeat constructor).
  split; [exact H1|]. split; [exact H2|].
  destruct (repeated_pass_is_discarded (P := runningClock) "startup" "bitrix_poll" up7
              [item7] Sample.withManual tagDigest_nonempty eq_refl eq_refl eq_refl eq_refl
              H1 H2) as (Hv & _ & _ & Hb).
  split; [exact Hv|exact Hb].
Defined.

(** The manual record hides its marker, so its event counts as closed: the
    assigned-date patch refuses it, the manual-date patch moves it. *)
Lemma manual_patch_has_no_closed_check_example :
  events (payload (eventsSnapshot Sample.afterStartup)) = Some [Running.event7; Sample.eventA]
  /\ findIndex (fun e => String.eqb (toStr (ev_id e)) (toStr (JStr "m-1700000000000-42")))
       [Running.event7; Sample.eventA] = Some 1%nat
  /\ closed Sample.eventA = true
  /\ snd (patchSnapshotManualDate (P := runningClock) (JStr "m-1700000000000-42")
            (JStr "2024-02-12") Sample.afterStartup) = true
  /\ patchSnapshotAssignedDate (P := runningClock) (JStr "m-1700000000000-42")
       (JStr "2024-02-12") Sample.afterStartup = (Sample.afterStartup, false).
Proof.
  assert (H1 : events (payload (eventsSnapshot Sample.afterStartup))
               = Some [Running.event7; Sample.eventA]) by (vm_compute; reflexivity).
  assert (H2 : findIndex (fun e => String.eqb (toStr (ev_id e))
                                     (toStr (JStr "m-1700000000000-42")))
                 [Running.event7; Sample.eventA] = Some 1%nat) by (vm_compute; reflexivity).
  assert (H3 : closed Sample.eventA = true) by (vm_compute; reflexivity).
  split; [exact H1|]. split; [exact H2|]. split; [exact H3|].
  destruct (manual_patch_has_no_closed_check (P := runningClock) (JStr "m-1700000000000-42")
              (JStr "2024-02-12") Sample.afterStartup [Running.event7; Sample.eventA] 1%nat
              Sample.eventA H1 H2 eq_refl) as (Hr & _ & _ & _ & _ & _ & _ & _ & _ & Hc).
  rewrite H3 in Hc. split; [exact Hr|exact Hc].
Defined.

(** Record 7 is given the assigned date 2024-03-01. *)
Lemma patch_agrees_with_rebuild_example :
  snd (mapItem (P := runningClock) item7 freshGlobals) = Pushed Running.event7
  /\ filled (ufCrm8_1744639197488 item7) = false
  /\ filled (JStr "2024-03-01") = true
  /\ snd (mapItem (P := runningClock) (setAssigned (JStr "2024-03-01") item7) freshGlobals)
     = Pushed (patchEvent (JStr "2024-03-01") Running.event7).
Proof.
  assert (H1 : snd (mapItem (P := runningClock) item7 freshGlobals) = Pushed Running.event7)
    by (vm_compute; reflexivity).
  assert (H2 : filled (ufCrm8_1744639197488 item7) = false) by reflexivity.
  assert (H3 : filled (JStr "2024-03-01") = true) by reflexivity.
  split; [exact H1|]. split; [exact H2|]. split; [exact H3|].
  exact (patch_agrees_with_rebuild (P := runningClock) item7 (JStr "2024-03-01")
           freshGlobals Running.event7 H1 H2 H3).
Defined.

(** The manual record is moved to 2024-02-12. *)
Lemma put_manual_moves_the_record_example :
  isManualId (JStr "m-1700000000000-42") = true
  /\ findIndex (fun x => String.eqb (toStr (m_id x)) "m-1700000000000-42")
       (manualStore Sample.afterStartup) = Some 0%nat
  /\ manualStore Sample.afterStartup !! 0%nat = Some manualA
  /\ snd (fst (putManual (P := runningClock) "m-1700000000000-42" (JStr "2024-02-12") JUndef
                 true Sample.afterStartup)) = ReplyOk
  /\ manualStore (fst (fst (putManual (P := runningClock) "m-1700000000000-42"
                              (JStr "2024-02-12") JUndef true Sample.afterStartup)))
     !! 0%nat
     = Some (setManualDates "2024-02-12" "2024-02-12" manualA).
Proof.
  assert (H1 : isManualId (JStr "m-1700000000000-42") = true) by reflexivity.
  assert (H2 : findIndex (fun x => String.eqb (toStr (m_id x)) "m-1700000000000-42")
                 (manualStore Sample.afterStartup) = Some 0%nat) by (vm_compute; reflexivity).
  assert (H3 : manualStore Sample.afterStartup !! 0%nat = Some manualA)
    by (vm_compute; reflexivity).
  split; [exact H1|]. split; [exact H2|]. split; [exact H3|].
  destruct (put_manual_moves_the_record (P := runningClock) "m-1700000000000-42"
              (JStr "2024-02-12") JUndef Sample.afterStartup 0%nat manualA H1 H2 H3)
    as (Hr & Hs & _).
  split; [rewrite Hr; reflexivity|exact Hs].
Defined.

(** A refresh, a done mark, a manual patch, a new manual record and a
    poller tick. *)
Lemma snapshot_stays_coherent_example :
  coherent (P := runningClock) Sample.withManual
  /\ coherent (P := runningClock) (serveAll (P := runningClock) Sample.requests Sample.withManual).
Proof.
  assert (H : coherent (P := runningClock) Sample.withManual)
    by (split; [left; reflexivity|reflexivity]).
  split; [exact H|].
  exact (snapshot_stays_coherent (P := runningClock) Sample.requests Sample.withManual H).
Defined.

(** Three triggers on an idle process and the timer firing: one pass, for
    the reason of the third. *)
Lemma idle_burst_starts_one_pass_example :
  refreshInFlight (globals Sample.idle) = false
  /\ exists c',
       run (P := runningClock)
         [Trigger "bitrix_hook"; Trigger "done_update"; Trigger "bitrix_poll"; TimerFires]
         Sample.idle = Some c'
       /\ passesStarted c' = 1%nat /\ flightReason c' = "bitrix_poll".
Proof.
  assert (H : refreshInFlight (globals Sample.idle) = false) by reflexivity.
  split; [exact H|].
  destruct (idle_burst_starts_one_pass (P := runningClock) ["bitrix_hook"; "done_update"]
              "bitrix_poll" Sample.idle H) as (c' & Hrun & Hp & _ & Hr & _).
  exists c'. split; [exact Hrun|]. split; [exact Hp|exact Hr].
Defined.

